(** * stereoplayer: the audio/video pipeline of [src/js]

    A shallow embedding of the frame pipeline found in
    [src/src/js/opencv-wrapper.js].  That file holds three pieces of text:
    the OpenCV loader (lines 1-44), a first declaration of
    [class AVPipeline extends EventEmitter] (lines 53-517) and a second
    declaration of [class AVPipeline extends MediaPipeline] (lines 525-1160).
    Both declarations act on one object layout (the same fields are set in
    both constructors), so a single record [AVPipeline] is the state, and
    the methods of the two declarations live in the modules [Emitter] and
    [Media].

    Numbers: pixel dimensions and byte lengths are [N], the frame counters
    of a ring buffer are [Z] (the code decrements them without a floor), and
    clock readings and media time are exact rationals [Q] standing for the
    doubles of the source. *)

From Stdlib Require Import ZArith NArith QArith Qminmax Qround Lqa Lia List Bool String.
From stdpp Require Import gmap.
Import ListNotations.

Local Open Scope N_scope.

(** ** Bytes *)

Abbreviation byte := Byte.byte.

(** [x.length] of a typed array. *)
Definition byteLength (l : list byte) : N := N.of_nat (length l).

(** ** The ring buffer *)

(** Modelled from the spec: the ring buffer class is not part of [src/];
    section 6 gives its contract, [push(bytes) -> bytesWritten],
    [pop(destinationBuffer) -> bytesRead], [available_write()], [capacity],
    and the mutable fields [count] and [maxFrames] that the caller keeps.
    The unread bytes are held oldest first. *)
Record RingBuffer := mkRingBuffer {
  capacity : N;
  stored : list byte;
  count : Z;
  maxFrames : Z
}.

Definition available_read (rb : RingBuffer) : N := byteLength (stored rb).

Definition available_write (rb : RingBuffer) : N := capacity rb - available_read rb.

(** [push] writes as many bytes as fit and reports how many. *)
Definition push (bytes : list byte) (rb : RingBuffer) : RingBuffer * N :=
  let n := N.min (byteLength bytes) (available_write rb) in
  (mkRingBuffer (capacity rb) (stored rb ++ firstn (N.to_nat n) bytes)
                (count rb) (maxFrames rb), n).

(** [pop] fills a destination of [n] bytes from the read side, as far as
    bytes are available; it returns the bytes read. *)
Definition pop (n : N) (rb : RingBuffer) : RingBuffer * list byte :=
  let k := N.to_nat (N.min n (available_read rb)) in
  (mkRingBuffer (capacity rb) (skipn k (stored rb)) (count rb) (maxFrames rb),
   firstn k (stored rb)).

Definition set_count (c : Z) (rb : RingBuffer) : RingBuffer :=
  mkRingBuffer (capacity rb) (stored rb) c (maxFrames rb).

(** ** Data carried through the pipeline *)

(** The payload of a [videoFrame] event.  [data] holds the elements of the
    typed array [frame.data] and [data_buffer] the bytes of
    [frame.data.buffer], the ArrayBuffer under it: the same bytes when the
    array owns its storage, more of them when the array is a window into
    larger storage.  The second class declaration emits no [timestamp]. *)
Record Frame := viewFrame {
  data : list byte;
  data_buffer : list byte;
  width : N;
  height : N;
  timestamp : option Q
}.

(** A frame whose payload owns its storage, as both capture steps build
    it: [imageData.data] on line 306, [new Uint8Array(rgba.data)] on line
    898. *)
Definition mkFrame (data : list byte) (width height : N) (timestamp : option Q) : Frame :=
  viewFrame data data width height timestamp.

(** [this.textureRequirements]. *)
Record TextureRequirements := mkTextureRequirements {
  tr_width : N;
  tr_height : N;
  tr_format : string;
  tr_frameSize : N
}.

(** [texture.userData.mpegTextureInfo]. *)
Record MpegTextureInfo := mkMpegTextureInfo {
  mi_width : N;
  mi_height : N;
  mi_format : string;
  mi_frameSize : N
}.

(** A video source of the texture extension.  The first class declaration
    reads its ring buffer as [circularBuffer], the second one as
    [bufferCircular]. *)
Record VideoSource := mkVideoSource {
  circularBuffer : option RingBuffer;
  bufferCircular : option RingBuffer
}.

(** The texture extension: [textures] and [sources], keyed by source id. *)
Record TextureExtension := mkTextureExtension {
  textures : gmap N MpegTextureInfo;
  sources : gmap N VideoSource
}.

(** ** The browser objects the pipeline holds *)

(** The [<video>] element: the decode surface.  [picture] is the decoded
    frame as RGBA bytes at the native resolution. *)
Record VideoElement := mkVideoElement {
  paused : bool;
  ended : bool;
  readyState : N;
  currentTime : Q;
  videoWidth : N;
  videoHeight : N;
  picture : list byte
}.

Record Canvas := mkCanvas {
  canvas_width : N;
  canvas_height : N
}.

(** [this.videoDestination = { canvas, context, texture }]; [dispose] nulls
    the fields and keeps the object. *)
Record VideoDestination := mkVideoDestination {
  canvas : option Canvas;
  context : bool
}.

Inductive AudioState := suspended | running | closed.

(** The closure state of the callback handed to [setInterval].  The first
    class declaration paces its captures ([PacedInterval], lines 188-206);
    the second one captures on every tick ([PlainInterval], lines 725-727). *)
Record Pacer := mkPacer {
  targetInterval : Q;
  lastProcessTime : Q;
  frameDelay : Q
}.

Inductive Interval :=
| PacedInterval (period : Q) (pc : Pacer)
| PlainInterval (period : Q).

(** A listener registered with [this.on('videoFrame', ...)]: the closure
    [frameHandler] of the first declaration, which captures [sourceId] and
    [mpegInfo], or the arrow function of the second one, which captures
    only [this]. *)
Inductive Listener :=
| FrameHandler (sourceId : N) (mpegInfo : MpegTextureInfo)
| TextureListener.

(** ** The pipeline object *)

Record AVPipeline := mkAVPipeline {
  dashPlayer : bool;
  videoElement : option VideoElement;
  audioContext : option AudioState;
  videoDestination : option VideoDestination;
  isInitialized : bool;
  videoProcessingInterval : option Interval;
  videoSources : gmap N VideoSource;
  textureRequirements : TextureRequirements;
  _lastFrameTime : option Q;
  videoSource : option VideoSource;
  targetWidth : option N;
  targetHeight : option N;
  frameSize : option N;
  playOverlay : bool;
  playButton : bool;
  listeners : list Listener
}.

(** Field assignments [this.f = x]. *)
Definition set_dashPlayer (x : bool) (p : AVPipeline) : AVPipeline :=
  mkAVPipeline x (videoElement p) (audioContext p) (videoDestination p)
    (isInitialized p) (videoProcessingInterval p) (videoSources p)
    (textureRequirements p) (_lastFrameTime p) (videoSource p) (targetWidth
    p) (targetHeight p) (frameSize p) (playOverlay p) (playButton p)
    (listeners p).

Definition set_videoElement (x : option VideoElement) (p : AVPipeline) : AVPipeline :=
  mkAVPipeline (dashPlayer p) x (audioContext p) (videoDestination p)
    (isInitialized p) (videoProcessingInterval p) (videoSources p)
    (textureRequirements p) (_lastFrameTime p) (videoSource p) (targetWidth
    p) (targetHeight p) (frameSize p) (playOverlay p) (playButton p)
    (listeners p).

Definition set_audioContext (x : option AudioState) (p : AVPipeline) : AVPipeline :=
  mkAVPipeline (dashPlayer p) (videoElement p) x (videoDestination p)
    (isInitialized p) (videoProcessingInterval p) (videoSources p)
    (textureRequirements p) (_lastFrameTime p) (videoSource p) (targetWidth
    p) (targetHeight p) (frameSize p) (playOverlay p) (playButton p)
    (listeners p).

Definition set_videoDestination (x : option VideoDestination) (p : AVPipeline) : AVPipeline :=
  mkAVPipeline (dashPlayer p) (videoElement p) (audioContext p) x
    (isInitialized p) (videoProcessingInterval p) (videoSources p)
    (textureRequirements p) (_lastFrameTime p) (videoSource p) (targetWidth
    p) (targetHeight p) (frameSize p) (playOverlay p) (playButton p)
    (listeners p).

Definition set_isInitialized (x : bool) (p : AVPipeline) : AVPipeline :=
  mkAVPipeline (dashPlayer p) (videoElement p) (audioContext p)
    (videoDestination p) x (videoProcessingInterval p) (videoSources p)
    (textureRequirements p) (_lastFrameTime p) (videoSource p) (targetWidth
    p) (targetHeight p) (frameSize p) (playOverlay p) (playButton p)
    (listeners p).

Definition set_videoProcessingInterval (x : option Interval) (p : AVPipeline) : AVPipeline :=
  mkAVPipeline (dashPlayer p) (videoElement p) (audioContext p)
    (videoDestination p) (isInitialized p) x (videoSources p)
    (textureRequirements p) (_lastFrameTime p) (videoSource p) (targetWidth
    p) (targetHeight p) (frameSize p) (playOverlay p) (playButton p)
    (listeners p).

Definition set_videoSources (x : gmap N VideoSource) (p : AVPipeline) : AVPipeline :=
  mkAVPipeline (dashPlayer p) (videoElement p) (audioContext p)
    (videoDestination p) (isInitialized p) (videoProcessingInterval p) x
    (textureRequirements p) (_lastFrameTime p) (videoSource p) (targetWidth
    p) (targetHeight p) (frameSize p) (playOverlay p) (playButton p)
    (listeners p).

Definition set_textureRequirements (x : TextureRequirements) (p : AVPipeline) : AVPipeline :=
  mkAVPipeline (dashPlayer p) (videoElement p) (audioContext p)
    (videoDestination p) (isInitialized p) (videoProcessingInterval p)
    (videoSources p) x (_lastFrameTime p) (videoSource p) (targetWidth p)
    (targetHeight p) (frameSize p) (playOverlay p) (playButton p)
    (listeners p).

Definition set_lastFrameTime (x : option Q) (p : AVPipeline) : AVPipeline :=
  mkAVPipeline (dashPlayer p) (videoElement p) (audioContext p)
    (videoDestination p) (isInitialized p) (videoProcessingInterval p)
    (videoSources p) (textureRequirements p) x (videoSource p) (targetWidth
    p) (targetHeight p) (frameSize p) (playOverlay p) (playButton p)
    (listeners p).

Definition set_videoSource (x : option VideoSource) (p : AVPipeline) : AVPipeline :=
  mkAVPipeline (dashPlayer p) (videoElement p) (audioContext p)
    (videoDestination p) (isInitialized p) (videoProcessingInterval p)
    (videoSources p) (textureRequirements p) (_lastFrameTime p) x
    (targetWidth p) (targetHeight p) (frameSize p) (playOverlay p)
    (playButton p) (listeners p).

Definition set_targetWidth (x : option N) (p : AVPipeline) : AVPipeline :=
  mkAVPipeline (dashPlayer p) (videoElement p) (audioContext p)
    (videoDestination p) (isInitialized p) (videoProcessingInterval p)
    (videoSources p) (textureRequirements p) (_lastFrameTime p) (videoSource
    p) x (targetHeight p) (frameSize p) (playOverlay p) (playButton p)
    (listeners p).

Definition set_targetHeight (x : option N) (p : AVPipeline) : AVPipeline :=
  mkAVPipeline (dashPlayer p) (videoElement p) (audioContext p)
    (videoDestination p) (isInitialized p) (videoProcessingInterval p)
    (videoSources p) (textureRequirements p) (_lastFrameTime p) (videoSource
    p) (targetWidth p) x (frameSize p) (playOverlay p) (playButton p)
    (listeners p).

Definition set_frameSize (x : option N) (p : AVPipeline) : AVPipeline :=
  mkAVPipeline (dashPlayer p) (videoElement p) (audioContext p)
    (videoDestination p) (isInitialized p) (videoProcessingInterval p)
    (videoSources p) (textureRequirements p) (_lastFrameTime p) (videoSource
    p) (targetWidth p) (targetHeight p) x (playOverlay p) (playButton p)
    (listeners p).

Definition set_playOverlay (x : bool) (p : AVPipeline) : AVPipeline :=
  mkAVPipeline (dashPlayer p) (videoElement p) (audioContext p)
    (videoDestination p) (isInitialized p) (videoProcessingInterval p)
    (videoSources p) (textureRequirements p) (_lastFrameTime p) (videoSource
    p) (targetWidth p) (targetHeight p) (frameSize p) x (playButton p)
    (listeners p).

Definition set_playButton (x : bool) (p : AVPipeline) : AVPipeline :=
  mkAVPipeline (dashPlayer p) (videoElement p) (audioContext p)
    (videoDestination p) (isInitialized p) (videoProcessingInterval p)
    (videoSources p) (textureRequirements p) (_lastFrameTime p) (videoSource
    p) (targetWidth p) (targetHeight p) (frameSize p) (playOverlay p) x
    (listeners p).

Definition set_listeners (x : list Listener) (p : AVPipeline) : AVPipeline :=
  mkAVPipeline (dashPlayer p) (videoElement p) (audioContext p)
    (videoDestination p) (isInitialized p) (videoProcessingInterval p)
    (videoSources p) (textureRequirements p) (_lastFrameTime p) (videoSource
    p) (targetWidth p) (targetHeight p) (frameSize p) (playOverlay p)
    (playButton p) x.

(** ** What a method call leaves behind *)

Inductive Error :=
| TextureNotFound (sourceId : N)
| VideoSourceNotFound (sourceId : N)
| TargetDimensionsNotFound
| NotAllowedError
| InvalidStateError
| TypeError.

(** The scratch matrices of the conversion step, by the name of the
    variable that holds them. *)
Inductive MatName := src | dst | resized | rgba.

(** The effects a call has on the world outside the pipeline object. *)
Inductive Event :=
| Emitted (f : Frame)
| MatCreated (m : MatName)
| MatDeleted (m : MatName)
| IntervalSet (period : Q)
| IntervalCleared
| PlayerReset
| ElementRemoved
| ElementPaused
| AudioClosed
| OverlayRemoved.

Record Completion := mkCompletion {
  after : AVPipeline;
  trace : list Event;
  thrown : option Error
}.

Definition returns (p : AVPipeline) (t : list Event) : Completion :=
  mkCompletion p t None.

Definition throws (p : AVPipeline) (t : list Event) (e : Error) : Completion :=
  mkCompletion p t (Some e).

(** The frames a trace hands to [emit('videoFrame', ...)]. *)
Fixpoint emitted (t : list Event) : list Frame :=
  match t with
  | [] => []
  | Emitted f :: t' => f :: emitted t'
  | _ :: t' => emitted t'
  end.

Definition MatName_eqb (a b : MatName) : bool :=
  match a, b with
  | src, src | dst, dst | resized, resized | rgba, rgba => true
  | _, _ => false
  end.

(** The matrices a trace has created and not deleted. *)
Fixpoint live (t : list Event) (held : list MatName) : list MatName :=
  match t with
  | [] => held
  | MatCreated m :: t' => live t' (held ++ [m])
  | MatDeleted m :: t' => live t' (filter (fun x => negb (MatName_eqb x m)) held)
  | _ :: t' => live t' held
  end.

(** ** Frame feed: the listeners of [videoFrame] *)

(** The body of the [try] block of [frameHandler] (lines 409-425) on the
    ring buffer it is given. *)
Definition writeFrame (frameData : list byte) (circularBuffer : RingBuffer) : RingBuffer :=
  let availableSpace := available_write circularBuffer in
  let cb1 :=
    if (maxFrames circularBuffer <=? count circularBuffer)%Z then
      let '(cb, oldData) := pop (byteLength frameData) circularBuffer in
      set_count (count cb - 1) cb
    else circularBuffer in
  let '(cb2, bytesWritten) := push frameData cb1 in
  set_count (count cb2 + 1) cb2.

(** [frameHandler] (lines 391-430), the closure over [sourceId] and
    [mpegInfo] that the first [connectVideoTexture] registers. *)
Definition frameHandler (sourceId : N) (mpegInfo : MpegTextureInfo)
    (frame : Frame) (p : AVPipeline) : AVPipeline :=
  match videoSources p !! sourceId with
  | None => p
  | Some vs =>
      match circularBuffer vs with
      | None => p
      | Some cb =>
          if negb (width frame =? mi_width mpegInfo)
             || negb (height frame =? mi_height mpegInfo)
          then p
          else
            let vs' := mkVideoSource (Some (writeFrame (data frame) cb)) (bufferCircular vs) in
            set_videoSources (<[sourceId := vs']> (videoSources p)) p
      end
  end.

(** The arrow function that the second [connectVideoTexture] registers
    (lines 988-1047).  A target dimension that was never set is
    [undefined], which no frame dimension equals.  Line 1006 wraps
    [frame.data.buffer]: what is measured and pushed is the whole storage
    under the payload, not the payload. *)
Definition onVideoFrame (frame : Frame) (p : AVPipeline) : AVPipeline :=
  match videoSource p with
  | None => p
  | Some vs =>
      match bufferCircular vs, targetWidth p, targetHeight p with
      | Some rb, Some tw, Some th =>
          if negb (width frame =? tw) || negb (height frame =? th) then p
          else
            let frameData := data_buffer frame in
            let expectedSize := tw * th * 4 in
            if negb (byteLength frameData =? expectedSize) then p
            else
              let '(rb', written) := push frameData rb in
              set_videoSource (Some (mkVideoSource (circularBuffer vs) (Some rb'))) p
      | _, _, _ => p
      end
  end.

Definition runListener (frame : Frame) (p : AVPipeline) (l : Listener) : AVPipeline :=
  match l with
  | FrameHandler sourceId mpegInfo => frameHandler sourceId mpegInfo frame p
  | TextureListener => onVideoFrame frame p
  end.

(** Modelled from the spec: [emit] of the event emitter base class, which
    is not part of [src/]; section 9 has it call the registered listeners
    synchronously, in registration order. *)
Definition emit (frame : Frame) (p : AVPipeline) : AVPipeline :=
  fold_left (runListener frame) (listeners p) p.

(** [this.on('videoFrame', l)] of the same base class: the listener is put
    last. *)
Definition on (l : Listener) (p : AVPipeline) : AVPipeline :=
  set_listeners (listeners p ++ [l]) p.

(** ** Canvas read-back *)

Record ImageData := mkImageData {
  id_data : list byte;
  id_width : N;
  id_height : N
}.

(** Exactly [n] bytes of a surface, transparent black beyond its end. *)
Definition readBytes (n : nat) (surface : list byte) : list byte :=
  firstn n surface ++ repeat Byte.x00 (n - length surface).

(** [context.getImageData(0, 0, sw, sh)]: an empty rectangle raises an
    IndexSizeError, any other one yields [4 * sw * sh] bytes. *)
Definition getImageData (sw sh : N) (surface : list byte) : option ImageData :=
  if (sw =? 0) || (sh =? 0) then None
  else Some (mkImageData (readBytes (N.to_nat (4 * sw * sh)) surface) sw sh).

(** ** The vision library *)

(** Modelled from the spec: the OpenCV primitives are an external library
    (section 4.2 names the three steps); a matrix is its shape and its
    bytes, row after row, channel values interleaved. *)
Module cv.

Record Mat := mkMat {
  rows : N;
  cols : N;
  channels : N;
  mat_data : list byte
}.

Definition matFromImageData (img : ImageData) : Mat :=
  mkMat (id_height img) (id_width img) 4 (id_data img).

Fixpoint RGBA2RGB (l : list byte) : list byte :=
  match l with
  | r :: g :: b :: a :: l' => r :: g :: b :: RGBA2RGB l'
  | _ => []
  end.

Fixpoint RGB2RGBA (l : list byte) : list byte :=
  match l with
  | r :: g :: b :: l' => r :: g :: b :: Byte.xff :: RGB2RGBA l'
  | _ => []
  end.

Inductive ColorConversion := COLOR_RGBA2RGB | COLOR_RGB2RGBA.

Definition cvtColor (m : Mat) (code : ColorConversion) : Mat :=
  match code with
  | COLOR_RGBA2RGB => mkMat (rows m) (cols m) 3 (RGBA2RGB (mat_data m))
  | COLOR_RGB2RGBA => mkMat (rows m) (cols m) 4 (RGB2RGBA (mat_data m))
  end.

(** An interpolation method gives the value of channel [k] of the pixel
    at row [r] and column [c] of the destination. *)
Definition Interpolation := Mat -> N -> N -> nat -> nat -> nat -> byte.

Definition resize (m : Mat) (dsize_width dsize_height : N)
    (interpolation : Interpolation) : Mat :=
  mkMat dsize_height dsize_width (channels m)
    (flat_map (fun r =>
       flat_map (fun c =>
         map (fun k => interpolation m dsize_width dsize_height r c k)
             (seq 0 (N.to_nat (channels m))))
         (seq 0 (N.to_nat dsize_width)))
       (seq 0 (N.to_nat dsize_height))).

Definition at_ (m : Mat) (y x : Z) (k : nat) : Z :=
  Z.of_N (Byte.to_N
    (nth (Z.to_nat ((y * Z.of_N (cols m) + x) * Z.of_N (channels m)) + k)
         (mat_data m) Byte.x00)).

(** Where destination index [i] of [n] falls among [len] source samples:
    the lower neighbour and the weight of the upper one, over [2 * n]. *)
Definition sourceCoordinate (i : nat) (n len : N) : Z * Z :=
  let num := ((2 * Z.of_nat i + 1) * Z.of_N len - Z.of_N n)%Z in
  let den := (2 * Z.of_N n)%Z in
  if (num <? 0)%Z then (0, 0)%Z else ((num / den)%Z, (num mod den)%Z).

(** Bilinear interpolation between the four neighbours, rounded. *)
Definition INTER_LINEAR : Interpolation := fun m w h r c k =>
  let '(y0, fy) := sourceCoordinate r h (rows m) in
  let '(x0, fx) := sourceCoordinate c w (cols m) in
  let y1 := Z.min (y0 + 1) (Z.of_N (rows m) - 1) in
  let x1 := Z.min (x0 + 1) (Z.of_N (cols m) - 1) in
  let dx := (2 * Z.of_N w)%Z in
  let dy := (2 * Z.of_N h)%Z in
  let top := ((dx - fx) * at_ m y0 x0 k + fx * at_ m y0 x1 k)%Z in
  let bottom := ((dx - fx) * at_ m y1 x0 k + fx * at_ m y1 x1 k)%Z in
  let v := (((dy - fy) * top + fy * bottom + dx * dy / 2) / (dx * dy))%Z in
  match Byte.of_N (Z.to_N v) with
  | Some b => b
  | None => Byte.xff
  end.

End cv.

(** ** Pacing *)

Definition N2Q (n : N) : Q := inject_Z (Z.of_N n).

(** Line 181 and line 188: the target interval in milliseconds, from the
    frames decoded so far ([None] when the element has no playback quality)
    and the media time.  A quotient that is zero or not a number falls back
    to 30 frames per second; an infinite frame rate gives interval 0. *)
Definition targetIntervalOf (totalVideoFrames : option N) (currentTime : Q) : Q :=
  match totalVideoFrames with
  | None | Some 0 => 1000 / 30
  | Some n =>
      if Qeq_bool currentTime 0 then 0
      else 1000 / (N2Q n / currentTime)
  end.

(** The period handed to [setInterval] (line 206). *)
Definition tickPeriod (targetInterval : Q) : Q :=
  Qmin (targetInterval / 2) (1667 # 100).

(** Line 194. *)
Definition elapsedAt (pc : Pacer) (now : Q) : Q := now - lastProcessTime pc.

(** Line 197: is a capture due on the tick that reads the clock at [now]? *)
Definition due (pc : Pacer) (now : Q) : bool :=
  Qle_bool (targetInterval pc - frameDelay pc) (elapsedAt pc now).

(** Lines 202-204: the closure variables after a capture that took
    [processTime]. *)
Definition paced (pc : Pacer) (now processTime : Q) : Pacer :=
  mkPacer (targetInterval pc) now
    (Qmax 0 (processTime - (targetInterval pc - elapsedAt pc now))).

(** Modelled from the spec: the timer of the host is not part of [src/];
    section 5 has a tick run only after the previous tick's synchronous
    work is complete.  After a tick at [now] whose callback returned at
    [finished], the next tick runs one period after [now], or as soon as
    the callback has returned if that is later. *)
Definition nextTick (period now finished : Q) : Q :=
  Qmax (now + period) finished.

(** Assignments to the attributes of the video element. *)
Definition set_paused (x : bool) (v : VideoElement) : VideoElement :=
  mkVideoElement x (ended v) (readyState v) (currentTime v)
    (videoWidth v) (videoHeight v) (picture v).

Definition set_currentTime (x : Q) (v : VideoElement) : VideoElement :=
  mkVideoElement (paused v) (ended v) (readyState v) x
    (videoWidth v) (videoHeight v) (picture v).

(** ** First declaration: [class AVPipeline extends EventEmitter] *)

Module Emitter.

(** [stopVideoProcessing] (lines 219-224). *)
Definition stopVideoProcessing (p : AVPipeline) : Completion :=
  match videoProcessingInterval p with
  | Some _ => returns (set_videoProcessingInterval None p) [IntervalCleared]
  | None => returns p []
  end.

(** [startVideoProcessing] (lines 147-217).  [totalVideoFrames] is what
    the playback quality of the element reports and [now] the reading of
    [performance.now()] on line 189. *)
Definition startVideoProcessing (totalVideoFrames : option N) (now : Q)
    (p : AVPipeline) : Completion :=
  match videoProcessingInterval p with
  | Some _ => returns p []
  | None =>
      match videoElement p with
      | None => throws p [] TypeError
      | Some v =>
          if 2 <=? readyState v then
            let targetInterval := targetIntervalOf totalVideoFrames (currentTime v) in
            let lastProcessTime := now in
            let frameDelay := 0%Q in
            let period := tickPeriod targetInterval in
            returns
              (set_videoProcessingInterval
                 (Some (PacedInterval period
                          (mkPacer targetInterval lastProcessTime frameDelay))) p)
              [IntervalSet period]
          else returns p []
      end
  end.

(** Lines 245-246: the frame-skip test against [this._lastFrameTime],
    which is skipped when that field is falsy: never set, or zero. *)
Definition tooSoon (lastFrameTime : option Q) (currentTime : Q) : bool :=
  match lastFrameTime with
  | None => false
  | Some t =>
      negb (Qeq_bool t 0) && negb (Qle_bool (1 # 60) (currentTime - t))
  end.

Record DrawRect := mkDrawRect {
  offsetX : Q;
  offsetY : Q;
  drawWidth : Q;
  drawHeight : Q
}.

(** Lines 272-289: the rectangle the video is drawn into.  With a target
    height of zero the aspect of the source is not a finite number; the
    read-back of line 302 abandons the capture in that case, so the
    rectangle is not used. *)
Definition letterbox (videoWidth videoHeight targetWidth targetHeight : N) : DrawRect :=
  let sourceAspect := (N2Q videoWidth / N2Q videoHeight)%Q in
  let targetAspect := (N2Q targetWidth / N2Q targetHeight)%Q in
  if negb (Qle_bool sourceAspect targetAspect) then
    let drawHeight := N2Q targetHeight in
    let drawWidth := (drawHeight * sourceAspect)%Q in
    mkDrawRect ((N2Q targetWidth - drawWidth) / 2) 0 drawWidth drawHeight
  else
    let drawWidth := N2Q targetWidth in
    let drawHeight := (drawWidth / sourceAspect)%Q in
    mkDrawRect 0 ((N2Q targetHeight - drawHeight) / 2) drawWidth drawHeight.

Section Capture.

(** What the canvas holds after [fillRect] and [drawImage]: the scaled
    picture over black, as the browser rasterizes it. *)
Variable rasterize : VideoElement -> DrawRect -> N -> N -> list byte.

(** [processVideoFrame] (lines 226-317).  Everything from line 262 on
    runs inside [try]; whatever is raised there is logged and the call
    returns. *)
Definition processVideoFrame (p : AVPipeline) : Completion :=
  match videoElement p with
  | None => returns p []
  | Some v =>
      if paused v || ended v then returns p []
      else if tooSoon (_lastFrameTime p) (currentTime v) then returns p []
      else
        let p1 := set_lastFrameTime (Some (currentTime v)) p in
        let videoWidth := videoWidth v in
        let videoHeight := videoHeight v in
        let targetWidth := tr_width (textureRequirements p1) in
        let targetHeight := tr_height (textureRequirements p1) in
        if (videoWidth =? 0) || (videoHeight =? 0) then returns p1 []
        else
          match videoDestination p1 with
          | Some (mkVideoDestination (Some _) hasContext) =>
              let sized := mkVideoDestination
                             (Some (mkCanvas targetWidth targetHeight)) hasContext in
              let p2 := set_videoDestination (Some sized) p1 in
              if hasContext then
                let rect := letterbox videoWidth videoHeight targetWidth targetHeight in
                match getImageData targetWidth targetHeight
                        (rasterize v rect targetWidth targetHeight) with
                | Some imageData =>
                    let frame := mkFrame (id_data imageData) (id_width imageData)
                                   (id_height imageData) (Some (currentTime v)) in
                    returns (emit frame p2) [Emitted frame]
                | None => returns p2 []
                end
              else returns p2 []
          | _ => returns p1 []
          end
  end.

(** The callback handed to [setInterval] (lines 192-205).  [now],
    [processStart] and [finished] are the three readings of
    [performance.now()], in the order in which they are taken. *)
Definition intervalCallback (now processStart finished : Q)
    (p : AVPipeline) : Completion :=
  match videoProcessingInterval p with
  | Some (PacedInterval period pc) =>
      if due pc now then
        let c := processVideoFrame p in
        let processTime := (finished - processStart)%Q in
        mkCompletion
          (set_videoProcessingInterval
             (Some (PacedInterval period (paced pc now processTime))) (after c))
          (trace c) (thrown c)
      else returns p []
  | _ => returns p []
  end.

End Capture.

(** [connectVideoTexture] (lines 360-434). *)
Definition connectVideoTexture (textureExtension : TextureExtension)
    (sourceId : N) (p : AVPipeline) : Completion :=
  match textures textureExtension !! sourceId with
  | None => throws p [] (TextureNotFound sourceId)
  | Some mpegInfo =>
      match sources textureExtension !! sourceId with
      | None => throws p [] (VideoSourceNotFound sourceId)
      | Some videoSource =>
          let p1 := set_videoSources (<[sourceId := videoSource]> (videoSources p)) p in
          returns (on (FrameHandler sourceId mpegInfo) p1) []
      end
  end.

(** [pause] (lines 509-511). *)
Definition pause (p : AVPipeline) : Completion :=
  match videoElement p with
  | None => throws p [] TypeError
  | Some v => returns (set_videoElement (Some (set_paused true v)) p) [ElementPaused]
  end.

(** [stop] (lines 513-516). *)
Definition stop (p : AVPipeline) : Completion :=
  match videoElement p with
  | None => throws p [] TypeError
  | Some v =>
      returns (set_videoElement (Some (set_currentTime 0 (set_paused true v))) p)
              [ElementPaused]
  end.

End Emitter.

(** ** Second declaration: [class AVPipeline extends MediaPipeline] *)

Module Media.

(** [stopVideoProcessing] (lines 740-747). *)
Definition stopVideoProcessing (p : AVPipeline) : Completion :=
  match videoProcessingInterval p with
  | Some _ => returns (set_videoProcessingInterval None p) [IntervalCleared]
  | None => returns p []
  end.

(** [startVideoProcessing] (lines 713-735).  Both branches read
    [this.videoElement.readyState]; [playbackRate] is the attribute of the
    element that the player holds. *)
Definition startVideoProcessing (playbackRate : Q) (p : AVPipeline) : Completion :=
  match videoElement p with
  | None => throws p [] TypeError
  | Some v =>
      match videoProcessingInterval p with
      | Some _ => returns p []
      | None =>
          if 2 <=? readyState v then
            if dashPlayer p then
              let frameRate := if Qeq_bool playbackRate 0 then 30%Q else playbackRate in
              let period := (1000 / frameRate)%Q in
              returns (set_videoProcessingInterval (Some (PlainInterval period)) p)
                      [IntervalSet period]
            else throws p [] TypeError
          else returns p []
      end
  end.

(** [processVideoFrame] (lines 752-930).  The canvas is sized to the
    source and the picture drawn at its native resolution, so the
    read-back is the picture itself.  The size test of line 775 is
    outside [try]; from line 782 on, whatever is raised is swallowed. *)
Definition processVideoFrame (p : AVPipeline) : Completion :=
  match videoElement p with
  | None => returns p []
  | Some v =>
      if paused v || ended v then returns p []
      else
        let videoWidth := videoWidth v in
        let videoHeight := videoHeight v in
        if (videoWidth =? 0) || (videoHeight =? 0) then returns p []
        else
          match videoDestination p with
          | Some (mkVideoDestination (Some _) hasContext) =>
              let sized := mkVideoDestination
                             (Some (mkCanvas videoWidth videoHeight)) hasContext in
              let p1 := set_videoDestination (Some sized) p in
              if hasContext then
                match getImageData videoWidth videoHeight (picture v) with
                | None => returns p1 []
                | Some imageData =>
                    let src_ := cv.matFromImageData imageData in
                    let targetWidth := tr_width (textureRequirements p1) in
                    let targetHeight := tr_height (textureRequirements p1) in
                    if (targetWidth =? 0) || (targetHeight =? 0) then
                      returns p1 [MatCreated src; MatCreated dst]
                    else
                      let dst_ := cv.cvtColor src_ cv.COLOR_RGBA2RGB in
                      let resized_ :=
                        cv.resize dst_ targetWidth targetHeight cv.INTER_LINEAR in
                      let rgba_ := cv.cvtColor resized_ cv.COLOR_RGB2RGBA in
                      let data := cv.mat_data rgba_ in
                      let frame := mkFrame data targetWidth targetHeight None in
                      returns (emit frame p1)
                        [MatCreated src; MatCreated dst; MatCreated resized;
                         MatCreated rgba; MatDeleted resized; MatDeleted src;
                         MatDeleted dst; MatDeleted rgba; Emitted frame]
                end
              else returns p1 []
          | _ => throws p [] TypeError
          end
  end.

(** The callback handed to [setInterval] (lines 725-727). *)
Definition intervalCallback (p : AVPipeline) : Completion :=
  match videoProcessingInterval p with
  | Some _ => processVideoFrame p
  | None => returns p []
  end.

(** [connectVideoTexture] (lines 937-1048). *)
Definition connectVideoTexture (textureExtension : TextureExtension)
    (sourceId : N) (p : AVPipeline) : Completion :=
  match textures textureExtension !! sourceId with
  | None => throws p [] (TextureNotFound sourceId)
  | Some mpegInfo =>
      let p1 := set_videoSource (sources textureExtension !! sourceId) p in
      match videoSource p1 with
      | None => throws p1 [] (VideoSourceNotFound sourceId)
      | Some _ =>
          let p2 := set_frameSize (Some (mi_frameSize mpegInfo))
                      (set_targetHeight (Some (mi_height mpegInfo))
                         (set_targetWidth (Some (mi_width mpegInfo)) p1)) in
          if (mi_width mpegInfo =? 0) || (mi_height mpegInfo =? 0) then
            throws p2 [] TargetDimensionsNotFound
          else returns (on TextureListener p2) []
      end
  end.

(** [play] (lines 1082-1094); [allowed] tells whether the browser lets the
    element play.  A refusal is raised again after the overlay is shown. *)
Definition play (allowed : bool) (p : AVPipeline) : Completion :=
  match videoElement p with
  | None => returns p []
  | Some v =>
      if allowed then returns (set_videoElement (Some (set_paused false v)) p) []
      else if playOverlay p then throws p [] NotAllowedError
      else throws p [] TypeError
  end.

(** [pause] (lines 1099-1103). *)
Definition pause (p : AVPipeline) : Completion :=
  match videoElement p with
  | Some v => returns (set_videoElement (Some (set_paused true v)) p) [ElementPaused]
  | None => returns p []
  end.

(** [seek] (lines 1109-1113). *)
Definition seek (time : Q) (p : AVPipeline) : Completion :=
  match videoElement p with
  | Some v => returns (set_videoElement (Some (set_currentTime time v)) p) []
  | None => returns p []
  end.

(** [getCurrentTime] (lines 1119-1121). *)
Definition getCurrentTime (p : AVPipeline) : Q :=
  match videoElement p with
  | Some v => currentTime v
  | None => 0
  end.

(** [dispose] (lines 1126-1160). *)
Definition dispose (p : AVPipeline) : Completion :=
  let c := stopVideoProcessing p in
  let p1 := after c in
  let t1 := if dashPlayer p1 then [PlayerReset] else [] in
  let t2 := match videoElement p1 with Some _ => [ElementRemoved] | None => [] end in
  let t3 := match audioContext p1 with Some _ => [AudioClosed] | None => [] end in
  let videoDestination' :=
    match videoDestination p1 with
    | Some _ => Some (mkVideoDestination None false)
    | None => None
    end in
  let t4 := if playOverlay p1 then [OverlayRemoved] else [] in
  returns
    (mkAVPipeline false None None videoDestination' false
       (videoProcessingInterval p1) (videoSources p1) (textureRequirements p1)
       (_lastFrameTime p1) (videoSource p1) (targetWidth p1) (targetHeight p1)
       (frameSize p1) false false (listeners p1))
    (trace c ++ t1 ++ t2 ++ t3 ++ t4).

(** [config.textureRequirements] as [initialize] takes it: an object that
    may leave out any of the four fields. *)
Record RequirementsConfig := mkRequirementsConfig {
  cfg_width : option N;
  cfg_height : option N;
  cfg_format : option string;
  cfg_frameSize : option N
}.

(** Lines 563-566, [{ ...this.textureRequirements, ...config.textureRequirements }]:
    the fields that the configuration has replace those of the pipeline. *)
Definition spread (requirements : TextureRequirements) (config : RequirementsConfig)
    : TextureRequirements :=
  mkTextureRequirements
    (match cfg_width config with Some x => x | None => tr_width requirements end)
    (match cfg_height config with Some x => x | None => tr_height requirements end)
    (match cfg_format config with Some x => x | None => tr_format requirements end)
    (match cfg_frameSize config with Some x => x | None => tr_frameSize requirements end).

(** A video element as [document.createElement('video')] makes it; the
    player is initialized without autoplay (line 621), so it stays paused. *)
Definition createVideo : VideoElement := mkVideoElement true false 0 0 0 0 [].

(** [initialize] (lines 555-690) is asynchronous.  This is its first
    stretch, lines 557-633, which runs inside the call and ends at the
    first [await]: the call returns a promise that is still pending.  The
    texture requirements of the configuration are merged in, and a new
    video element, the play overlay with its button, and the player are
    made.  The two awaits that follow (manifest loaded, metadata loaded)
    change no field of the pipeline: each either lets the call go on or
    rejects it after ten seconds. *)
Definition initialize (requirements : option RequirementsConfig) (p : AVPipeline)
    : Completion :=
  if isInitialized p then returns p []
  else
    let p1 :=
      match requirements with
      | Some config => set_textureRequirements (spread (textureRequirements p) config) p
      | None => p
      end in
    let p2 := set_videoElement (Some createVideo) p1 in
    let p3 := set_playButton true (set_playOverlay true p2) in
    returns (set_dashPlayer true p3) [].

(** The last stretch of [initialize], lines 649-685, which the host runs
    when the play button is clicked while a call is suspended at line 648.
    The click listener reads [this.playOverlay] first (line 650): when that
    is null the listener raises, the promise is never resolved and nothing
    else happens.  Otherwise the call goes on: a new audio context, a
    media element source for [this.videoElement], a new canvas (300 x 150
    as the browser makes it) with its context, the listeners of the video
    element, and [isInitialized].  [tapped] tells whether the video element
    has a media element source already, from another call that was
    suspended alongside: line 657 then raises an InvalidStateError, and
    the [catch] of line 687 raises it again. *)
Definition initialize_clicked (tapped : bool) (p : AVPipeline) : Completion :=
  if playOverlay p then
    let p1 := set_audioContext (Some running) p in
    match videoElement p1 with
    | None => throws p1 [] TypeError
    | Some _ =>
        if tapped then throws p1 [] InvalidStateError
        else
          let canvas := mkCanvas 300 150 in
          let p2 := set_videoDestination
                      (Some (mkVideoDestination (Some canvas) true)) p1 in
          returns (set_isInitialized true p2) []
    end
  else returns p [].

(** What can happen to a pipeline object once it is built: a call of one
    of its methods, or the host running the timer callback, one of the
    listeners of the video element, or the rest of a suspended
    [initialize].  The browser moves the video element in between;
    [Browser] puts its attributes at what the browser has made of them.
    The model keeps no record of suspended calls: [PlayButtonClicked] may
    come at any time, also when no call is suspended at line 648, which
    only adds runs. *)
Inductive Call :=
| CallInitialize (requirements : option RequirementsConfig)
| PlayButtonClicked (tapped : bool)
| Browser (v : VideoElement)
| CallStartVideoProcessing (playbackRate : Q)
| CallStopVideoProcessing
| CallProcessVideoFrame
| CallIntervalCallback
| CallConnectVideoTexture (textureExtension : TextureExtension) (sourceId : N)
| CallPlay (allowed : bool)
| CallPause
| CallSeek (time : Q)
| CallDispose.

Definition call (c : Call) (p : AVPipeline) : Completion :=
  match c with
  | CallInitialize requirements => initialize requirements p
  | PlayButtonClicked tapped => initialize_clicked tapped p
  | Browser v =>
      match videoElement p with
      | Some _ => returns (set_videoElement (Some v) p) []
      | None => returns p []
      end
  | CallStartVideoProcessing playbackRate => startVideoProcessing playbackRate p
  | CallStopVideoProcessing => stopVideoProcessing p
  | CallProcessVideoFrame => processVideoFrame p
  | CallIntervalCallback => intervalCallback p
  | CallConnectVideoTexture textureExtension sourceId =>
      connectVideoTexture textureExtension sourceId p
  | CallPlay allowed => play allowed p
  | CallPause => pause p
  | CallSeek time => seek time p
  | CallDispose => dispose p
  end.

(** A sequence of calls; an exception ends the call that raised it, not
    the sequence. *)
Fixpoint run (cs : list Call) (p : AVPipeline) : AVPipeline * list Event :=
  match cs with
  | [] => (p, [])
  | c :: cs' =>
      let r := call c p in
      let '(p', t) := run cs' (after r) in
      (p', trace r ++ t)
  end.

End Media.

(** ** Construction *)

(** The constructor, the same in both declarations (lines 54-75 and
    526-546): every handle is null and the texture requirements are those
    of the configuration, or 640 x 360 RGBA. *)
Definition newAVPipeline (textureRequirements : option TextureRequirements) : AVPipeline :=
  mkAVPipeline false None None None false None ∅
    (match textureRequirements with
     | Some t => t
     | None => mkTextureRequirements 640 360 "RGBA" (640 * 360 * 4)
     end)
    None None None None None false false [].

(** ** Runs of the frame feed *)

(** The frame matches the dimensions recorded when the handler was made. *)
Definition matches (mpegInfo : MpegTextureInfo) (frame : Frame) : Prop :=
  width frame = mi_width mpegInfo /\ height frame = mi_height mpegInfo.




(** ** Targets *)

(** Modelled from the spec: the invariant of a target in section 3,
    [frameByteSize == width * height * bytesPerPixel(format)], with the
    dimensions that section 4.2 asks for.  The spec leaves the formats and
    their sizes open ([enum{RGBA, ...}]), so [bytesPerPixel] is a
    parameter. *)
Definition validTarget (bytesPerPixel : string -> N) (t : TextureRequirements) : Prop :=
  tr_width t <> 0 /\ tr_height t <> 0 /\
  tr_frameSize t = tr_width t * tr_height t * bytesPerPixel (tr_format t).

(** A frame whose payload is a window into its storage: [before] and
    [behind] are the bytes of the storage around it. *)
Definition window (before behind : list byte) (frame : Frame) : Frame :=
  viewFrame (data frame) (before ++ data frame ++ behind)
    (width frame) (height frame) (timestamp frame).

(** ** Calls after disposal *)

Definition isInitialize (c : Media.Call) : bool :=
  match c with
  | Media.CallInitialize _ => true
  | _ => false
  end.

(** A pipeline whose decode surface is playing, has a picture, and can be
    drawn and read back. *)
Definition capturing (p : AVPipeline) (v : VideoElement) : Prop :=
  videoElement p = Some v /\ paused v = false /\ ended v = false /\
  videoWidth v <> 0 /\ videoHeight v <> 0 /\
  exists c : Canvas, videoDestination p = Some (mkVideoDestination (Some c) true).

(** ** The one-tick bound *)

(** The capture that follows the one taken at [now] starts at [next], no
    later than one tick period after the target interval has passed. *)
Definition withinOneTickOfTarget (pc : Pacer) (now next : Q) : Prop :=
  (next <= now + targetInterval pc + tickPeriod (targetInterval pc))%Q.

(** ** The disposed state *)

(** What [dispose] leaves: no timer, no player, no decode surface, no audio
    graph, no overlay, a destination (if there was one) without canvas and
    context, and [isInitialized] false. *)
Definition Disposed (p : AVPipeline) : Prop :=
  videoProcessingInterval p = None /\
  dashPlayer p = false /\
  videoElement p = None /\
  audioContext p = None /\
  (videoDestination p = None \/
   videoDestination p = Some (mkVideoDestination None false)) /\
  playOverlay p = false /\
  playButton p = false /\
  isInitialized p = false.

(** ** Small concrete objects *)

Module Sample.

(** A frame of one RGBA pixel whose four bytes are [b]. *)
Definition pixel (b : byte) : Frame := mkFrame [b; b; b; b] 1 1 None.

Definition info1x1 : MpegTextureInfo := mkMpegTextureInfo 1 1 "RGBA" 4.


(** A decode surface of 4 x 2 pixels at media time [t]: the left half
    red, the right half blue, opaque. *)
Definition red : list byte := [Byte.xff; Byte.x00; Byte.x00; Byte.xff].
Definition blue : list byte := [Byte.x00; Byte.x00; Byte.xff; Byte.xff].
Definition row : list byte := red ++ red ++ blue ++ blue.

Definition surface (t : Q) : VideoElement :=
  mkVideoElement false false 4 t 4 2 (row ++ row).

(** An initialized pipeline that plays [v] towards [target]. *)
Definition playing (target : TextureRequirements) (v : VideoElement) : AVPipeline :=
  set_isInitialized true
    (set_videoElement (Some v)
       (set_videoDestination
          (Some (mkVideoDestination (Some (mkCanvas 300 150)) true))
          (newAVPipeline (Some target)))).

Definition target2x1 : TextureRequirements := mkTextureRequirements 2 1 "RGBA" 8.

(** A rasterizer: black where the rectangle does not reach, the nearest
    source pixel where it does. *)
Definition nearest (v : VideoElement) (rect : Emitter.DrawRect)
    (targetWidth targetHeight : N) : list byte :=
  flat_map (fun y =>
    flat_map (fun x =>
      let u := ((inject_Z (Z.of_nat x) + (1 # 2) - Emitter.offsetX rect)
                * N2Q (videoWidth v) / Emitter.drawWidth rect)%Q in
      let w := ((inject_Z (Z.of_nat y) + (1 # 2) - Emitter.offsetY rect)
                * N2Q (videoHeight v) / Emitter.drawHeight rect)%Q in
      let sx := Qfloor u in
      let sy := Qfloor w in
      if ((0 <=? sx) && (sx <? Z.of_N (videoWidth v))
          && (0 <=? sy) && (sy <? Z.of_N (videoHeight v)))%Z
      then firstn 4 (skipn (Z.to_nat ((sy * Z.of_N (videoWidth v) + sx) * 4))
                       (picture v))
      else [Byte.x00; Byte.x00; Byte.x00; Byte.xff])
      (seq 0 (N.to_nat targetWidth)))
    (seq 0 (N.to_nat targetHeight)).

(** The pipeline above once its pacing timer was started at clock
    reading 0, 25 frames into the first second of the media. *)
Definition paced25 : AVPipeline :=
  after (Emitter.startVideoProcessing (Some 25) 0 (playing target2x1 (surface 1))).

End Sample.

(** ** The OpenCV loader (lines 1-44) *)

Module Loader.

(** A promise: pending until it is settled, and settled once. *)
Inductive Promise :=
| Pending
| Resolved
| Rejected (message : string).

(** What the loader keeps on the page: the module variable
    [openCVPromise], whether [window.Module] carries the hooks of lines
    11-23, and the [src] of the scripts appended to the body. *)
Record Page := mkPage {
  openCVPromise : option Promise;
  hooks : bool;
  scripts : list string
}.

Definition blank : Page := mkPage None false [].

(** [initOpenCV] (lines 4-36); the promise it returns is the one the page
    holds afterwards. *)
Definition initOpenCV (page : Page) : Page :=
  match openCVPromise page with
  | Some _ => page
  | None =>
      mkPage (Some Pending) true
        (scripts page ++ ["/stereoplayer/src/lib/opencv.js"%string])
  end.

Inductive LoadError := NotInitialized.

(** [getCV] (lines 39-44). *)
Definition getCV (page : Page) : Promise + LoadError :=
  match openCVPromise page with
  | None => inr NotInitialized
  | Some promise => inl promise
  end.

(** [resolve] and [reject] act on a pending promise only. *)
Definition settle (outcome : Promise) (promise : Promise) : Promise :=
  match promise with
  | Pending => outcome
  | _ => promise
  end.

(** What the runtime and the script element report through the hooks. *)
Inductive Report :=
| onRuntimeInitialized
| print (text : string)
| printErr (text : string)
| onerror.

(** The hooks of lines 12-22 and 29-31. *)
Definition report (r : Report) (page : Page) : Page :=
  match openCVPromise page, hooks page with
  | Some promise, true =>
      let promise' :=
        match r with
        | onRuntimeInitialized => settle Resolved promise
        | print _ => promise
        | printErr text => settle (Rejected text) promise
        | onerror => settle (Rejected "Failed to load OpenCV.js") promise
        end in
      mkPage (Some promise') true (scripts page)
  | _, _ => page
  end.

(** Calls of [initOpenCV] and reports, in any order. *)
Inductive Step :=
| Init
| Reported (r : Report).

Definition step (page : Page) (s : Step) : Page :=
  match s with
  | Init => initOpenCV page
  | Reported r => report r page
  end.

Definition steps (ss : list Step) (page : Page) : Page :=
  fold_left step ss page.

End Loader.

(** ** Strings *)

(** [s.includes(searchString)]: the search string occurs somewhere in [s]. *)
Fixpoint includes (searchString s : string) : bool :=
  String.prefix searchString s ||
  match s with
  | EmptyString => false
  | String _ s' => includes searchString s'
  end.

(** [s.endsWith(searchString)]: a tail of [s] is the search string. *)
Fixpoint endsWith (searchString s : string) : bool :=
  String.eqb searchString s ||
  match s with
  | EmptyString => false
  | String _ s' => endsWith searchString s'
  end.

(** Line 93. *)
Definition isDASH (manifestUrl : string) : bool :=
  endsWith ".mpd" manifestUrl || includes "dash" manifestUrl.

(** ** First declaration: set-up, listeners and audio *)

Module EmitterSetup.

(** A video element as [document.createElement('video')] makes it. *)
Definition createVideo : VideoElement := mkVideoElement true false 0 0 0 0 [].

(** [initialize] (lines 77-119), which awaits nothing.  [manifestUrl] is
    [None] when the configuration carries no string there: the test of
    line 93 then raises, after the video element was made, and the [catch]
    of line 116 raises it again. *)
Definition initialize (manifestUrl : option string) (p : AVPipeline) : Completion :=
  if isInitialized p then returns p []
  else
    let p1 := set_videoElement (Some createVideo) p in
    match manifestUrl with
    | None => throws p1 [] TypeError
    | Some url =>
        let p2 := if isDASH url then set_dashPlayer true p1 else p1 in
        let p3 := set_videoDestination
                    (Some (mkVideoDestination (Some (mkCanvas 300 150)) true)) p2 in
        returns (set_isInitialized true p3) []
    end.

(** The events of the video element that [setupEventListeners] (lines
    121-145) listens to; [playing] comes with what line 181 and line 189
    read from the browser. *)
Inductive MediaEvent :=
| onPlaying (totalVideoFrames : option N) (now : Q)
| onPause
| onEnded
| onError.

(** The listener of each event; the flag tells whether [ended] is emitted. *)
Definition setupEventListeners (ev : MediaEvent) (p : AVPipeline) : Completion * bool :=
  match ev with
  | onPlaying totalVideoFrames now =>
      (Emitter.startVideoProcessing totalVideoFrames now p, false)
  | onPause => (Emitter.stopVideoProcessing p, false)
  | onEnded => (Emitter.stopVideoProcessing p, true)
  | onError => (Emitter.stopVideoProcessing p, false)
  end.

(** The audio extension as [connectAudioSource] uses it: the gain node of
    each source and the audio context of the extension, if it has one. *)
Record AudioExtension := mkAudioExtension {
  audioSources : gmap N N;
  extensionContext : option AudioState
}.

(** The field [this.mediaElementSource], which the record of the pipeline
    does not hold, and the gain nodes it was connected to, oldest first. *)
Record AudioTap := mkAudioTap {
  mediaElementSource : bool;
  connected : list N
}.

(** [connectAudioSource] (lines 319-358).  Everything after the test of the
    parameters runs inside [try]; an exception is logged and the call
    returns. *)
Definition connectAudioSource (audioExtension : option AudioExtension)
    (sourceId : N) (p : AVPipeline) (tap : AudioTap) : AVPipeline * AudioTap :=
  match audioExtension with
  | None => (p, tap)
  | Some extension =>
      if sourceId =? 0 then (p, tap)
      else
        match audioSources extension !! sourceId with
        | None => (p, tap)
        | Some gainNode =>
            let p1 :=
              match audioContext p with
              | Some _ => p
              | None => set_audioContext (extensionContext extension) p
              end in
            if mediaElementSource tap then
              (p1, mkAudioTap true (connected tap ++ [gainNode]))
            else
              match audioContext p1, videoElement p1 with
              | Some _, Some _ => (p1, mkAudioTap true (connected tap ++ [gainNode]))
              | _, _ => (p1, tap)
              end
        end
  end.

Section Calls.

Variable rasterize : VideoElement -> Emitter.DrawRect -> N -> N -> list byte.

(** What can happen to a pipeline of the first declaration: a call of a
    method, an event of the video element, or a tick of the timer.  The
    browser moves the video element in between; [Browser] puts its
    attributes at what the browser has made of them. *)
Inductive Call :=
| CallInitialize (manifestUrl : option string)
| Browser (v : VideoElement)
| Dispatch (ev : MediaEvent)
| Tick (now processStart finished : Q)
| CallProcessVideoFrame
| CallConnectVideoTexture (textureExtension : TextureExtension) (sourceId : N)
| CallPause
| CallStop.

Definition call (c : Call) (p : AVPipeline) : Completion :=
  match c with
  | CallInitialize manifestUrl => initialize manifestUrl p
  | Browser v =>
      match videoElement p with
      | Some _ => returns (set_videoElement (Some v) p) []
      | None => returns p []
      end
  | Dispatch ev =>
      match videoElement p with
      | Some _ => fst (setupEventListeners ev p)
      | None => returns p []
      end
  | Tick now processStart finished =>
      Emitter.intervalCallback rasterize now processStart finished p
  | CallProcessVideoFrame => Emitter.processVideoFrame rasterize p
  | CallConnectVideoTexture textureExtension sourceId =>
      Emitter.connectVideoTexture textureExtension sourceId p
  | CallPause => Emitter.pause p
  | CallStop => Emitter.stop p
  end.

(** A sequence of calls; an exception ends the call that raised it, not
    the sequence. *)
Fixpoint run (cs : list Call) (p : AVPipeline) : AVPipeline * list Event :=
  match cs with
  | [] => (p, [])
  | c :: cs' =>
      let r := call c p in
      let '(p', t) := run cs' (after r) in
      (p', trace r ++ t)
  end.

(** The frames of the ticks of a playing element: the browser shows [v],
    then the capture step runs, for each [v] in turn. *)
Fixpoint captures (vs : list VideoElement) (p : AVPipeline) : list Frame :=
  match vs with
  | [] => []
  | v :: vs' =>
      let c := Emitter.processVideoFrame rasterize (set_videoElement (Some v) p) in
      emitted (trace c) ++ captures vs' (after c)
  end.

End Calls.

End EmitterSetup.

(** ** Reading traces and frame times *)

(** Everything of a pipeline but its bindings to ring buffers. *)
Definition sameButBuffers (p q : AVPipeline) : Prop :=
  dashPlayer q = dashPlayer p /\
  videoElement q = videoElement p /\
  audioContext q = audioContext p /\
  videoDestination q = videoDestination p /\
  isInitialized q = isInitialized p /\
  videoProcessingInterval q = videoProcessingInterval p /\
  textureRequirements q = textureRequirements p /\
  _lastFrameTime q = _lastFrameTime p /\
  targetWidth q = targetWidth p /\
  targetHeight q = targetHeight p /\
  frameSize q = frameSize p /\
  listeners q = listeners p.


(** Follows the timer through a trace: [None] when a timer is set while
    one is running or cleared while none is, else whether one is running
    at the end. *)
Fixpoint timerAfter (t : list Event) (running : bool) : option bool :=
  match t with
  | [] => Some running
  | IntervalSet _ :: t' => if running then None else timerAfter t' true
  | IntervalCleared :: t' => if running then timerAfter t' false else None
  | _ :: t' => timerAfter t' running
  end.

Definition hasTimer (p : AVPipeline) : bool :=
  match videoProcessingInterval p with
  | Some _ => true
  | None => false
  end.

(** The media times that frames carry. *)
Definition stamps (frames : list Frame) : list Q :=
  flat_map (fun f => match timestamp f with Some t => [t] | None => [] end) frames.

(** Media time [b] follows media time [a]: not earlier and, unless [a] is
    zero, at least 1/60 s later. *)
Definition follows (a b : Q) : Prop :=
  (a <= b)%Q /\ ((a == 0)%Q \/ (1 # 60 <= b - a)%Q).

(** Each time of the list follows the one before it, the first one
    follows [previous] if there is one. *)
Fixpoint spaced (previous : option Q) (times : list Q) : Prop :=
  match times with
  | [] => True
  | t :: times' =>
      match previous with
      | Some a => follows a t
      | None => True
      end /\ spaced (Some t) times'
  end.

(** ** Second declaration: audio *)

Module MediaAudio.

(** A source of the audio extension (lines 1056-1076 read [type],
    [gainNode], [panner] and [hoaNode]); nodes are told apart by number. *)
Record AudioSource := mkAudioSource {
  type : string;
  gainNode : N;
  panner : option N;
  hoaNode : option N
}.

Inductive Node :=
| MediaElementSource
| Gain (n : N)
| Panner (n : N)
| Hoa (n : N)
| Destination.

Inductive AudioError :=
| AudioSourceNotFound (sourceId : N)
| AudioTypeError
| InvalidStateError.

(** What a call leaves: the connections it made, in order, whether the
    video element has a media element source afterwards, and what it
    raised. *)
Record Outcome := mkOutcome {
  connections : list (Node * Node);
  tappedAfter : bool;
  raised : option AudioError
}.

(** [connectAudioSource] (lines 1055-1077).  [tapped] tells whether a
    media element source was made for the video element before: the audio
    context makes one for an element once and raises an InvalidStateError
    the next time. *)
Definition connectAudioSource (sources : gmap N AudioSource) (sourceId : N)
    (p : AVPipeline) (tapped : bool) : Outcome :=
  match sources !! sourceId with
  | None => mkOutcome [] tapped (Some (AudioSourceNotFound sourceId))
  | Some source =>
      match audioContext p, videoElement p with
      | Some _, Some _ =>
          if tapped then mkOutcome [] tapped (Some InvalidStateError)
          else
            let first := (MediaElementSource, Gain (gainNode source)) in
            match String.eqb (type source) "Object", panner source,
                  String.eqb (type source) "HOA", hoaNode source with
            | true, Some pn, _, _ =>
                mkOutcome [first; (Gain (gainNode source), Panner pn);
                           (Panner pn, Destination)] true None
            | _, _, true, Some hn =>
                mkOutcome [first; (Gain (gainNode source), Hoa hn);
                           (Hoa hn, Destination)] true None
            | _, _, _, _ => mkOutcome [first] true None
            end
      | _, _ => mkOutcome [] tapped (Some AudioTypeError)
      end
  end.

(** The connections lead from [a] to the destination. *)
Fixpoint reaches (fuel : nat) (edges : list (Node * Node)) (a : Node) : bool :=
  match a with
  | Destination => true
  | _ =>
      match fuel with
      | O => false
      | S fuel' =>
          existsb (fun e =>
            match e with
            | (MediaElementSource, b) =>
                match a with MediaElementSource => reaches fuel' edges b | _ => false end
            | (Gain n, b) =>
                match a with Gain m => (n =? m) && reaches fuel' edges b | _ => false end
            | (Panner n, b) =>
                match a with Panner m => (n =? m) && reaches fuel' edges b | _ => false end
            | (Hoa n, b) =>
                match a with Hoa m => (n =? m) && reaches fuel' edges b | _ => false end
            | (Destination, _) => false
            end) edges
      end
  end.

End MediaAudio.

(** * Properties *)

(** ** Frame feed *)

Lemma byteLength_app (a b : list byte) :
  byteLength (a ++ b) = byteLength a + byteLength b.
Proof. unfold byteLength. rewrite length_app. lia. Qed.

Lemma count_writeFrame (d : list byte) (cb : RingBuffer) :
  count (writeFrame d cb) =
  (if (maxFrames cb <=? count cb)%Z then count cb else count cb + 1)%Z.
Proof.
  unfold writeFrame. destruct (maxFrames cb <=? count cb)%Z; cbn; lia.
Qed.

Lemma maxFrames_writeFrame (d : list byte) (cb : RingBuffer) :
  maxFrames (writeFrame d cb) = maxFrames cb.
Proof.
  unfold writeFrame. destruct (maxFrames cb <=? count cb)%Z; reflexivity.
Qed.


(** A buffer with room takes the whole payload at its write side. *)
Lemma stored_writeFrame_room (d : list byte) (cb : RingBuffer) :
  (count cb < maxFrames cb)%Z ->
  available_read cb + byteLength d <= capacity cb ->
  stored (writeFrame d cb) = stored cb ++ d.
Proof.
  intros Hc Hroom. unfold writeFrame.
  destruct (Z.leb_spec (maxFrames cb) (count cb)) as [H|H]; [lia|].
  cbn. f_equal. apply firstn_all2.
  unfold available_write, byteLength in *. lia.
Qed.







Lemma frameHandler_writes (sourceId : N) (mpegInfo : MpegTextureInfo)
    (frame : Frame) (p : AVPipeline) (vs : VideoSource) (cb : RingBuffer) :
  videoSources p !! sourceId = Some vs ->
  circularBuffer vs = Some cb ->
  matches mpegInfo frame ->
  videoSources (frameHandler sourceId mpegInfo frame p) !! sourceId
  = Some (mkVideoSource (Some (writeFrame (data frame) cb)) (bufferCircular vs)).
Proof.
  intros Hvs Hcb [Hw Hh]. unfold frameHandler. rewrite Hvs, Hcb, Hw, Hh.
  rewrite !N.eqb_refl. cbn. apply lookup_insert_eq.
Qed.




(** ** Conversion *)

Lemma length_readBytes (n : nat) (surface : list byte) :
  length (readBytes n surface) = n.
Proof.
  unfold readBytes. rewrite length_app, length_firstn, repeat_length. lia.
Qed.

Lemma getImageData_some (sw sh : N) (surface : list byte) :
  sw <> 0 -> sh <> 0 ->
  getImageData sw sh surface
  = Some (mkImageData (readBytes (N.to_nat (4 * sw * sh)) surface) sw sh).
Proof.
  intros Hw Hh. unfold getImageData.
  destruct (N.eqb_spec sw 0); [contradiction|].
  destruct (N.eqb_spec sh 0); [contradiction|]. reflexivity.
Qed.

Lemma length_RGBA2RGB (n : nat) :
  forall l : list byte, length l = (4 * n)%nat -> length (cv.RGBA2RGB l) = (3 * n)%nat.
Proof.
  induction n as [|n IH]; intros l Hl.
  - destruct l; [reflexivity | discriminate].
  - destruct l as [|r [|g [|b [|a l']]]]; cbn in Hl; try lia.
    cbn [cv.RGBA2RGB length]. rewrite (IH l'); lia.
Qed.

Lemma length_RGB2RGBA (n : nat) :
  forall l : list byte, length l = (3 * n)%nat -> length (cv.RGB2RGBA l) = (4 * n)%nat.
Proof.
  induction n as [|n IH]; intros l Hl.
  - destruct l; [reflexivity | discriminate].
  - destruct l as [|r [|g [|b l']]]; cbn in Hl; try lia.
    cbn [cv.RGB2RGBA length]. rewrite (IH l'); lia.
Qed.

Lemma length_flat_map_const {A B : Type} (f : A -> list B) (k : nat) (l : list A) :
  (forall x, length (f x) = k) -> length (flat_map f l) = (length l * k)%nat.
Proof.
  intros Hf. induction l as [|x l IH]; cbn; [reflexivity|].
  rewrite length_app, Hf, IH. lia.
Qed.

(** Whatever the interpolation, a resized matrix has the requested shape
    and one byte for each channel of each of its pixels. *)
Lemma length_resize (m : cv.Mat) (w h : N) (i : cv.Interpolation) :
  length (cv.mat_data (cv.resize m w h i))
  = (N.to_nat h * (N.to_nat w * N.to_nat (cv.channels m)))%nat.
Proof.
  unfold cv.resize. cbn [cv.mat_data].
  rewrite (length_flat_map_const _ (N.to_nat w * N.to_nat (cv.channels m))).
  - now rewrite length_seq.
  - intros r. rewrite (length_flat_map_const _ (N.to_nat (cv.channels m))).
    + now rewrite length_seq.
    + intros c. now rewrite length_map, length_seq.
Qed.

(** What the three steps leave: four bytes for each pixel of the target. *)
Lemma converted_length (imageData : ImageData) (w h : N) (i : cv.Interpolation) :
  byteLength (cv.mat_data
    (cv.cvtColor
       (cv.resize (cv.cvtColor (cv.matFromImageData imageData) cv.COLOR_RGBA2RGB) w h i)
       cv.COLOR_RGB2RGBA))
  = w * h * 4.
Proof.
  unfold byteLength. cbn [cv.cvtColor cv.mat_data].
  rewrite (length_RGB2RGBA (N.to_nat h * N.to_nat w)).
  - lia.
  - rewrite length_resize. cbn [cv.channels]. lia.
Qed.

(** C2 (as the code has it).  For a pipeline that is capturing and whose
    target has a width and a height, the conversion step of
    [processVideoFrame] turns the four-channel read-back into three
    channels, resizes that with linear interpolation to [width x height] of
    the target, expands the result to four channels, in this order, and
    emits the bytes of the last matrix: exactly [width * height * 4] of
    them, whatever [format] and [frameSize] of the target are.  For a
    valid target that is [frameSize] exactly when its format has four
    bytes for a pixel.  In particular a 1920 x 1080 source against the
    target [{640, 360, RGBA, 921600}] yields 921600 bytes. *)
Theorem processVideoFrame_converts (bytesPerPixel : string -> N)
    (p : AVPipeline) (v : VideoElement) :
  capturing p v ->
  tr_width (textureRequirements p) <> 0 ->
  tr_height (textureRequirements p) <> 0 ->
  exists (imageData : ImageData) (frame : Frame),
    getImageData (videoWidth v) (videoHeight v) (picture v) = Some imageData /\
    emitted (trace (Media.processVideoFrame p)) = [frame] /\
    let target := textureRequirements p in
    let src_ := cv.matFromImageData imageData in
    let dst_ := cv.cvtColor src_ cv.COLOR_RGBA2RGB in
    let resized_ := cv.resize dst_ (tr_width target) (tr_height target) cv.INTER_LINEAR in
    let rgba_ := cv.cvtColor resized_ cv.COLOR_RGB2RGBA in
    cv.channels src_ = 4 /\ cv.cols src_ = videoWidth v /\ cv.rows src_ = videoHeight v /\
    cv.channels dst_ = 3 /\
    cv.channels resized_ = 3 /\
    cv.cols resized_ = tr_width target /\ cv.rows resized_ = tr_height target /\
    cv.channels rgba_ = 4 /\
    data frame = cv.mat_data rgba_ /\
    byteLength (data frame) = tr_width target * tr_height target * 4 /\
    (validTarget bytesPerPixel target ->
     (byteLength (data frame) = tr_frameSize target
      <-> bytesPerPixel (tr_format target) = 4)) /\
    (videoWidth v = 1920 -> videoHeight v = 1080 ->
     target = mkTextureRequirements 640 360 "RGBA" 921600 ->
     byteLength (data frame) = 921600).
Proof.
  intros (Hv & Hp & He & Hw & Hh & c & Hd) Htw Hth.
  pose proof (getImageData_some _ _ (picture v) Hw Hh) as Himg.
  eexists. eexists. split; [exact Himg|].
  split.
  - unfold Media.processVideoFrame.
    rewrite Hv, Hp, He. cbn [orb].
    destruct (N.eqb_spec (videoWidth v) 0); [contradiction|].
    destruct (N.eqb_spec (videoHeight v) 0); [contradiction|]. cbn [orb].
    rewrite Hd, Himg. cbn [textureRequirements set_videoDestination].
    destruct (N.eqb_spec (tr_width (textureRequirements p)) 0); [contradiction|].
    destruct (N.eqb_spec (tr_height (textureRequirements p)) 0); [contradiction|].
    cbn [orb returns trace emitted]. reflexivity.
  - cbv zeta. unfold mkFrame. cbn [data].
    repeat (split; [reflexivity|]).
    split; [apply converted_length|].
    split.
    + intros (_ & _ & Hsize). rewrite converted_length, Hsize. split.
      * intros H. apply N.mul_cancel_l in H; [now symmetry | lia].
      * intros ->. reflexivity.
    + intros _ _ Ht. rewrite converted_length, Ht. reflexivity.
Qed.

Lemma processVideoFrame_converts_witness :
  exists frame : Frame,
    emitted (trace (Media.processVideoFrame
                      (Sample.playing Sample.target2x1 (Sample.surface 1))))
    = [frame] /\
    byteLength (data frame) = 8.
Proof.
  destruct (processVideoFrame_converts (fun _ => 4)
              (Sample.playing Sample.target2x1 (Sample.surface 1))
              (Sample.surface 1))
    as (imageData & frame & _ & Hemitted & H).
  - repeat split; try discriminate. exists (mkCanvas 300 150). reflexivity.
  - discriminate.
  - discriminate.
  - exists frame. split; [exact Hemitted|].
    exact (proj1 (proj2 (proj2 (proj2 (proj2 (proj2 (proj2 (proj2 (proj2 (proj2 H)))))))))).
Defined.

Example processVideoFrame_sample :
  map data (emitted (trace (Media.processVideoFrame
                              (Sample.playing Sample.target2x1 (Sample.surface 1)))))
  = [Sample.red ++ Sample.blue].
Proof. vm_compute. reflexivity. Qed.

(** C2 as it is worded fails for a target whose format has not four
    bytes for a pixel: the target [{2, 1, RGB, 6}] is valid with three
    bytes for a pixel of [RGB], and the frame converted for it has 8
    bytes, the size of 2 x 1 pixels of four channels. *)
Lemma target_format_counterexample :
  let target := mkTextureRequirements 2 1 "RGB" 6 in
  let bytesPerPixel := fun format : string => if String.eqb format "RGB" then 3 else 4 in
  validTarget bytesPerPixel target /\
  bytesPerPixel "RGBA"%string = 4 /\
  exists frame : Frame,
    emitted (trace (Media.processVideoFrame (Sample.playing target (Sample.surface 1))))
    = [frame] /\
    width frame = 2 /\ height frame = 1 /\
    byteLength (data frame) = 8 /\
    byteLength (data frame) <> tr_frameSize target.
Proof.
  cbv zeta. split; [repeat split; discriminate|]. split; [reflexivity|].
  eexists. split; [vm_compute; reflexivity|].
  repeat split. discriminate.
Qed.

(** ** Pacing *)

Local Open Scope Q_scope.

Lemma due_iff (pc : Pacer) (now : Q) :
  due pc now = true <->
  targetInterval pc - frameDelay pc <= now - lastProcessTime pc.
Proof. unfold due, elapsedAt. apply Qle_bool_iff. Qed.

Lemma frameDelay_paced_nonneg (pc : Pacer) (now processTime : Q) :
  0 <= frameDelay (paced pc now processTime).
Proof. cbn. apply Q.le_max_l. Qed.

(** A tick that starts after an overrunning capture has returned is due. *)
Lemma due_after_overrun (pc : Pacer) (now processStart finished now' : Q) :
  now <= processStart ->
  targetInterval pc < finished - processStart ->
  finished <= now' ->
  due (paced pc now (finished - processStart)) now' = true.
Proof.
  intros Hclock Hover Hlater. apply due_iff.
  pose proof (frameDelay_paced_nonneg pc now (finished - processStart)) as Hfd.
  cbn [paced targetInterval lastProcessTime] in *. lra.
Qed.

Lemma tickPeriod_le_half (T : Q) : tickPeriod T <= T / 2.
Proof. unfold tickPeriod. apply Q.le_min_l. Qed.

Lemma nextTick_after_overrun (T now processStart finished : Q) :
  0 <= T ->
  now <= processStart ->
  T < finished - processStart ->
  nextTick (tickPeriod T) now finished == finished.
Proof.
  intros HT Hclock Hover. unfold nextTick.
  pose proof (tickPeriod_le_half T) as Hp.
  assert (Hhalf : T / 2 <= T).
  { assert (E : T / 2 == T * (1 # 2)) by field. rewrite E. lra. }
  apply Q.max_r. set (half := T / 2) in *. lra.
Qed.

(** C3 (as the code has it).  The timer of a pacing controller is started
    with the smaller of half the target interval and 16.67 ms as its period.
    On every tick of a running controller the capture step is invoked
    exactly when [elapsed = now - lastProcessTime] satisfies
    [elapsed >= targetInterval - frameDelay]; after it, [lastProcessTime] is
    [now] and [frameDelay] is [max(0, processTime - (targetInterval -
    elapsed))], a value that is never negative and does not depend on the
    [frameDelay] before; on any other tick nothing happens.  Consequently,
    after a capture whose processing time exceeds the target interval, every
    tick that starts once that capture has returned is due, and the timer
    runs the next tick at the moment the capture returns: the next capture
    is late by the overrun itself. *)
Theorem intervalCallback_pacing
    (rasterize : VideoElement -> Emitter.DrawRect -> N -> N -> list byte)
    (p : AVPipeline) (period : Q) (pc : Pacer) (now processStart finished : Q) :
  videoProcessingInterval p = Some (PacedInterval period pc) ->
  let T := targetInterval pc in
  let elapsed := now - lastProcessTime pc in
  let processTime := finished - processStart in
  let c := Emitter.intervalCallback rasterize now processStart finished p in
  (forall (totalVideoFrames : option N) (t0 : Q) (p0 : AVPipeline)
          (period0 : Q) (pc0 : Pacer),
      videoProcessingInterval p0 = None ->
      videoProcessingInterval (after (Emitter.startVideoProcessing totalVideoFrames t0 p0))
      = Some (PacedInterval period0 pc0) ->
      period0 = Qmin (targetInterval pc0 / 2) (1667 # 100) /\
      lastProcessTime pc0 = t0 /\ frameDelay pc0 = 0) /\
  (T - frameDelay pc <= elapsed ->
   after c
   = set_videoProcessingInterval
       (Some (PacedInterval period
                (mkPacer T now (Qmax 0 (processTime - (T - elapsed))))))
       (after (Emitter.processVideoFrame rasterize p)) /\
   trace c = trace (Emitter.processVideoFrame rasterize p)) /\
  (~ T - frameDelay pc <= elapsed -> c = returns p []) /\
  0 <= frameDelay (paced pc now processTime) /\
  (forall fd : Q,
      paced (mkPacer T (lastProcessTime pc) fd) now processTime
      = paced pc now processTime) /\
  (now <= processStart -> T < processTime ->
   (forall now' : Q,
       finished <= now' -> due (paced pc now processTime) now' = true) /\
   (0 <= T -> nextTick (tickPeriod T) now finished == finished)).
Proof.
  intros Hrun T elapsed processTime c.
  split; [|split; [|split; [|split; [|split]]]].
  - intros totalVideoFrames t0 p0 period0 pc0 Hnone.
    unfold Emitter.startVideoProcessing. rewrite Hnone.
    destruct (videoElement p0) as [v|]; cbn; [|congruence].
    destruct (2 <=? readyState v)%N; cbn; [|congruence].
    intros [= <- <-]. repeat split.
  - intros Hdue. apply due_iff in Hdue.
    subst c. unfold Emitter.intervalCallback. rewrite Hrun, Hdue. split; reflexivity.
  - intros Hnot. subst c. unfold Emitter.intervalCallback. rewrite Hrun.
    destruct (due pc now) eqn:Hdue; [|reflexivity].
    apply due_iff in Hdue. contradiction.
  - apply frameDelay_paced_nonneg.
  - intros fd. reflexivity.
  - intros Hclock Hover. split.
    + intros now' Hlater. now apply due_after_overrun.
    + intros HT. now apply nextTick_after_overrun with (processStart := processStart).
Qed.

Lemma intervalCallback_pacing_witness :
  trace (Emitter.intervalCallback Sample.nearest (5001 # 100) (5001 # 100)
           (15001 # 100) Sample.paced25)
  = trace (Emitter.processVideoFrame Sample.nearest Sample.paced25) /\
  due (paced (mkPacer (targetIntervalOf (Some 25%N) 1) 0 0) (5001 # 100)
         ((15001 # 100) - (5001 # 100)))
      (15001 # 100) = true.
Proof.
  pose proof (intervalCallback_pacing Sample.nearest Sample.paced25
                (tickPeriod (targetIntervalOf (Some 25%N) 1))
                (mkPacer (targetIntervalOf (Some 25%N) 1) 0 0)
                (5001 # 100) (5001 # 100) (15001 # 100) eq_refl)
    as (_ & Hdue & _ & _ & _ & Hover).
  split.
  - apply Hdue. vm_compute. discriminate.
  - apply Hover.
    + vm_compute. discriminate.
    + vm_compute. reflexivity.
    + vm_compute. discriminate.
Defined.

(** The reading of C3 that bounds the lateness of the next capture by one
    tick fails: a controller with a target interval of 40 ms (tick period
    16.67 ms) captures on the tick at 50.01 ms, the capture returns 100 ms
    later, and the next capture, on the tick that then runs, starts at
    150.01 ms, after 50.01 + 40 + 16.67 ms. *)
Lemma pacing_overrun_counterexample :
  let pc := mkPacer 40 0 0 in
  let now := 5001 # 100 in
  let finished := 15001 # 100 in
  let next := nextTick (tickPeriod (targetInterval pc)) now finished in
  due pc now = true /\
  targetInterval pc < finished - now /\
  next == finished /\
  due (paced pc now (finished - now)) next = true /\
  ~ withinOneTickOfTarget pc now next.
Proof.
  cbv zeta. unfold withinOneTickOfTarget. repeat split.
  - vm_compute. intros H. apply H. reflexivity.
Qed.

Example paced25_interval :
  videoProcessingInterval Sample.paced25
  = Some (PacedInterval (tickPeriod (targetIntervalOf (Some 25%N) 1))
            (mkPacer (targetIntervalOf (Some 25%N) 1) 0 0)) /\
  targetIntervalOf (Some 25%N) 1 == 40 /\
  tickPeriod (targetIntervalOf (Some 25%N) 1) == 1667 # 100.
Proof. repeat split. Qed.

Local Close Scope Q_scope.

(** ** Payloads of the wrong length *)

(** The listener of the second declaration compares the byte length of
    the storage under the payload with [targetWidth * targetHeight * 4] and
    leaves the pipeline as it is when they differ. *)
Lemma onVideoFrame_drops (frame : Frame) (p : AVPipeline) (tw th : N) :
  targetWidth p = Some tw ->
  targetHeight p = Some th ->
  byteLength (data_buffer frame) <> tw * th * 4 ->
  onVideoFrame frame p = p.
Proof.
  intros Hw Hh Hlen. unfold onVideoFrame. rewrite Hw, Hh.
  destruct (videoSource p) as [vs|]; [|reflexivity].
  destruct (bufferCircular vs) as [rb|]; [|reflexivity].
  destruct (negb (width frame =? tw) || negb (height frame =? th)); [reflexivity|].
  destruct (N.eqb_spec (byteLength (data_buffer frame)) (tw * th * 4)); [contradiction|].
  reflexivity.
Qed.

(** [frameHandler] never looks at the byte length: into a buffer with room
    it pushes any payload whose frame has the recorded dimensions. *)
Lemma frameHandler_any_length (sourceId : N) (mpegInfo : MpegTextureInfo)
    (frame : Frame) (p : AVPipeline) (vs : VideoSource) (cb : RingBuffer) :
  videoSources p !! sourceId = Some vs ->
  circularBuffer vs = Some cb ->
  matches mpegInfo frame ->
  (count cb < maxFrames cb)%Z ->
  available_read cb + byteLength (data frame) <= capacity cb ->
  exists cb' : RingBuffer,
    videoSources (frameHandler sourceId mpegInfo frame p) !! sourceId
    = Some (mkVideoSource (Some cb') (bufferCircular vs)) /\
    count cb' = (count cb + 1)%Z /\
    stored cb' = stored cb ++ data frame.
Proof.
  intros Hvs Hcb Hm Hc Hroom. exists (writeFrame (data frame) cb).
  split; [now apply frameHandler_writes|]. split.
  - rewrite count_writeFrame. destruct (Z.leb_spec (maxFrames cb) (count cb)); lia.
  - now apply stored_writeFrame_room.
Qed.

Lemma emit_one_listener (frame : Frame) (p : AVPipeline) (l : Listener) :
  listeners p = [l] -> emit frame p = runListener frame p l.
Proof. intros H. unfold emit. now rewrite H. Qed.

(** C4, at the failing input.  A texture of 640 x 360 that expects 921600
    bytes is bound, and a frame of 640 x 360 whose payload has 900000 bytes
    is emitted.  With the binding of the first declaration the payload is
    pushed into the ring buffer and [count] incremented; with the binding
    of the second declaration the frame is dropped. *)
Theorem frameHandler_writes_short_payload :
  let mpegInfo := mkMpegTextureInfo 640 360 "RGBA" 921600 in
  let cb := mkRingBuffer (3 * 921600) [] 0 3 in
  let source := mkVideoSource (Some cb) (Some cb) in
  let extension := mkTextureExtension {[ 7 := mpegInfo ]} {[ 7 := source ]} in
  let frame := mkFrame (repeat Byte.x00 (N.to_nat 900000)) 640 360 (Some 0%Q) in
  let p := after (Emitter.connectVideoTexture extension 7 (newAVPipeline None)) in
  let q := after (Media.connectVideoTexture extension 7 (newAVPipeline None)) in
  byteLength (data frame) = 900000 /\
  mi_frameSize mpegInfo = 921600 /\
  (exists cb' : RingBuffer,
      videoSources (emit frame p) !! 7 = Some (mkVideoSource (Some cb') (Some cb)) /\
      count cb' = 1%Z /\
      stored cb' = data frame) /\
  emit frame q = q.
Proof.
  intros mpegInfo cb source extension frame p q.
  assert (Hlen : byteLength (data frame) = 900000).
  { unfold byteLength, frame, mkFrame. cbn [data]. rewrite repeat_length. apply N2Nat.id. }
  split; [exact Hlen|]. split; [reflexivity|]. split.
  - rewrite (emit_one_listener frame p (FrameHandler 7 mpegInfo)) by reflexivity.
    cbn [runListener].
    destruct (frameHandler_any_length 7 mpegInfo frame p source cb)
      as (cb' & Hlookup & Hcount & Hstored).
    + vm_compute. reflexivity.
    + reflexivity.
    + split; reflexivity.
    + reflexivity.
    + rewrite Hlen. vm_compute. discriminate.
    + exists cb'. split; [exact Hlookup|]. split; [exact Hcount | exact Hstored].
  - rewrite (emit_one_listener frame q TextureListener) by reflexivity.
    cbn [runListener].
    apply (onVideoFrame_drops _ _ 640 360); [reflexivity | reflexivity |].
    change (data_buffer frame) with (data frame). rewrite Hlen. discriminate.
Qed.

(** ** The dimensions of an emitted frame *)

(** The trace of the capture step of the first declaration when nothing
    stops it. *)
Lemma Emitter_processVideoFrame_emits
    (rasterize : VideoElement -> Emitter.DrawRect -> N -> N -> list byte)
    (p : AVPipeline) (v : VideoElement) :
  capturing p v ->
  Emitter.tooSoon (_lastFrameTime p) (currentTime v) = false ->
  tr_width (textureRequirements p) <> 0 ->
  tr_height (textureRequirements p) <> 0 ->
  exists bytes : list byte,
    trace (Emitter.processVideoFrame rasterize p)
    = [Emitted (mkFrame bytes (tr_width (textureRequirements p))
                  (tr_height (textureRequirements p)) (Some (currentTime v)))].
Proof.
  intros (Hv & Hp & He & Hw & Hh & c & Hd) Hsoon Htw Hth.
  unfold Emitter.processVideoFrame. rewrite Hv, Hp, He, Hsoon. cbn [orb].
  destruct (N.eqb_spec (videoWidth v) 0); [contradiction|].
  destruct (N.eqb_spec (videoHeight v) 0); [contradiction|]. cbn [orb].
  cbn [videoDestination set_lastFrameTime textureRequirements]. rewrite Hd.
  rewrite getImageData_some by assumption.
  eexists. reflexivity.
Qed.

(** The same for the second declaration. *)
Lemma Media_processVideoFrame_emits (p : AVPipeline) (v : VideoElement) :
  capturing p v ->
  tr_width (textureRequirements p) <> 0 ->
  tr_height (textureRequirements p) <> 0 ->
  exists bytes : list byte,
    emitted (trace (Media.processVideoFrame p))
    = [mkFrame bytes (tr_width (textureRequirements p))
         (tr_height (textureRequirements p)) None].
Proof.
  intros (Hv & Hp & He & Hw & Hh & c & Hd) Htw Hth.
  unfold Media.processVideoFrame. rewrite Hv, Hp, He. cbn [orb].
  destruct (N.eqb_spec (videoWidth v) 0); [contradiction|].
  destruct (N.eqb_spec (videoHeight v) 0); [contradiction|]. cbn [orb].
  rewrite Hd. rewrite getImageData_some by assumption.
  cbn [textureRequirements set_videoDestination].
  destruct (N.eqb_spec (tr_width (textureRequirements p)) 0); [contradiction|].
  destruct (N.eqb_spec (tr_height (textureRequirements p)) 0); [contradiction|].
  cbn [orb returns trace emitted]. eexists. reflexivity.
Qed.

(** C5 (as the code has it).  A frame emitted by the capture step, in
    either declaration, carries the width and the height of the texture
    requirements: the rectangle read back in the first declaration, the
    size converted to in the second. *)
Theorem processVideoFrame_emits_target_dimensions
    (rasterize : VideoElement -> Emitter.DrawRect -> N -> N -> list byte)
    (p : AVPipeline) (frame : Frame) :
  In frame (emitted (trace (Emitter.processVideoFrame rasterize p))) \/
  In frame (emitted (trace (Media.processVideoFrame p))) ->
  width frame = tr_width (textureRequirements p) /\
  height frame = tr_height (textureRequirements p).
Proof.
  intros [H|H].
  - unfold Emitter.processVideoFrame in H.
    destruct (videoElement p) as [v|]; [|contradiction].
    destruct (paused v || ended v); [contradiction|].
    destruct (Emitter.tooSoon (_lastFrameTime p) (currentTime v)); [contradiction|].
    destruct ((videoWidth v =? 0) || (videoHeight v =? 0)); [contradiction|].
    cbn [videoDestination set_lastFrameTime textureRequirements] in H.
    destruct (videoDestination p) as [[[c|] [|]]|]; try contradiction.
    unfold getImageData in H.
    destruct ((tr_width (textureRequirements p) =? 0)
              || (tr_height (textureRequirements p) =? 0)); [contradiction|].
    cbn in H. destruct H as [<-|[]]. split; reflexivity.
  - unfold Media.processVideoFrame in H.
    destruct (videoElement p) as [v|]; [|contradiction].
    destruct (paused v || ended v); [contradiction|].
    destruct ((videoWidth v =? 0) || (videoHeight v =? 0)) eqn:Hz; [contradiction|].
    destruct (videoDestination p) as [[[c|] [|]]|]; try contradiction.
    unfold getImageData in H. rewrite Hz in H.
    cbn [textureRequirements set_videoDestination] in H.
    destruct ((tr_width (textureRequirements p) =? 0)
              || (tr_height (textureRequirements p) =? 0)); [contradiction|].
    cbn in H. destruct H as [<-|[]]. split; reflexivity.
Qed.

Lemma processVideoFrame_emits_target_dimensions_witness :
  exists frame : Frame,
    emitted (trace (Media.processVideoFrame
                      (Sample.playing Sample.target2x1 (Sample.surface 1))))
    = [frame] /\
    width frame = 2 /\ height frame = 1.
Proof.
  eexists. split; [vm_compute; reflexivity|].
  apply (processVideoFrame_emits_target_dimensions Sample.nearest
           (Sample.playing Sample.target2x1 (Sample.surface 1))).
  right. vm_compute. left. reflexivity.
Defined.

(** C5 as it is worded fails: with a decode surface of 1920 x 1080 and
    texture requirements of 640 x 360, the frame that either declaration
    emits is 640 x 360. *)
Lemma frame_dimensions_counterexample :
  let v := mkVideoElement false false 4 1 1920 1080
             (repeat Byte.x80 (N.to_nat (4 * 1920 * 1080))) in
  let p := Sample.playing (mkTextureRequirements 640 360 "RGBA" 921600) v in
  exists first second : Frame,
    emitted (trace (Emitter.processVideoFrame Sample.nearest p)) = [first] /\
    emitted (trace (Media.processVideoFrame p)) = [second] /\
    width first <> videoWidth v /\ height first <> videoHeight v /\
    width second <> videoWidth v /\ height second <> videoHeight v /\
    width first = 640 /\ height first = 360 /\
    width second = 640 /\ height second = 360.
Proof.
  intros v p.
  assert (Hc : capturing p v).
  { repeat split; try discriminate. exists (mkCanvas 300 150). reflexivity. }
  destruct (Emitter_processVideoFrame_emits Sample.nearest p v Hc)
    as [b1 H1]; [reflexivity | discriminate | discriminate |].
  destruct (Media_processVideoFrame_emits p v Hc)
    as [b2 H2]; [discriminate | discriminate |].
  eexists. eexists. rewrite H1, H2. cbn [emitted].
  split; [reflexivity|]. split; [reflexivity|].
  cbn [width height]. subst v. cbn [videoWidth videoHeight].
  repeat split; discriminate.
Qed.

(** ** Scratch matrices *)

(** On the path that emits a frame the four matrices are deleted. *)
Lemma processVideoFrame_releases_when_emitting (p : AVPipeline) (frame : Frame) :
  In (Emitted frame) (trace (Media.processVideoFrame p)) ->
  live (trace (Media.processVideoFrame p)) [] = [].
Proof.
  unfold Media.processVideoFrame.
  destruct (videoElement p) as [v|]; [|intros []].
  destruct (paused v || ended v); [intros []|].
  destruct ((videoWidth v =? 0) || (videoHeight v =? 0)); [intros []|].
  destruct (videoDestination p) as [[[c|] [|]]|]; try (intros []).
  destruct (getImageData (videoWidth v) (videoHeight v) (picture v)); [|intros []].
  cbn [textureRequirements set_videoDestination].
  destruct ((tr_width (textureRequirements p) =? 0)
            || (tr_height (textureRequirements p) =? 0)).
  - cbn. intros [H|[H|[]]]; discriminate.
  - intros _. reflexivity.
Qed.

(** On the path that returns from the dimension guard, [src] and [dst]
    stay. *)
Lemma processVideoFrame_guard_keeps_matrices (p : AVPipeline) (v : VideoElement) :
  capturing p v ->
  tr_width (textureRequirements p) = 0 \/ tr_height (textureRequirements p) = 0 ->
  trace (Media.processVideoFrame p) = [MatCreated src; MatCreated dst] /\
  thrown (Media.processVideoFrame p) = None.
Proof.
  intros (Hv & Hp & He & Hw & Hh & c & Hd) Hzero.
  unfold Media.processVideoFrame. rewrite Hv, Hp, He. cbn [orb].
  destruct (N.eqb_spec (videoWidth v) 0); [contradiction|].
  destruct (N.eqb_spec (videoHeight v) 0); [contradiction|]. cbn [orb].
  rewrite Hd. rewrite getImageData_some by assumption.
  cbn [textureRequirements set_videoDestination].
  replace ((tr_width (textureRequirements p) =? 0)
           || (tr_height (textureRequirements p) =? 0)) with true; [split; reflexivity|].
  symmetry. apply orb_true_iff. rewrite !N.eqb_eq. exact Hzero.
Qed.

(** C6, at the failing input.  With texture requirements whose width and
    height are zero, the conversion step of a playing pipeline returns from
    its dimension guard having created the matrices [src] and [dst] and
    deleted neither; nothing is raised and no frame is emitted. *)
Theorem processVideoFrame_leaks_on_dimension_guard :
  let p := Sample.playing (mkTextureRequirements 0 0 "RGBA" 0) (Sample.surface 1) in
  let c := Media.processVideoFrame p in
  trace c = [MatCreated src; MatCreated dst] /\
  live (trace c) [] = [src; dst] /\
  thrown c = None /\
  emitted (trace c) = [].
Proof. vm_compute. repeat split. Qed.

(** ** Frame skipping *)

Local Open Scope Q_scope.

Lemma tooSoon_iff (lastFrameTime : option Q) (currentTime : Q) :
  Emitter.tooSoon lastFrameTime currentTime = true <->
  exists t : Q, lastFrameTime = Some t /\ ~ t == 0 /\ currentTime - t < 1 # 60.
Proof.
  unfold Emitter.tooSoon. destruct lastFrameTime as [t|].
  - rewrite andb_true_iff, !negb_true_iff. split.
    + intros [Hz Hs]. exists t. split; [reflexivity|]. split.
      * intros E. apply Qeq_bool_iff in E. congruence.
      * apply Qnot_le_lt. intros Hle. apply Qle_bool_iff in Hle. congruence.
    + intros (t' & [= <-] & Hz & Hs). split.
      * destruct (Qeq_bool t 0) eqn:E; [|reflexivity].
        apply Qeq_bool_iff in E. contradiction.
      * destruct (Qle_bool (1 # 60) (currentTime - t)) eqn:E; [|reflexivity].
        apply Qle_bool_iff in E. apply Qle_not_lt in E. contradiction.
  - split; [discriminate|]. intros (t & [=] & _).
Qed.

(** Away from media time zero the skip works: a tick less than 1/60 s of
    media time after the last capture emits nothing. *)
Lemma processVideoFrame_skips
    (rasterize : VideoElement -> Emitter.DrawRect -> N -> N -> list byte)
    (p : AVPipeline) (v : VideoElement) (t : Q) :
  videoElement p = Some v ->
  _lastFrameTime p = Some t ->
  ~ t == 0 ->
  currentTime v - t < 1 # 60 ->
  Emitter.processVideoFrame rasterize p = returns p [].
Proof.
  intros Hv Hl Hz Hs. unfold Emitter.processVideoFrame. rewrite Hv.
  destruct (paused v || ended v); [reflexivity|].
  replace (Emitter.tooSoon (_lastFrameTime p) (currentTime v)) with true; [reflexivity|].
  symmetry. apply tooSoon_iff. exists t. auto.
Qed.

(** C7, at the failing input.  The decode surface stands at media time 0
    on one tick and at 1/100 s on the next: the first capture is accepted
    and emits a frame, and so does the second, 1/100 s < 1/60 s later.  The
    same two ticks one second into the media emit one frame. *)
Theorem processVideoFrame_repeats_after_time_zero :
  let tick (t : Q) (p : AVPipeline) :=
    Emitter.processVideoFrame Sample.nearest
      (set_videoElement (Some (Sample.surface t)) p) in
  let fresh := Sample.playing Sample.target2x1 (Sample.surface 0) in
  let first := tick 0 fresh in
  let second := tick (1 # 100) (after first) in
  let first' := tick 1 fresh in
  let second' := tick (1 + (1 # 100)) (after first') in
  (1 # 100) - 0 < 1 # 60 /\
  map timestamp (emitted (trace first)) = [Some 0] /\
  _lastFrameTime (after first) = Some 0 /\
  map timestamp (emitted (trace second)) = [Some (1 # 100)] /\
  map timestamp (emitted (trace first')) = [Some 1] /\
  emitted (trace second') = [].
Proof. vm_compute. repeat split. Qed.

Local Close Scope Q_scope.

(** ** Binding a texture *)

(** C8 (as the code has it).  [connectVideoTexture] does not look at the
    state of the pipeline: what it raises is the same whether or not
    [isInitialized] is set.  In the first declaration it fails exactly when
    the texture or the video source of [sourceId] is missing, with the
    not-found error of that object, and then leaves the pipeline as it was;
    otherwise it stores the video source and registers one frame handler.
    In the second declaration a failure is a not-found error or the error
    for missing target dimensions, and registers no listener. *)
Theorem connectVideoTexture_not_gated
    (textureExtension : TextureExtension) (sourceId : N) (p : AVPipeline) :
  let c := Emitter.connectVideoTexture textureExtension sourceId p in
  let c' := Media.connectVideoTexture textureExtension sourceId p in
  (forall b : bool,
      thrown (Emitter.connectVideoTexture textureExtension sourceId
                (set_isInitialized b p)) = thrown c /\
      thrown (Media.connectVideoTexture textureExtension sourceId
                (set_isInitialized b p)) = thrown c') /\
  (thrown c = None <->
   is_Some (textures textureExtension !! sourceId) /\
   is_Some (sources textureExtension !! sourceId)) /\
  (forall e : Error,
      thrown c = Some e ->
      (e = TextureNotFound sourceId \/ e = VideoSourceNotFound sourceId) /\
      after c = p) /\
  (thrown c = None ->
   exists (mpegInfo : MpegTextureInfo) (videoSource : VideoSource),
     textures textureExtension !! sourceId = Some mpegInfo /\
     sources textureExtension !! sourceId = Some videoSource /\
     listeners (after c) = listeners p ++ [FrameHandler sourceId mpegInfo] /\
     videoSources (after c) !! sourceId = Some videoSource) /\
  (forall e : Error,
      thrown c' = Some e ->
      (e = TextureNotFound sourceId \/ e = VideoSourceNotFound sourceId \/
       e = TargetDimensionsNotFound) /\
      listeners (after c') = listeners p) /\
  (thrown c' = None -> listeners (after c') = listeners p ++ [TextureListener]).
Proof.
  cbv zeta. unfold Emitter.connectVideoTexture, Media.connectVideoTexture.
  destruct (textures textureExtension !! sourceId) as [mpegInfo|] eqn:Ht;
    destruct (sources textureExtension !! sourceId) as [vs|] eqn:Hs;
    cbn [videoSource set_videoSource];
    try destruct ((mi_width mpegInfo =? 0) || (mi_height mpegInfo =? 0));
    cbn [thrown after throws returns on listeners set_listeners set_videoSources
         videoSources set_frameSize set_targetHeight set_targetWidth set_videoSource];
    (split; [intros b; split; reflexivity|]);
    (split; [split; [intros H; try discriminate H; split; eauto
                    |intros [[? ?] [? ?]]; congruence]|]);
    (split; [intros e H; try discriminate H; injection H as <-; split; auto|]);
    (split; [intros H; try discriminate H;
             eexists; eexists; repeat split; apply lookup_insert_eq|]);
    (split; [intros e H; try discriminate H; injection H as <-; split; auto|]);
    intros H; try discriminate H; reflexivity.
Qed.

(** C8 as it is worded fails: on a pipeline that was only constructed,
    [connectVideoTexture] with an extension that has texture and source 7
    returns normally, stores the source and registers its handler. *)
Lemma connectVideoTexture_counterexample :
  let info := mkMpegTextureInfo 640 360 "RGBA" 921600 in
  let source := mkVideoSource (Some (mkRingBuffer (3 * 921600) [] 0 3)) None in
  let extension := mkTextureExtension {[ 7 := info ]} {[ 7 := source ]} in
  let p := newAVPipeline None in
  let c := Emitter.connectVideoTexture extension 7 p in
  let c' := Media.connectVideoTexture extension 7 p in
  isInitialized p = false /\
  thrown c = None /\
  listeners (after c) = [FrameHandler 7 info] /\
  videoSources (after c) !! 7 = Some source /\
  thrown c' = None /\
  listeners (after c') = [TextureListener] /\
  videoSource (after c') = Some source.
Proof. vm_compute. repeat split. Qed.
(** ** Disposal *)

(** Without a decode surface and without the play overlay no call
    captures, and none but [initialize] brings either of them back: the
    click listener of a call that was suspended before finds no overlay. *)
Lemma call_without_element (c : Media.Call) (p : AVPipeline) :
  isInitialize c = false ->
  videoElement p = None ->
  playOverlay p = false ->
  videoElement (after (Media.call c p)) = None /\
  playOverlay (after (Media.call c p)) = false /\
  emitted (trace (Media.call c p)) = [].
Proof.
  intros Hc Hv Ho.
  destruct c as [config|tapped|v|rate| | | |ext id|allowed| |time|];
    cbn [Media.call]; try discriminate Hc.
  - unfold Media.initialize_clicked. rewrite Ho. now repeat split.
  - rewrite Hv. now repeat split.
  - unfold Media.startVideoProcessing. rewrite Hv. now repeat split.
  - unfold Media.stopVideoProcessing.
    destruct (videoProcessingInterval p); now repeat split.
  - unfold Media.processVideoFrame. rewrite Hv. now repeat split.
  - unfold Media.intervalCallback, Media.processVideoFrame. rewrite Hv.
    destruct (videoProcessingInterval p); now repeat split.
  - unfold Media.connectVideoTexture.
    destruct (textures ext !! id) as [mpegInfo|]; [|now repeat split].
    cbn [videoSource set_videoSource].
    destruct (sources ext !! id); [|now repeat split].
    destruct ((mi_width mpegInfo =? 0) || (mi_height mpegInfo =? 0)); now repeat split.
  - unfold Media.play. rewrite Hv. now repeat split.
  - unfold Media.pause. rewrite Hv. now repeat split.
  - unfold Media.seek. rewrite Hv. now repeat split.
  - unfold Media.dispose, Media.stopVideoProcessing.
    destruct (videoProcessingInterval p); cbn [after returns trace];
      rewrite ?Hv; cbn [videoElement playOverlay set_videoProcessingInterval];
      rewrite ?Hv, ?Ho; (split; [reflexivity|]); (split; [reflexivity|]).
    + cbn [dashPlayer audioContext playOverlay set_videoProcessingInterval].
      destruct (dashPlayer p), (audioContext p); reflexivity.
    + destruct (dashPlayer p), (audioContext p); reflexivity.
Qed.

Lemma emitted_app (t u : list Event) : emitted (t ++ u) = emitted t ++ emitted u.
Proof.
  induction t as [|e t IH]; [reflexivity|].
  destruct e; cbn [app emitted]; rewrite ?IH; reflexivity.
Qed.

Lemma run_without_element (cs : list Media.Call) :
  forall p : AVPipeline,
    existsb isInitialize cs = false ->
    videoElement p = None ->
    playOverlay p = false ->
    emitted (snd (Media.run cs p)) = [].
Proof.
  induction cs as [|c cs IH]; intros p Hcs Hv Ho; [reflexivity|].
  cbn [existsb] in Hcs. apply orb_false_iff in Hcs. destruct Hcs as [Hc Hcs].
  cbn [Media.run].
  destruct (call_without_element c p Hc Hv Ho) as (Hv' & Ho' & He).
  specialize (IH _ Hcs Hv' Ho').
  destruct (Media.run cs (after (Media.call c p))) as [p' t]. cbn [snd] in *.
  now rewrite emitted_app, He, IH.
Qed.

(** C9 (as the code has it).  From whatever state, [dispose] returns
    normally in the disposed state: the timer, if one was running, is
    cleared and forgotten, the decode surface, if there was one, is removed
    and forgotten, the audio graph, if there was one, is closed and
    forgotten; the listeners of [videoFrame] stay registered.  Afterwards
    no sequence of calls on the object without a new call of [initialize]
    emits a [videoFrame], timer ticks and the rest of an [initialize] that
    was suspended before included, and a further [dispose] changes nothing
    and does nothing. *)
Theorem dispose_disposes (p : AVPipeline) :
  let c := Media.dispose p in
  thrown c = None /\
  Disposed (after c) /\
  (videoProcessingInterval p <> None -> In IntervalCleared (trace c)) /\
  (videoElement p <> None -> In ElementRemoved (trace c)) /\
  (audioContext p <> None -> In AudioClosed (trace c)) /\
  listeners (after c) = listeners p /\
  (forall cs : list Media.Call,
      existsb isInitialize cs = false ->
      emitted (snd (Media.run cs (after c))) = []) /\
  Media.dispose (after c) = returns (after c) [].
Proof.
  cbv zeta.
  split; [reflexivity|].
  split.
  { unfold Disposed, Media.dispose, Media.stopVideoProcessing.
    destruct p as [dash element audio [destination|] initialized [interval|]
                   sources requirements lastFrame source tw th size overlay button ls];
      cbn; repeat split; auto. }
  split.
  { intros H. unfold Media.dispose, Media.stopVideoProcessing.
    destruct (videoProcessingInterval p); [|contradiction]. cbn. auto. }
  split.
  { intros H. unfold Media.dispose, Media.stopVideoProcessing.
    cbn [trace returns]. apply in_or_app. right. apply in_or_app. right.
    apply in_or_app. left.
    destruct (videoProcessingInterval p); cbn;
      destruct (videoElement p); try contradiction; cbn; auto. }
  split.
  { intros H. unfold Media.dispose, Media.stopVideoProcessing.
    cbn [trace returns]. apply in_or_app. right. apply in_or_app. right.
    apply in_or_app. right. apply in_or_app. left.
    destruct (videoProcessingInterval p); cbn;
      destruct (audioContext p); try contradiction; cbn; auto. }
  split.
  { unfold Media.dispose, Media.stopVideoProcessing.
    destruct (videoProcessingInterval p); reflexivity. }
  split.
  { intros cs Hcs. apply run_without_element; [exact Hcs | reflexivity | reflexivity]. }
  unfold Media.dispose, Media.stopVideoProcessing.
  destruct p as [dash element audio [destination|] initialized [interval|]
                 sources requirements lastFrame source tw th size overlay button ls];
    reflexivity.
Qed.

(** C9 as it is worded fails: the disposed state is not final.  A playing
    pipeline bound to a texture is disposed; then [initialize] is called,
    the media loads, the play button is clicked, [play] is called and the
    listener of the play event starts the timer.  The first tick emits a
    frame, and the listener that was registered before the disposal
    pushes it into the ring buffer. *)
Lemma dispose_initialize_counterexample :
  let extension :=
    mkTextureExtension {[ 7 := mkMpegTextureInfo 2 1 "RGBA" 8 ]}
      {[ 7 := mkVideoSource None (Some (mkRingBuffer 24 [] 0 3)) ]} in
  let p := after (Media.connectVideoTexture extension 7
                    (Sample.playing Sample.target2x1 (Sample.surface 1))) in
  let disposed := after (Media.dispose p) in
  let loaded := mkVideoElement true false 4 0 4 2 (Sample.row ++ Sample.row) in
  let cs := [Media.CallInitialize None; Media.Browser loaded;
             Media.PlayButtonClicked false; Media.CallPlay true;
             Media.Browser (Sample.surface 1);
             Media.CallStartVideoProcessing 1; Media.CallIntervalCallback] in
  Disposed disposed /\
  isInitialized (fst (Media.run cs disposed)) = true /\
  emitted (snd (Media.run cs disposed))
  = [mkFrame (Sample.red ++ Sample.blue) 2 1 None] /\
  videoSource (fst (Media.run cs disposed))
  = Some (mkVideoSource None
            (Some (mkRingBuffer 24 (Sample.red ++ Sample.blue) 0 3))).
Proof.
  cbv zeta. split; [|split; [|split]].
  - unfold Disposed. vm_compute. repeat split. now right.
  - vm_compute. reflexivity.
  - vm_compute. reflexivity.
  - vm_compute. reflexivity.
Qed.

(** A pipeline that is playing, with timer, player, audio graph and
    overlay: [dispose] tears all of them down, in the order of the source. *)
Example dispose_sample :
  let p := set_playOverlay true
             (set_audioContext (Some running)
                (set_dashPlayer true
                   (set_videoProcessingInterval (Some (PlainInterval 1000))
                      (Sample.playing Sample.target2x1 (Sample.surface 1))))) in
  emitted (trace (Media.intervalCallback p)) <> [] /\
  trace (Media.dispose p)
  = [IntervalCleared; PlayerReset; ElementRemoved; AudioClosed; OverlayRemoved] /\
  trace (Media.intervalCallback (after (Media.dispose p))) = [].
Proof. vm_compute. repeat split. discriminate. Qed.

(** ** Stopping *)

(** C10.  On a pipeline that has a video element, [stop] pauses it and sets
    its position to 0, so that [getCurrentTime] returns 0 right after;
    [pause] alone leaves the position where it was. *)
Theorem stop_resets_position (p : AVPipeline) (v : VideoElement) :
  videoElement p = Some v ->
  let c := Emitter.stop p in
  thrown c = None /\
  In ElementPaused (trace c) /\
  (exists v' : VideoElement,
      videoElement (after c) = Some v' /\ paused v' = true /\ currentTime v' = 0%Q) /\
  Media.getCurrentTime (after c) = 0%Q /\
  Media.getCurrentTime (after (Emitter.pause p)) = currentTime v.
Proof.
  intros Hv. cbv zeta. unfold Emitter.stop, Emitter.pause, Media.getCurrentTime.
  rewrite Hv. cbn. repeat split; auto. eexists. repeat split.
Qed.

Lemma stop_resets_position_witness :
  Media.getCurrentTime
    (after (Emitter.stop (Sample.playing Sample.target2x1 (Sample.surface 1))))
  = 0%Q /\
  Media.getCurrentTime
    (after (Emitter.pause (Sample.playing Sample.target2x1 (Sample.surface 1))))
  = 1%Q.
Proof.
  destruct (stop_resets_position
              (Sample.playing Sample.target2x1 (Sample.surface 1))
              (Sample.surface 1) eq_refl) as (_ & _ & _ & Hstop & Hpause).
  split; [exact Hstop | exact Hpause].
Defined.

(** * Further properties *)

(** ** The loader *)

Lemma steps_app (ss ts : list Loader.Step) (page : Loader.Page) :
  Loader.steps (ss ++ ts) page = Loader.steps ts (Loader.steps ss page).
Proof. apply fold_left_app. Qed.

(** Before the first [initOpenCV] no report changes the page. *)
Lemma steps_without_init (ss : list Loader.Step) :
  ~ In Loader.Init ss -> Loader.steps ss Loader.blank = Loader.blank.
Proof.
  induction ss as [|s ss IH] using rev_ind; intros Hno; [reflexivity|].
  rewrite steps_app, IH.
  - destruct s as [|r]; [|reflexivity].
    exfalso. apply Hno. apply in_or_app. right. now left.
  - intros H. apply Hno. apply in_or_app. now left.
Qed.

(** Once a promise is there, the hooks stay and no script is added. *)
Lemma steps_with_promise (ss : list Loader.Step) :
  forall page : Loader.Page,
    Loader.openCVPromise page <> None ->
    Loader.hooks page = true ->
    Loader.openCVPromise (Loader.steps ss page) <> None /\
    Loader.hooks (Loader.steps ss page) = true /\
    Loader.scripts (Loader.steps ss page) = Loader.scripts page.
Proof.
  induction ss as [|s ss IH]; intros page Hp Hh; [now repeat split|].
  change (Loader.steps (s :: ss) page) with (Loader.steps ss (Loader.step page s)).
  assert (H : Loader.openCVPromise (Loader.step page s) <> None /\
              Loader.hooks (Loader.step page s) = true /\
              Loader.scripts (Loader.step page s) = Loader.scripts page).
  { destruct s as [|r]; cbn [Loader.step].
    - unfold Loader.initOpenCV.
      destruct (Loader.openCVPromise page) eqn:E; [|contradiction].
      rewrite E. now repeat split.
    - unfold Loader.report.
      destruct (Loader.openCVPromise page) eqn:E; [|contradiction].
      rewrite Hh. cbn. now repeat split. }
  destruct H as (H1 & H2 & H3).
  destruct (IH _ H1 H2) as (I1 & I2 & I3). rewrite I3, H3. now repeat split.
Qed.

(** X1.  However calls of [initOpenCV] and reports of the runtime are
    mixed: as long as [initOpenCV] was not called, the page is untouched
    and [getCV] raises; once it was called, whatever the number of calls,
    the loader script was appended exactly once and [getCV] returns the
    promise. *)
Theorem initOpenCV_loads_once (ss : list Loader.Step) :
  let page := Loader.steps ss Loader.blank in
  (~ In Loader.Init ss ->
   page = Loader.blank /\ Loader.getCV page = inr Loader.NotInitialized) /\
  (In Loader.Init ss ->
   Loader.scripts page = ["/stereoplayer/src/lib/opencv.js"%string] /\
   exists promise : Loader.Promise, Loader.getCV page = inl promise).
Proof.
  cbv zeta. split.
  - intros Hno. rewrite steps_without_init by assumption. now split.
  - intros Hin. apply in_split in Hin as (before & rest & ->).
    assert (Hfirst : exists before' rest',
               before ++ Loader.Init :: rest = before' ++ Loader.Init :: rest' /\
               ~ In Loader.Init before').
    { clear. induction before as [|s before IH].
      - exists [], rest. now split.
      - destruct s as [|r].
        + exists [], (before ++ Loader.Init :: rest). now split.
        + destruct IH as (b & r' & E & Hb). exists (Loader.Reported r :: b), r'.
          split; [cbn; now rewrite E|]. intros [H|H]; [discriminate | contradiction]. }
    destruct Hfirst as (before' & rest' & -> & Hno).
    rewrite steps_app, (steps_without_init before' Hno).
    change (Loader.steps (Loader.Init :: rest') Loader.blank)
      with (Loader.steps rest' (Loader.initOpenCV Loader.blank)).
    destruct (steps_with_promise rest' (Loader.initOpenCV Loader.blank))
      as (Hp & _ & Hs); [discriminate | reflexivity |].
    split; [rewrite Hs; reflexivity|].
    unfold Loader.getCV.
    destruct (Loader.openCVPromise (Loader.steps rest' (Loader.initOpenCV Loader.blank)))
      as [promise|]; [now exists promise | contradiction].
Qed.

(** A settled promise stays as it is. *)
Lemma steps_settled (ss : list Loader.Step) :
  forall (page : Loader.Page) (promise : Loader.Promise),
    Loader.openCVPromise page = Some promise ->
    promise <> Loader.Pending ->
    Loader.openCVPromise (Loader.steps ss page) = Some promise.
Proof.
  induction ss as [|s ss IH]; intros page promise Hp Hs; [exact Hp|].
  change (Loader.steps (s :: ss) page) with (Loader.steps ss (Loader.step page s)).
  apply IH; [|exact Hs].
  destruct s as [|r]; cbn [Loader.step].
  - unfold Loader.initOpenCV. now rewrite Hp.
  - unfold Loader.report. rewrite Hp.
    destruct (Loader.hooks page); [|exact Hp].
    destruct promise; [contradiction | |]; destruct r; reflexivity.
Qed.

(** X2.  The first report that settles the promise decides it for good.
    After [initOpenCV], text on the error stream before the runtime is up
    rejects the promise with that text, a failure of the script element
    rejects it, and neither a later [onRuntimeInitialized] nor anything
    else changes that; if the runtime comes up first the promise is
    resolved and stays so.  Text on the output stream settles nothing. *)
Theorem first_report_settles (text : string) (ss : list Loader.Step) :
  let after_ (r : Loader.Report) :=
    Loader.getCV
      (Loader.steps (Loader.Init :: Loader.Reported r :: ss) Loader.blank) in
  after_ (Loader.printErr text) = inl (Loader.Rejected text) /\
  after_ Loader.onerror = inl (Loader.Rejected "Failed to load OpenCV.js") /\
  after_ Loader.onRuntimeInitialized = inl Loader.Resolved /\
  Loader.getCV
    (Loader.steps [Loader.Init; Loader.Reported (Loader.print text)] Loader.blank)
  = inl Loader.Pending.
Proof.
  cbv zeta. unfold Loader.getCV.
  repeat split;
    try (change (Loader.steps (Loader.Init :: Loader.Reported ?r :: ss) Loader.blank)
           with (Loader.steps ss
                   (Loader.report r (Loader.initOpenCV Loader.blank)));
         erewrite steps_settled; [reflexivity | reflexivity | discriminate]).
Qed.

(** ** The manifest test *)

Lemma prefix_iff (a s : string) :
  String.prefix a s = true <-> exists b : string, s = (a ++ b)%string.
Proof.
  revert a. induction s as [|d s IH]; intros a; cbn.
  - destruct a as [|c a].
    + split; [intros _; now exists ""%string | reflexivity].
    + split; [discriminate | intros (b & H); discriminate].
  - destruct a as [|c a].
    + split; [intros _; now exists (String d s) | reflexivity].
    + destruct (Ascii.ascii_dec c d) as [->|Hne].
      * rewrite IH. split; intros (b & H); exists b; [now rewrite H | now injection H].
      * split; [discriminate|]. intros (b & H). injection H as H1 _. congruence.
Qed.

Lemma includes_iff (sub s : string) :
  includes sub s = true <-> exists a b : string, s = (a ++ sub ++ b)%string.
Proof.
  induction s as [|c s IH]; cbn [includes]; rewrite orb_true_iff, prefix_iff.
  - split.
    + intros [(b & H)|H]; [now exists ""%string, b | discriminate].
    + intros (a & b & H). left. destruct a; [now exists b | discriminate].
  - rewrite IH. split.
    + intros [(b & H)|(a & b & H)]; [now exists ""%string, b|].
      exists (String c a), b. cbn. now rewrite H.
    + intros (a & b & H). destruct a as [|d a].
      * left. now exists b.
      * right. cbn in H. injection H as _ H. now exists a, b.
Qed.

Lemma endsWith_iff (sub s : string) :
  endsWith sub s = true <-> exists a : string, s = (a ++ sub)%string.
Proof.
  induction s as [|c s IH]; cbn [endsWith]; rewrite orb_true_iff, String.eqb_eq.
  - split.
    + intros [->|H]; [now exists ""%string | discriminate].
    + intros (a & H). left. destruct a; [easy | discriminate].
  - rewrite IH. split.
    + intros [->|(a & ->)]; [now exists ""%string | now exists (String c a)].
    + intros (a & H). destruct a as [|d a].
      * left. now rewrite H.
      * right. cbn in H. injection H as _ H. now exists a.
Qed.

(** X3.  The test of line 93 takes a manifest URL for a DASH manifest
    exactly when it ends in [.mpd] or has [dash] anywhere in it, host and
    directories included. *)
Theorem isDASH_iff (manifestUrl : string) :
  isDASH manifestUrl = true <->
  (exists a : string, manifestUrl = (a ++ ".mpd")%string) \/
  (exists a b : string, manifestUrl = (a ++ "dash" ++ b)%string).
Proof.
  unfold isDASH. now rewrite orb_true_iff, endsWith_iff, includes_iff.
Qed.

Example isDASH_samples :
  isDASH "https://cdn.example/video/stream.mpd" = true /\
  isDASH "https://dashboard.example/clip.mp4" = true /\
  isDASH "https://cdn.example/clip.mp4" = false.
Proof. repeat split. Qed.

(** ** What the listeners leave alone *)

Lemma sameButBuffers_refl (p : AVPipeline) : sameButBuffers p p.
Proof. unfold sameButBuffers. repeat split. Qed.

Lemma sameButBuffers_trans (p q r : AVPipeline) :
  sameButBuffers p q -> sameButBuffers q r -> sameButBuffers p r.
Proof.
  unfold sameButBuffers. intros H1 H2.
  repeat match goal with H : _ /\ _ |- _ => destruct H end.
  repeat split; congruence.
Qed.

Lemma runListener_sameButBuffers (frame : Frame) (p : AVPipeline) (l : Listener) :
  sameButBuffers p (runListener frame p l).
Proof.
  destruct l as [sourceId mpegInfo|]; cbn [runListener].
  - unfold frameHandler.
    destruct (videoSources p !! sourceId) as [vs|]; [|apply sameButBuffers_refl].
    destruct (circularBuffer vs); [|apply sameButBuffers_refl].
    destruct (negb (width frame =? mi_width mpegInfo)
              || negb (height frame =? mi_height mpegInfo));
      [apply sameButBuffers_refl|].
    unfold sameButBuffers. repeat split.
  - unfold onVideoFrame.
    destruct (videoSource p) as [vs|]; [|apply sameButBuffers_refl].
    destruct (bufferCircular vs), (targetWidth p) as [tw|], (targetHeight p) as [th|];
      try apply sameButBuffers_refl.
    destruct (negb (width frame =? tw) || negb (height frame =? th));
      [apply sameButBuffers_refl|].
    destruct (negb (byteLength (data_buffer frame) =? tw * th * 4));
      [apply sameButBuffers_refl|].
    unfold sameButBuffers. repeat split.
Qed.

Lemma fold_listeners_sameButBuffers (frame : Frame) (ls : list Listener) :
  forall p : AVPipeline, sameButBuffers p (fold_left (runListener frame) ls p).
Proof.
  induction ls as [|l ls IH]; intros p; [apply sameButBuffers_refl|].
  cbn [fold_left]. eapply sameButBuffers_trans; [apply runListener_sameButBuffers | apply IH].
Qed.

Lemma emit_sameButBuffers (frame : Frame) (p : AVPipeline) :
  sameButBuffers p (emit frame p).
Proof. apply fold_listeners_sameButBuffers. Qed.

(** ** Set-up *)

(** X4.  [initialize] of the first declaration succeeds with any manifest
    URL and leaves the pipeline initialized; a second call, whatever its
    URL, does nothing.  It keeps the bindings, the listeners and the
    texture requirements the pipeline had.  On a pipeline that was not
    initialized it installs a fresh paused video element and a destination
    with canvas and context, and the DASH player exactly when the URL
    passes the manifest test (or a player was there).  Without a URL it
    raises after the video element was installed and leaves the pipeline
    uninitialized. *)
Theorem initialize_once (url : string) (again : option string) (p : AVPipeline) :
  let c := EmitterSetup.initialize (Some url) p in
  let failed := EmitterSetup.initialize None p in
  thrown c = None /\
  isInitialized (after c) = true /\
  EmitterSetup.initialize again (after c) = returns (after c) [] /\
  videoSources (after c) = videoSources p /\
  listeners (after c) = listeners p /\
  textureRequirements (after c) = textureRequirements p /\
  (isInitialized p = false ->
   videoElement (after c) = Some EmitterSetup.createVideo /\
   videoDestination (after c)
   = Some (mkVideoDestination (Some (mkCanvas 300 150)) true) /\
   dashPlayer (after c) = (isDASH url || dashPlayer p) /\
   thrown failed = Some TypeError /\
   isInitialized (after failed) = false /\
   videoElement (after failed) = Some EmitterSetup.createVideo).
Proof.
  cbv zeta. unfold EmitterSetup.initialize.
  destruct (isInitialized p) eqn:Hi.
  - cbn [after returns thrown]. rewrite Hi.
    repeat split; try assumption; discriminate.
  - destruct (isDASH url); cbn; repeat split; assumption.
Qed.

(** ** The timer *)

Lemma timerAfter_app (t u : list Event) :
  forall running : bool,
    timerAfter (t ++ u) running
    = match timerAfter t running with
      | Some r => timerAfter u r
      | None => None
      end.
Proof.
  induction t as [|e t IH]; intros running; [reflexivity|].
  destruct e; cbn [app timerAfter]; try apply IH; destruct running; auto.
Qed.

Lemma hasTimer_sameButBuffers (p q : AVPipeline) :
  sameButBuffers p q -> hasTimer q = hasTimer p.
Proof. intros H. unfold hasTimer. now rewrite (proj1 (proj2 (proj2 (proj2 (proj2 (proj2 H)))))). Qed.

Lemma Emitter_processVideoFrame_timer
    (rasterize : VideoElement -> Emitter.DrawRect -> N -> N -> list byte)
    (p : AVPipeline) :
  let c := Emitter.processVideoFrame rasterize p in
  videoProcessingInterval (after c) = videoProcessingInterval p /\
  forall running : bool, timerAfter (trace c) running = Some running.
Proof.
  cbv zeta. unfold Emitter.processVideoFrame.
  destruct (videoElement p) as [v|]; [|now split].
  destruct (paused v || ended v); [now split|].
  destruct (Emitter.tooSoon (_lastFrameTime p) (currentTime v)); [now split|].
  destruct ((videoWidth v =? 0) || (videoHeight v =? 0)); [now split|].
  cbn [videoDestination set_lastFrameTime textureRequirements].
  destruct (videoDestination p) as [[[c|] [|]]|]; try now split.
  destruct (getImageData _ _ _); [|now split].
  cbn [after returns trace]. split; [|reflexivity].
  match goal with |- videoProcessingInterval (emit ?f ?q) = _ =>
    pose proof (emit_sameButBuffers f q) as H end.
  now rewrite (proj1 (proj2 (proj2 (proj2 (proj2 (proj2 H)))))).
Qed.

Lemma EmitterSetup_call_timer
    (rasterize : VideoElement -> Emitter.DrawRect -> N -> N -> list byte)
    (c : EmitterSetup.Call) (p : AVPipeline) :
  timerAfter (trace (EmitterSetup.call rasterize c p)) (hasTimer p)
  = Some (hasTimer (after (EmitterSetup.call rasterize c p))).
Proof.
  destruct c as [url|v|ev|now processStart finished| |ext id| |];
    cbn [EmitterSetup.call].
  - unfold EmitterSetup.initialize.
    destruct (isInitialized p); [reflexivity|].
    destruct url as [url|]; [destruct (isDASH url)|]; reflexivity.
  - destruct (videoElement p); reflexivity.
  - destruct (videoElement p) as [v|] eqn:Hv; [|reflexivity].
    unfold hasTimer.
    destruct ev as [tvf now| | |]; cbn [EmitterSetup.setupEventListeners fst];
      unfold Emitter.startVideoProcessing, Emitter.stopVideoProcessing;
      destruct (videoProcessingInterval p) eqn:Hi; cbn; rewrite ?Hi; try reflexivity.
    rewrite Hv. destruct (2 <=? readyState v); cbn; rewrite ?Hi; reflexivity.
  - unfold Emitter.intervalCallback, hasTimer.
    destruct (videoProcessingInterval p) as [[period pc|period]|] eqn:Hi;
      try (cbn; now rewrite Hi).
    destruct (due pc now); [|cbn; now rewrite Hi].
    cbn [trace after].
    now rewrite (proj2 (Emitter_processVideoFrame_timer rasterize p)).
  - destruct (Emitter_processVideoFrame_timer rasterize p) as [H1 H2].
    rewrite H2. unfold hasTimer. now rewrite H1.
  - unfold Emitter.connectVideoTexture.
    destruct (textures ext !! id); [|reflexivity].
    destruct (sources ext !! id); reflexivity.
  - unfold Emitter.pause. destruct (videoElement p); reflexivity.
  - unfold Emitter.stop. destruct (videoElement p); reflexivity.
Qed.

(** X5.  Through any sequence of calls, events of the video element and
    timer ticks on a pipeline of the first declaration, [setInterval] is
    only called while no timer runs and [clearInterval] only while one
    does, and the pipeline holds a timer at the end exactly when the last
    of these calls was a [setInterval]: no timer is ever lost or doubled. *)
Theorem Emitter_timer_discipline
    (rasterize : VideoElement -> Emitter.DrawRect -> N -> N -> list byte)
    (cs : list EmitterSetup.Call) (p : AVPipeline) :
  timerAfter (snd (EmitterSetup.run rasterize cs p)) (hasTimer p)
  = Some (hasTimer (fst (EmitterSetup.run rasterize cs p))).
Proof.
  revert p. induction cs as [|c cs IH]; intros p; [reflexivity|].
  cbn [EmitterSetup.run].
  specialize (IH (after (EmitterSetup.call rasterize c p))).
  destruct (EmitterSetup.run rasterize cs (after (EmitterSetup.call rasterize c p)))
    as [p' t].
  cbn [fst snd] in *. now rewrite timerAfter_app, EmitterSetup_call_timer.
Qed.

Lemma Media_processVideoFrame_timer (p : AVPipeline) :
  let c := Media.processVideoFrame p in
  videoProcessingInterval (after c) = videoProcessingInterval p /\
  forall running : bool, timerAfter (trace c) running = Some running.
Proof.
  cbv zeta. unfold Media.processVideoFrame.
  destruct (videoElement p) as [v|]; [|now split].
  destruct (paused v || ended v); [now split|].
  destruct ((videoWidth v =? 0) || (videoHeight v =? 0)); [now split|].
  destruct (videoDestination p) as [[[c|] [|]]|]; try now split.
  destruct (getImageData _ _ _); [|now split].
  cbn [textureRequirements set_videoDestination].
  destruct ((tr_width (textureRequirements p) =? 0)
            || (tr_height (textureRequirements p) =? 0)); [now split|].
  cbn [after returns trace]. split; [|reflexivity].
  match goal with |- videoProcessingInterval (emit ?f ?q) = _ =>
    pose proof (emit_sameButBuffers f q) as H end.
  now rewrite (proj1 (proj2 (proj2 (proj2 (proj2 (proj2 H)))))).
Qed.

Lemma Media_call_timer (c : Media.Call) (p : AVPipeline) :
  timerAfter (trace (Media.call c p)) (hasTimer p)
  = Some (hasTimer (after (Media.call c p))).
Proof.
  destruct c as [config|tapped|v'|rate| | | |ext id|allowed| |time|];
    cbn [Media.call]; unfold hasTimer.
  - unfold Media.initialize.
    destruct (isInitialized p); [reflexivity|]. now destruct config.
  - unfold Media.initialize_clicked.
    destruct (playOverlay p); [|reflexivity].
    cbn [videoElement set_audioContext].
    destruct (videoElement p); [|reflexivity]. now destruct tapped.
  - now destruct (videoElement p).
  - unfold Media.startVideoProcessing.
    destruct (videoElement p) as [v|]; [|reflexivity].
    destruct (videoProcessingInterval p) eqn:Hi; cbn; rewrite ?Hi; [reflexivity|].
    destruct (2 <=? readyState v); cbn; rewrite ?Hi; [|reflexivity].
    destruct (dashPlayer p); cbn; rewrite ?Hi; reflexivity.
  - unfold Media.stopVideoProcessing.
    destruct (videoProcessingInterval p) eqn:Hi; cbn; rewrite ?Hi; reflexivity.
  - destruct (Media_processVideoFrame_timer p) as [H1 H2]. now rewrite H2, H1.
  - unfold Media.intervalCallback.
    destruct (videoProcessingInterval p) eqn:Hi; [|cbn; now rewrite Hi].
    destruct (Media_processVideoFrame_timer p) as [H1 H2]. now rewrite H2, H1, Hi.
  - unfold Media.connectVideoTexture.
    destruct (textures ext !! id) as [mpegInfo|]; [|reflexivity].
    cbn [videoSource set_videoSource].
    destruct (sources ext !! id); [|reflexivity].
    destruct ((mi_width mpegInfo =? 0) || (mi_height mpegInfo =? 0)); reflexivity.
  - unfold Media.play. destruct (videoElement p); [|reflexivity].
    destruct allowed; [reflexivity|]. destruct (playOverlay p); reflexivity.
  - unfold Media.pause. destruct (videoElement p); reflexivity.
  - unfold Media.seek. destruct (videoElement p); reflexivity.
  - unfold Media.dispose, Media.stopVideoProcessing.
    destruct (videoProcessingInterval p) eqn:Hi; cbn [trace returns after];
      rewrite !timerAfter_app; cbn [timerAfter];
      cbn [dashPlayer videoElement audioContext playOverlay
           set_videoProcessingInterval videoProcessingInterval];
      destruct (dashPlayer p), (videoElement p), (audioContext p), (playOverlay p);
      cbn; rewrite ?Hi; reflexivity.
Qed.

(** X6.  The same discipline holds for the second declaration, [dispose]
    and both stretches of [initialize] included: through any sequence of
    calls and timer ticks, a timer is set only while none runs and cleared
    only while one runs, and the pipeline holds one at the end exactly when
    the last of these calls set it. *)
Theorem Media_timer_discipline (cs : list Media.Call) (p : AVPipeline) :
  timerAfter (snd (Media.run cs p)) (hasTimer p)
  = Some (hasTimer (fst (Media.run cs p))).
Proof.
  revert p. induction cs as [|c cs IH]; intros p; [reflexivity|].
  cbn [Media.run].
  specialize (IH (after (Media.call c p))).
  destruct (Media.run cs (after (Media.call c p))) as [p' t].
  cbn [fst snd] in *. now rewrite timerAfter_app, Media_call_timer.
Qed.

(** X7.  [startVideoProcessing] of the first declaration, called again
    after a first call, sets no second timer and changes nothing, whatever
    the readings of the second call; and [stopVideoProcessing] after it
    gives back the pipeline as it was before the start, when that had no
    timer.  [stopVideoProcessing] never raises, and a second stop does
    nothing. *)
Theorem startVideoProcessing_stop_round_trip
    (frames frames' : option N) (now now' : Q) (p : AVPipeline) :
  let started := after (Emitter.startVideoProcessing frames now p) in
  let again := Emitter.startVideoProcessing frames' now' started in
  let stopped := Emitter.stopVideoProcessing started in
  after again = started /\
  trace again = [] /\
  thrown stopped = None /\
  videoProcessingInterval (after stopped) = None /\
  Emitter.stopVideoProcessing (after stopped) = returns (after stopped) [] /\
  (videoProcessingInterval p = None -> after stopped = p).
Proof.
  cbv zeta. unfold Emitter.startVideoProcessing, Emitter.stopVideoProcessing.
  destruct p as [dash [v|] audio destination initialized [i|]
                 sources requirements lastFrame source tw th size overlay button ls];
    cbn.
  - repeat split. discriminate.
  - destruct (2 <=? readyState v) eqn:Hr; cbn; rewrite ?Hr; repeat split.
  - repeat split. discriminate.
  - repeat split.
Qed.

(** ** The draw rectangle *)

Local Open Scope Q_scope.

Lemma N2Q_pos (n : N) : n <> 0%N -> 0 < N2Q n.
Proof. intros H. unfold N2Q, Qlt. cbn. lia. Qed.

(** X8.  For a source and a target of non-zero dimensions, the rectangle
    that [processVideoFrame] of the first declaration draws the video into
    has the aspect of the source, is centred on the canvas, matches the
    canvas in one direction and is at least as large in the other: the
    picture always covers the whole canvas, what sticks out is cut off on
    both sides alike, and none of the black background stays visible. *)
Theorem letterbox_covers (videoWidth videoHeight targetWidth targetHeight : N) :
  videoWidth <> 0%N -> videoHeight <> 0%N ->
  targetWidth <> 0%N -> targetHeight <> 0%N ->
  let r := Emitter.letterbox videoWidth videoHeight targetWidth targetHeight in
  Emitter.drawWidth r * N2Q videoHeight == Emitter.drawHeight r * N2Q videoWidth /\
  2 * Emitter.offsetX r + Emitter.drawWidth r == N2Q targetWidth /\
  2 * Emitter.offsetY r + Emitter.drawHeight r == N2Q targetHeight /\
  N2Q targetWidth <= Emitter.drawWidth r /\
  N2Q targetHeight <= Emitter.drawHeight r /\
  Emitter.offsetX r <= 0 /\
  Emitter.offsetY r <= 0 /\
  (Emitter.drawWidth r == N2Q targetWidth \/
   Emitter.drawHeight r == N2Q targetHeight).
Proof.
  intros Hvw Hvh Htw Hth. cbv zeta. unfold Emitter.letterbox.
  pose proof (N2Q_pos _ Hvw) as Ha. pose proof (N2Q_pos _ Hvh) as Hb.
  pose proof (N2Q_pos _ Htw) as Hc. pose proof (N2Q_pos _ Hth) as Hd.
  set (a := N2Q videoWidth) in *. set (b := N2Q videoHeight) in *.
  set (c := N2Q targetWidth) in *. set (d := N2Q targetHeight) in *.
  assert (Hs : a / b * b == a) by (field; lra).
  assert (Hr : c / d * d == c) by (field; lra).
  assert (Hspos : 0 < a / b).
  { apply Qlt_shift_div_l; lra. }
  assert (Hq : c / (a / b) * (a / b) == c) by (field; split; lra).
  assert (Hhalf : forall z : Q, z / 2 == z * (1 # 2)) by (intros z; field).
  destruct (Qle_bool (a / b) (c / d)) eqn:Hcmp; cbn [negb Emitter.drawWidth
    Emitter.drawHeight Emitter.offsetX Emitter.offsetY].
  - apply Qle_bool_iff in Hcmp.
    rewrite (Hhalf (d - c / (a / b))).
    set (s := a / b) in *. set (t := c / d) in *. set (q := c / s) in *.
    assert (d <= q) by nra.
    repeat split; try lra; try nra.
  - assert (Hn : ~ a / b <= c / d).
    { intros H. apply Qle_bool_iff in H. congruence. }
    rewrite (Hhalf (c - d * (a / b))).
    set (s := a / b) in *. set (t := c / d) in *.
    assert (c <= d * s) by nra.
    repeat split; try lra; try nra.
Qed.

Lemma letterbox_covers_witness :
  let r := Emitter.letterbox 1920 1080 640 480 in
  N2Q 640 <= Emitter.drawWidth r /\ N2Q 480 <= Emitter.drawHeight r /\
  Emitter.offsetX r <= 0.
Proof.
  destruct (letterbox_covers 1920 1080 640 480)
    as (_ & _ & _ & Hw & Hh & Hx & _); try discriminate.
  repeat split; assumption.
Defined.

Example letterbox_sample :
  let r := Emitter.letterbox 1920 1080 640 480 in
  Emitter.drawHeight r == 480 /\ Emitter.drawWidth r == 2560 # 3 /\
  Emitter.offsetX r == - (320 # 3) /\ Emitter.offsetY r == 0.
Proof. vm_compute. repeat split. Qed.

Local Close Scope Q_scope.

(** ** What the capture step emits *)

Lemma byteLength_readBytes (n : N) (surface : list byte) :
  byteLength (readBytes (N.to_nat n) surface) = n.
Proof. unfold byteLength. rewrite length_readBytes. apply N2Nat.id. Qed.

(** X9.  [processVideoFrame] of the first declaration never raises and
    emits at most one frame.  A frame it emits comes from an element that is
    neither paused nor ended, carries the media time of the element as its
    timestamp, and has exactly four bytes for each pixel of its width and
    height.  Whenever the element is playing and the tick is not skipped as
    too soon, the media time is recorded as that of the last frame, also
    when nothing is emitted (no picture yet, nothing to draw on). *)
Theorem Emitter_processVideoFrame_frame
    (rasterize : VideoElement -> Emitter.DrawRect -> N -> N -> list byte)
    (p : AVPipeline) :
  let c := Emitter.processVideoFrame rasterize p in
  thrown c = None /\
  (length (emitted (trace c)) <= 1)%nat /\
  (forall frame : Frame,
      In frame (emitted (trace c)) ->
      exists v : VideoElement,
        videoElement p = Some v /\ paused v = false /\ ended v = false /\
        timestamp frame = Some (currentTime v) /\
        byteLength (data frame) = 4 * width frame * height frame) /\
  (forall v : VideoElement,
      videoElement p = Some v -> paused v = false -> ended v = false ->
      Emitter.tooSoon (_lastFrameTime p) (currentTime v) = false ->
      _lastFrameTime (after c) = Some (currentTime v)).
Proof.
  cbv zeta. unfold Emitter.processVideoFrame.
  destruct (videoElement p) as [v|]; [|cbn; repeat split; [lia | contradiction | discriminate]].
  destruct (paused v) eqn:Hp;
    [cbn; repeat split; [lia | contradiction | intros ? [= <-]; congruence]|].
  destruct (ended v) eqn:He;
    [cbn; repeat split; [lia | contradiction | intros ? [= <-]; congruence]|].
  cbn [orb].
  destruct (Emitter.tooSoon (_lastFrameTime p) (currentTime v)) eqn:Hs;
    [cbn; repeat split; [lia | contradiction | intros ? [= <-]; congruence]|].
  assert (Hlast : forall q : AVPipeline,
             _lastFrameTime q = Some (currentTime v) ->
             forall w : VideoElement,
               Some v = Some w -> paused w = false -> ended w = false ->
               Emitter.tooSoon (_lastFrameTime p) (currentTime w) = false ->
               _lastFrameTime q = Some (currentTime w)).
  { intros q Hq w [= <-] _ _ _. exact Hq. }
  destruct ((videoWidth v =? 0) || (videoHeight v =? 0));
    [cbn [thrown trace after returns emitted length];
     repeat split; [lia | contradiction | now apply Hlast]|].
  cbn [videoDestination set_lastFrameTime textureRequirements].
  destruct (videoDestination p) as [[[c|] [|]]|];
    try (cbn [thrown trace after returns emitted length];
         repeat split; [lia | contradiction | now apply Hlast]).
  unfold getImageData.
  destruct ((tr_width (textureRequirements p) =? 0)
            || (tr_height (textureRequirements p) =? 0));
    [cbn [thrown trace after returns emitted length];
     repeat split; [lia | contradiction | now apply Hlast]|].
  cbn [thrown trace after returns emitted length id_data id_width id_height].
  repeat split; [lia | |].
  - intros frame [<-|[]]. exists v. cbn [timestamp data width height].
    repeat split; try assumption. apply byteLength_readBytes.
  - apply Hlast.
    match goal with |- _lastFrameTime (emit ?f ?q) = _ =>
      pose proof (emit_sameButBuffers f q) as H end.
    now rewrite (proj1 (proj2 (proj2 (proj2 (proj2 (proj2 (proj2 (proj2 H)))))))).
Qed.

(** X10.  [processVideoFrame] of the second declaration emits at most one
    frame; the frame has no timestamp and exactly four bytes for each pixel
    of its width and height, whatever [frameSize] and [format] of the
    texture requirements say.  The only exception that leaves it is a
    TypeError, raised before anything is drawn or created, exactly when the
    element is playing a picture and there is no canvas to size. *)
Theorem Media_processVideoFrame_frame (p : AVPipeline) :
  let c := Media.processVideoFrame p in
  (length (emitted (trace c)) <= 1)%nat /\
  (forall frame : Frame,
      In frame (emitted (trace c)) ->
      timestamp frame = None /\
      byteLength (data frame) = 4 * width frame * height frame) /\
  (forall e : Error,
      thrown c = Some e -> e = TypeError /\ after c = p /\ trace c = []) /\
  (thrown c = Some TypeError <->
   exists v : VideoElement,
     videoElement p = Some v /\ paused v = false /\ ended v = false /\
     videoWidth v <> 0 /\ videoHeight v <> 0 /\
     forall (cv : Canvas) (hasContext : bool),
       videoDestination p <> Some (mkVideoDestination (Some cv) hasContext)).
Proof.
  cbv zeta. unfold Media.processVideoFrame.
  destruct (videoElement p) as [v|];
    [|cbn; repeat split; try lia; try contradiction; try discriminate;
      intros (v & H & _); discriminate].
  destruct (paused v) eqn:Hp;
    [cbn; repeat split; try lia; try contradiction; try discriminate;
     intros (w & [= <-] & H & _); congruence|].
  destruct (ended v) eqn:He;
    [cbn; repeat split; try lia; try contradiction; try discriminate;
     intros (w & [= <-] & _ & H & _); congruence|].
  cbn [orb].
  destruct (N.eqb_spec (videoWidth v) 0) as [Hw|Hw];
    [cbn; repeat split; try lia; try contradiction; try discriminate;
     intros (w & [= <-] & _ & _ & H & _); congruence|].
  destruct (N.eqb_spec (videoHeight v) 0) as [Hh|Hh];
    [cbn; repeat split; try lia; try contradiction; try discriminate;
     intros (w & [= <-] & _ & _ & _ & H & _); congruence|].
  cbn [orb].
  destruct (videoDestination p) as [[[cv|] hasContext]|] eqn:Hd.
  - assert (Hno : ~ exists w : VideoElement,
               Some v = Some w /\ paused w = false /\ ended w = false /\
               videoWidth w <> 0 /\ videoHeight w <> 0 /\
               forall (cv0 : Canvas) (hc : bool),
                 Some (mkVideoDestination (Some cv) hasContext)
                 <> Some (mkVideoDestination (Some cv0) hc)).
    { intros (w & _ & _ & _ & _ & _ & H). now apply (H cv hasContext). }
    destruct hasContext;
      [|cbn; repeat split; try lia; try contradiction; try discriminate;
        intros H; now apply Hno in H].
    rewrite getImageData_some by assumption.
    cbn [textureRequirements set_videoDestination].
    destruct ((tr_width (textureRequirements p) =? 0)
              || (tr_height (textureRequirements p) =? 0));
      [cbn; repeat split; try lia; try contradiction; try discriminate;
       intros H; now apply Hno in H|].
    cbn [thrown trace after returns emitted length].
    repeat split; try lia; try discriminate; [| |intros H; now apply Hno in H].
    + destruct H as [<-|[]]. reflexivity.
    + destruct H as [<-|[]]. unfold mkFrame.
      cbn [data width height cv.cvtColor cv.mat_data].
      unfold byteLength.
      rewrite (length_RGB2RGBA
                 (N.to_nat (tr_height (textureRequirements p))
                  * N.to_nat (tr_width (textureRequirements p)))).
      * lia.
      * rewrite length_resize. cbn [cv.channels cv.cvtColor]. lia.
  - cbn. repeat split; try lia; try contradiction; try congruence.
    intros _. exists v. repeat split; try assumption. intros cv hc. discriminate.
  - cbn. repeat split; try lia; try contradiction; try congruence.
    intros _. exists v. repeat split; try assumption. intros cv hc. discriminate.
Qed.

(** ** The spacing of emitted frames *)

Local Open Scope Q_scope.

Lemma follows_trans (a x b : Q) : follows a x -> follows x b -> follows a b.
Proof.
  unfold follows. intros [H1 H2] [H3 H4]. split; [lra|].
  destruct H2 as [H2|H2]; [now left|]. right. destruct H4; lra.
Qed.

Lemma spaced_weaken (a x : Q) (times : list Q) :
  follows a x -> spaced (Some x) times -> spaced (Some a) times.
Proof.
  destruct times as [|t times]; [intros; exact I|].
  cbn. intros Hax [Hxt Hrest]. split; [|exact Hrest].
  eapply follows_trans; eassumption.
Qed.

Lemma spaced_forget (previous : option Q) (times : list Q) :
  spaced previous times -> spaced None times.
Proof. destruct times as [|t times]; [intros; exact I|]. cbn. intros [_ H]. now split. Qed.

Lemma stamps_app (l m : list Frame) : stamps (l ++ m) = stamps l ++ stamps m.
Proof. unfold stamps. apply flat_map_app. Qed.

(** A tick that is not too soon comes at a media time that follows the
    recorded one. *)
Lemma not_tooSoon_follows (a t : Q) :
  0 <= t ->
  Emitter.tooSoon (Some a) t = false ->
  follows a t.
Proof.
  intros Ht H. unfold Emitter.tooSoon in H.
  apply andb_false_iff in H as [H|H]; apply negb_false_iff in H.
  - apply Qeq_bool_iff in H. split; [lra | now left].
  - apply Qle_bool_iff in H. unfold follows.
    destruct (Qlt_le_dec a 0) as [Hneg|Hpos].
    + split; [lra | right; exact H].
    + split; [lra | right; exact H].
Qed.

(** One tick either leaves the recorded time and emits nothing, or
    records the media time of the element, which follows the one recorded
    before, and emits at most a frame of that time. *)
Lemma tick_spacing
    (rasterize : VideoElement -> Emitter.DrawRect -> N -> N -> list byte)
    (v : VideoElement) (p : AVPipeline) :
  0 <= currentTime v ->
  let c := Emitter.processVideoFrame rasterize (set_videoElement (Some v) p) in
  (_lastFrameTime (after c) = _lastFrameTime p /\ emitted (trace c) = []) \/
  (_lastFrameTime (after c) = Some (currentTime v) /\
   (forall a : Q, _lastFrameTime p = Some a -> follows a (currentTime v)) /\
   (stamps (emitted (trace c)) = [] \/
    stamps (emitted (trace c)) = [currentTime v])).
Proof.
  intros Ht. cbv zeta. unfold Emitter.processVideoFrame.
  cbn [videoElement set_videoElement _lastFrameTime].
  destruct (paused v || ended v); [left; now split|].
  destruct (Emitter.tooSoon (_lastFrameTime p) (currentTime v)) eqn:Hs; [left; now split|].
  assert (Hfollows : forall a : Q, _lastFrameTime p = Some a -> follows a (currentTime v)).
  { intros a Ha. rewrite Ha in Hs. now apply not_tooSoon_follows. }
  right.
  destruct ((videoWidth v =? 0) || (videoHeight v =? 0))%N;
    [split; [reflexivity|]; split; [exact Hfollows | now left]|].
  cbn [videoDestination set_lastFrameTime set_videoElement textureRequirements].
  destruct (videoDestination p) as [[[c|] [|]]|];
    try (split; [reflexivity|]; split; [exact Hfollows | now left]).
  destruct (getImageData _ _ _);
    [|split; [reflexivity|]; split; [exact Hfollows | now left]].
  cbn [after returns trace emitted]. split; [|split; [exact Hfollows | now right]].
  match goal with |- _lastFrameTime (emit ?f ?q) = _ =>
    pose proof (emit_sameButBuffers f q) as H end.
  now rewrite (proj1 (proj2 (proj2 (proj2 (proj2 (proj2 (proj2 (proj2 H)))))))).
Qed.

(** X11.  Over any succession of ticks of the first declaration, at media
    times that are not negative, the timestamps of the emitted frames never
    go back, and each one is at least 1/60 s after the one before, unless
    the one before is zero: after a frame at media time 0 the next frame
    may come at any time. *)
Theorem captures_spaced
    (rasterize : VideoElement -> Emitter.DrawRect -> N -> N -> list byte)
    (vs : list VideoElement) :
  Forall (fun v => 0 <= currentTime v) vs ->
  forall p : AVPipeline,
    spaced (_lastFrameTime p) (stamps (EmitterSetup.captures rasterize vs p)).
Proof.
  induction 1 as [|v vs Hv _ IH]; intros p; [exact I|].
  cbn [EmitterSetup.captures]. rewrite stamps_app.
  pose proof (tick_spacing rasterize v p Hv) as Htick. cbv zeta in Htick.
  specialize (IH (after (Emitter.processVideoFrame rasterize
                           (set_videoElement (Some v) p)))).
  destruct Htick as [[Hsame Hnone]|(Hnew & Hfollows & [Hnone|Hone])].
  - rewrite Hnone. cbn [stamps flat_map app]. now rewrite Hsame in IH.
  - rewrite Hnone. cbn [app]. rewrite Hnew in IH.
    destruct (_lastFrameTime p) as [a|]; [|now apply spaced_forget in IH].
    eapply spaced_weaken; [now apply Hfollows | exact IH].
  - rewrite Hone. cbn [app spaced]. rewrite Hnew in IH. split; [|exact IH].
    destruct (_lastFrameTime p) as [a|]; [now apply Hfollows | exact I].
Qed.

Lemma captures_spaced_witness :
  spaced None
    (stamps (EmitterSetup.captures Sample.nearest
               [Sample.surface 1; Sample.surface (1 + (1 # 100));
                Sample.surface (1 + (1 # 30))]
               (Sample.playing Sample.target2x1 (Sample.surface 0)))).
Proof.
  change (spaced
            (_lastFrameTime (Sample.playing Sample.target2x1 (Sample.surface 0)))
            (stamps (EmitterSetup.captures Sample.nearest
                       [Sample.surface 1; Sample.surface (1 + (1 # 100));
                        Sample.surface (1 + (1 # 30))]
                       (Sample.playing Sample.target2x1 (Sample.surface 0))))).
  apply captures_spaced.
  repeat constructor; discriminate.
Defined.

Example captures_sample :
  stamps (EmitterSetup.captures Sample.nearest
            [Sample.surface 1; Sample.surface (1 + (1 # 100));
             Sample.surface (1 + (1 # 30))]
            (Sample.playing Sample.target2x1 (Sample.surface 0)))
  = [1; 1 + (1 # 30)].
Proof. vm_compute. reflexivity. Qed.

Local Close Scope Q_scope.

(** ** What a frame event touches *)

Lemma frameHandler_other (sourceId j : N) (mpegInfo : MpegTextureInfo)
    (frame : Frame) (p : AVPipeline) :
  j <> sourceId \/ ~ matches mpegInfo frame ->
  videoSources (frameHandler sourceId mpegInfo frame p) !! j = videoSources p !! j.
Proof.
  intros H. unfold frameHandler.
  destruct (videoSources p !! sourceId) as [vs|] eqn:Hvs; [|reflexivity].
  destruct (circularBuffer vs); [|reflexivity].
  destruct (N.eqb_spec (width frame) (mi_width mpegInfo)) as [Hw|Hw]; [|reflexivity].
  destruct (N.eqb_spec (height frame) (mi_height mpegInfo)) as [Hh|Hh]; [|reflexivity].
  cbn [negb orb videoSources set_videoSources].
  destruct H as [H|H]; [|exfalso; apply H; now split].
  apply lookup_insert_ne. congruence.
Qed.

Lemma frameHandler_bound (sourceId j : N) (mpegInfo : MpegTextureInfo)
    (frame : Frame) (p : AVPipeline) :
  is_Some (videoSources (frameHandler sourceId mpegInfo frame p) !! j)
  <-> is_Some (videoSources p !! j).
Proof.
  unfold frameHandler.
  destruct (videoSources p !! sourceId) as [vs|] eqn:Hvs; [|reflexivity].
  destruct (circularBuffer vs); [|reflexivity].
  destruct (negb (width frame =? mi_width mpegInfo)
            || negb (height frame =? mi_height mpegInfo)); [reflexivity|].
  cbn [videoSources set_videoSources].
  destruct (N.eq_dec sourceId j) as [->|Hne].
  - rewrite lookup_insert_eq, Hvs. split; intros _; eauto.
  - now rewrite lookup_insert_ne.
Qed.

Lemma frameHandler_videoSource (sourceId : N) (mpegInfo : MpegTextureInfo)
    (frame : Frame) (p : AVPipeline) :
  videoSource (frameHandler sourceId mpegInfo frame p) = videoSource p.
Proof.
  unfold frameHandler.
  destruct (videoSources p !! sourceId) as [vs|]; [|reflexivity].
  destruct (circularBuffer vs); [|reflexivity].
  now destruct (negb (width frame =? mi_width mpegInfo)
                || negb (height frame =? mi_height mpegInfo)).
Qed.

Lemma onVideoFrame_videoSources (frame : Frame) (p : AVPipeline) :
  videoSources (onVideoFrame frame p) = videoSources p.
Proof.
  unfold onVideoFrame.
  destruct (videoSource p) as [vs|]; [|reflexivity].
  destruct (bufferCircular vs), (targetWidth p) as [tw|], (targetHeight p) as [th|];
    try reflexivity.
  destruct (negb (width frame =? tw) || negb (height frame =? th)); [reflexivity|].
  now destruct (negb (byteLength (data_buffer frame) =? tw * th * 4)).
Qed.

(** X12.  Emitting a frame changes nothing of the pipeline but ring
    buffers: the entry of a source is left as it is unless a registered
    frame handler of that source recorded the dimensions of the frame, no
    source is added or removed, and the single source of the second
    declaration is left as it is unless its listener is registered. *)
Theorem emit_touches_bound_sources (frame : Frame) (p : AVPipeline) :
  sameButBuffers p (emit frame p) /\
  (forall j : N,
      (forall mpegInfo : MpegTextureInfo,
          In (FrameHandler j mpegInfo) (listeners p) -> ~ matches mpegInfo frame) ->
      videoSources (emit frame p) !! j = videoSources p !! j) /\
  (forall j : N,
      is_Some (videoSources (emit frame p) !! j) <-> is_Some (videoSources p !! j)) /\
  (~ In TextureListener (listeners p) ->
   videoSource (emit frame p) = videoSource p).
Proof.
  split; [apply emit_sameButBuffers|]. unfold emit.
  generalize (listeners p) as ls. intros ls. revert p.
  induction ls as [|l ls IH]; intros p; [now repeat split|].
  cbn [fold_left]. destruct (IH (runListener frame p l)) as (I1 & I2 & I3).
  split; [|split].
  - intros j Hj. rewrite I1.
    + destruct l as [id mpegInfo|]; cbn [runListener].
      * apply frameHandler_other.
        destruct (N.eq_dec j id) as [->|Hne]; [|now left].
        right. apply Hj. now left.
      * now rewrite onVideoFrame_videoSources.
    + intros mpegInfo Hin. apply Hj. now right.
  - intros j. rewrite I2.
    destruct l as [id mpegInfo|]; cbn [runListener].
    + apply frameHandler_bound.
    + now rewrite onVideoFrame_videoSources.
  - intros Hno. rewrite I3.
    + destruct l as [id mpegInfo|]; cbn [runListener].
      * apply frameHandler_videoSource.
      * exfalso. apply Hno. now left.
    + intros Hin. apply Hno. now right.
Qed.

(** X13.  [connectVideoTexture] of the first declaration never replaces a
    handler: bound twice to one source, the pipeline holds two handlers of
    it, and every frame of the recorded dimensions is written into the ring
    buffer of the source twice; with room for two frames the count goes up
    by two for one frame. *)
Theorem connectVideoTexture_twice
    (textureExtension : TextureExtension) (sourceId : N) (p : AVPipeline)
    (mpegInfo : MpegTextureInfo) (vs : VideoSource) (cb : RingBuffer) (frame : Frame) :
  listeners p = [] ->
  textures textureExtension !! sourceId = Some mpegInfo ->
  sources textureExtension !! sourceId = Some vs ->
  circularBuffer vs = Some cb ->
  matches mpegInfo frame ->
  let once := after (Emitter.connectVideoTexture textureExtension sourceId p) in
  let twice := after (Emitter.connectVideoTexture textureExtension sourceId once) in
  listeners twice = [FrameHandler sourceId mpegInfo; FrameHandler sourceId mpegInfo] /\
  videoSources (emit frame twice) !! sourceId
  = Some (mkVideoSource
            (Some (writeFrame (data frame) (writeFrame (data frame) cb)))
            (bufferCircular vs)) /\
  ((count cb + 2 <= maxFrames cb)%Z ->
   count (writeFrame (data frame) (writeFrame (data frame) cb)) = (count cb + 2)%Z).
Proof.
  intros Hl Ht Hs Hcb Hm. cbv zeta. unfold Emitter.connectVideoTexture.
  rewrite Ht, Hs. cbn [after returns].
  split; [|split].
  - cbn. now rewrite Hl.
  - unfold emit. cbn [listeners on set_listeners set_videoSources]. rewrite Hl.
    cbn [app fold_left runListener].
    match goal with |- context [frameHandler _ _ _ (frameHandler _ _ _ ?q)] =>
      assert (H1 : videoSources (frameHandler sourceId mpegInfo frame q) !! sourceId
                   = Some (mkVideoSource (Some (writeFrame (data frame) cb))
                             (bufferCircular vs)))
    end.
    { apply frameHandler_writes; [apply lookup_insert_eq | exact Hcb | exact Hm]. }
    apply (frameHandler_writes _ _ _ _ _ _ H1 eq_refl Hm).
  - intros Hroom. rewrite !count_writeFrame, maxFrames_writeFrame.
    destruct (Z.leb_spec (maxFrames cb) (count cb)); [lia|].
    destruct (Z.leb_spec (maxFrames cb) (count cb + 1)); lia.
Qed.

Lemma connectVideoTexture_twice_witness :
  let extension :=
    mkTextureExtension {[ 7 := Sample.info1x1 ]}
      {[ 7 := mkVideoSource (Some (mkRingBuffer 12 [] 0 3)) None ]} in
  let twice :=
    after (Emitter.connectVideoTexture extension 7
             (after (Emitter.connectVideoTexture extension 7 (newAVPipeline None)))) in
  videoSources (emit (Sample.pixel Byte.x01) twice) !! 7
  = Some (mkVideoSource
            (Some (writeFrame (data (Sample.pixel Byte.x01))
                     (writeFrame (data (Sample.pixel Byte.x01))
                        (mkRingBuffer 12 [] 0 3))))
            None).
Proof.
  cbv zeta.
  apply (connectVideoTexture_twice
           (mkTextureExtension {[ 7 := Sample.info1x1 ]}
              {[ 7 := mkVideoSource (Some (mkRingBuffer 12 [] 0 3)) None ]})
           7 (newAVPipeline None) Sample.info1x1
           (mkVideoSource (Some (mkRingBuffer 12 [] 0 3)) None)
           (mkRingBuffer 12 [] 0 3) (Sample.pixel Byte.x01)).
  - reflexivity.
  - vm_compute. reflexivity.
  - vm_compute. reflexivity.
  - reflexivity.
  - split; reflexivity.
Defined.

(** ** From the capture to the ring buffer *)

Lemma Emitter_processVideoFrame_runs
    (rasterize : VideoElement -> Emitter.DrawRect -> N -> N -> list byte)
    (p : AVPipeline) (v : VideoElement) :
  capturing p v ->
  Emitter.tooSoon (_lastFrameTime p) (currentTime v) = false ->
  tr_width (textureRequirements p) <> 0 ->
  tr_height (textureRequirements p) <> 0 ->
  exists (bytes : list byte) (q : AVPipeline),
    let frame := mkFrame bytes (tr_width (textureRequirements p))
                   (tr_height (textureRequirements p)) (Some (currentTime v)) in
    Emitter.processVideoFrame rasterize p = returns (emit frame q) [Emitted frame] /\
    byteLength bytes
    = 4 * tr_width (textureRequirements p) * tr_height (textureRequirements p) /\
    videoSources q = videoSources p /\ listeners q = listeners p.
Proof.
  intros (Hv & Hp & He & Hw & Hh & c & Hd) Hsoon Htw Hth.
  unfold Emitter.processVideoFrame. rewrite Hv, Hp, He, Hsoon. cbn [orb].
  destruct (N.eqb_spec (videoWidth v) 0); [contradiction|].
  destruct (N.eqb_spec (videoHeight v) 0); [contradiction|]. cbn [orb].
  cbn [videoDestination set_lastFrameTime textureRequirements]. rewrite Hd.
  rewrite getImageData_some by assumption.
  cbn [id_data id_width id_height].
  eexists. eexists. cbv zeta. split; [reflexivity|].
  split; [apply byteLength_readBytes|]. split; reflexivity.
Qed.

(** X14.  A pipeline of the first declaration converts to its texture
    requirements and [connectVideoTexture] never changes them.  So, once
    bound, each capture emits a frame of [4 * width * height] bytes of the
    texture requirements, and the handler writes it into the ring buffer of
    the source exactly when the bound texture has those dimensions;
    otherwise every frame is dropped and the source stays as it is. *)
Theorem Emitter_bound_capture
    (rasterize : VideoElement -> Emitter.DrawRect -> N -> N -> list byte)
    (textureExtension : TextureExtension) (sourceId : N) (p : AVPipeline)
    (v : VideoElement) (mpegInfo : MpegTextureInfo) (vs : VideoSource)
    (cb : RingBuffer) :
  capturing p v ->
  Emitter.tooSoon (_lastFrameTime p) (currentTime v) = false ->
  tr_width (textureRequirements p) <> 0 ->
  tr_height (textureRequirements p) <> 0 ->
  listeners p = [] ->
  textures textureExtension !! sourceId = Some mpegInfo ->
  sources textureExtension !! sourceId = Some vs ->
  circularBuffer vs = Some cb ->
  let q := after (Emitter.connectVideoTexture textureExtension sourceId p) in
  let c := Emitter.processVideoFrame rasterize q in
  textureRequirements q = textureRequirements p /\
  exists frame : Frame,
    emitted (trace c) = [frame] /\
    byteLength (data frame)
    = 4 * tr_width (textureRequirements p) * tr_height (textureRequirements p) /\
    (mi_width mpegInfo = tr_width (textureRequirements p) /\
     mi_height mpegInfo = tr_height (textureRequirements p) ->
     videoSources (after c) !! sourceId
     = Some (mkVideoSource (Some (writeFrame (data frame) cb)) (bufferCircular vs))) /\
    (mi_width mpegInfo <> tr_width (textureRequirements p) \/
     mi_height mpegInfo <> tr_height (textureRequirements p) ->
     videoSources (after c) !! sourceId = Some vs).
Proof.
  intros Hc Hsoon Htw Hth Hl Ht Hs Hcb. cbv zeta.
  unfold Emitter.connectVideoTexture. rewrite Ht, Hs. cbn [after returns].
  set (q := on (FrameHandler sourceId mpegInfo)
              (set_videoSources (<[sourceId:=vs]> (videoSources p)) p)).
  split; [reflexivity|].
  assert (Hcq : capturing q v) by exact Hc.
  destruct (Emitter_processVideoFrame_runs rasterize q v Hcq Hsoon Htw Hth)
    as (bytes & q' & Hrun & Hlen & Hsrc & Hls).
  cbv zeta in Hrun. rewrite Hrun. cbn [trace after returns emitted].
  eexists. split; [reflexivity|]. cbn [data]. split; [exact Hlen|].
  unfold emit. rewrite Hls. subst q. cbn [listeners on set_listeners set_videoSources].
  rewrite Hl. cbn [app fold_left runListener].
  assert (Hlookup : videoSources q' !! sourceId = Some vs).
  { rewrite Hsrc. cbn. apply lookup_insert_eq. }
  split.
  - intros [Hw Hh]. apply frameHandler_writes; [exact Hlookup | exact Hcb |].
    split; cbn [width height]; symmetry; assumption.
  - intros Hne. rewrite frameHandler_other; [exact Hlookup|].
    right. intros [Hw Hh]. cbn [width height] in *.
    destruct Hne as [H|H]; apply H; symmetry; [exact Hw | exact Hh].
Qed.

Lemma Emitter_bound_capture_witness :
  let extension :=
    mkTextureExtension {[ 7 := mkMpegTextureInfo 2 1 "RGBA" 8 ]}
      {[ 7 := mkVideoSource (Some (mkRingBuffer 24 [] 0 3)) None ]} in
  let q := after (Emitter.connectVideoTexture extension 7
                    (Sample.playing Sample.target2x1 (Sample.surface 1))) in
  exists frame : Frame,
    emitted (trace (Emitter.processVideoFrame Sample.nearest q)) = [frame] /\
    videoSources (after (Emitter.processVideoFrame Sample.nearest q)) !! 7
    = Some (mkVideoSource
              (Some (writeFrame (data frame) (mkRingBuffer 24 [] 0 3))) None).
Proof.
  cbv zeta.
  destruct (Emitter_bound_capture Sample.nearest
              (mkTextureExtension {[ 7 := mkMpegTextureInfo 2 1 "RGBA" 8 ]}
                 {[ 7 := mkVideoSource (Some (mkRingBuffer 24 [] 0 3)) None ]})
              7 (Sample.playing Sample.target2x1 (Sample.surface 1))
              (Sample.surface 1) (mkMpegTextureInfo 2 1 "RGBA" 8)
              (mkVideoSource (Some (mkRingBuffer 24 [] 0 3)) None)
              (mkRingBuffer 24 [] 0 3))
    as (_ & frame & Hem & _ & Hfed & _).
  - repeat split; try discriminate. exists (mkCanvas 300 150). reflexivity.
  - reflexivity.
  - discriminate.
  - discriminate.
  - reflexivity.
  - vm_compute. reflexivity.
  - vm_compute. reflexivity.
  - reflexivity.
  - exists frame. split; [exact Hem|]. apply Hfed. split; reflexivity.
Defined.

Lemma Media_processVideoFrame_runs (p : AVPipeline) (v : VideoElement) :
  capturing p v ->
  tr_width (textureRequirements p) <> 0 ->
  tr_height (textureRequirements p) <> 0 ->
  exists (bytes : list byte) (q : AVPipeline),
    let frame := mkFrame bytes (tr_width (textureRequirements p))
                   (tr_height (textureRequirements p)) None in
    after (Media.processVideoFrame p) = emit frame q /\
    emitted (trace (Media.processVideoFrame p)) = [frame] /\
    byteLength bytes
    = tr_width (textureRequirements p) * tr_height (textureRequirements p) * 4 /\
    videoSource q = videoSource p /\ listeners q = listeners p /\
    targetWidth q = targetWidth p /\ targetHeight q = targetHeight p.
Proof.
  intros (Hv & Hp & He & Hw & Hh & c & Hd) Htw Hth.
  unfold Media.processVideoFrame. rewrite Hv, Hp, He. cbn [orb].
  destruct (N.eqb_spec (videoWidth v) 0); [contradiction|].
  destruct (N.eqb_spec (videoHeight v) 0); [contradiction|]. cbn [orb].
  rewrite Hd. rewrite getImageData_some by assumption.
  cbn [textureRequirements set_videoDestination].
  destruct (N.eqb_spec (tr_width (textureRequirements p)) 0); [contradiction|].
  destruct (N.eqb_spec (tr_height (textureRequirements p)) 0); [contradiction|].
  cbn [orb returns trace after emitted].
  eexists. eexists. cbv zeta. split; [reflexivity|]. split; [reflexivity|].
  split; [|repeat split].
  unfold byteLength. cbn [cv.cvtColor cv.mat_data].
  rewrite (length_RGB2RGBA
             (N.to_nat (tr_height (textureRequirements p))
              * N.to_nat (tr_width (textureRequirements p)))).
  - lia.
  - rewrite length_resize. cbn [cv.channels cv.cvtColor]. lia.
Qed.

(** X15.  The same holds for the second declaration: [connectVideoTexture]
    records the dimensions of the texture as the target of the listener
    and leaves the texture requirements, to which the capture converts, as
    they are.  A capture of the bound pipeline emits one frame; its bytes
    are pushed into the ring buffer of the source exactly when the texture
    has the dimensions of the texture requirements, and otherwise the
    source stays as it is. *)
Theorem Media_bound_capture
    (textureExtension : TextureExtension) (sourceId : N) (p : AVPipeline)
    (v : VideoElement) (mpegInfo : MpegTextureInfo) (vs : VideoSource)
    (rb : RingBuffer) :
  capturing p v ->
  tr_width (textureRequirements p) <> 0 ->
  tr_height (textureRequirements p) <> 0 ->
  listeners p = [] ->
  textures textureExtension !! sourceId = Some mpegInfo ->
  sources textureExtension !! sourceId = Some vs ->
  bufferCircular vs = Some rb ->
  mi_width mpegInfo <> 0 -> mi_height mpegInfo <> 0 ->
  let q := after (Media.connectVideoTexture textureExtension sourceId p) in
  let c := Media.processVideoFrame q in
  textureRequirements q = textureRequirements p /\
  targetWidth q = Some (mi_width mpegInfo) /\
  targetHeight q = Some (mi_height mpegInfo) /\
  exists frame : Frame,
    emitted (trace c) = [frame] /\
    (mi_width mpegInfo = tr_width (textureRequirements p) /\
     mi_height mpegInfo = tr_height (textureRequirements p) ->
     videoSource (after c)
     = Some (mkVideoSource (circularBuffer vs) (Some (fst (push (data frame) rb))))) /\
    (mi_width mpegInfo <> tr_width (textureRequirements p) \/
     mi_height mpegInfo <> tr_height (textureRequirements p) ->
     videoSource (after c) = Some vs).
Proof.
  intros Hc Htw Hth Hl Ht Hs Hrb Hmw Hmh. cbv zeta.
  unfold Media.connectVideoTexture. rewrite Ht.
  cbn [videoSource set_videoSource]. rewrite Hs.
  destruct (N.eqb_spec (mi_width mpegInfo) 0); [contradiction|].
  destruct (N.eqb_spec (mi_height mpegInfo) 0); [contradiction|].
  cbn [orb after returns].
  set (q := on TextureListener _).
  split; [reflexivity|]. split; [reflexivity|]. split; [reflexivity|].
  assert (Hcq : capturing q v) by exact Hc.
  destruct (Media_processVideoFrame_runs q v Hcq Htw Hth)
    as (bytes & q' & Hafter & Hem & Hlen & Hsrc & Hls & Hqw & Hqh).
  cbv zeta in *. rewrite Hafter, Hem.
  eexists. split; [reflexivity|]. unfold mkFrame. cbn [data].
  unfold emit. rewrite Hls. subst q.
  cbn [listeners on set_listeners set_frameSize set_targetHeight set_targetWidth
       set_videoSource].
  rewrite Hl.
  cbn [app fold_left runListener]. unfold onVideoFrame.
  rewrite Hsrc, Hqw, Hqh.
  cbn [videoSource targetWidth targetHeight on set_listeners set_frameSize
       set_targetHeight set_targetWidth set_videoSource textureRequirements
       width height data data_buffer].
  rewrite Hrb. split.
  - intros [Hw Hh]. rewrite <- Hw, <- Hh, !N.eqb_refl. cbn [negb orb].
    cbn [textureRequirements on set_listeners set_frameSize set_targetHeight
         set_targetWidth set_videoSource] in Hlen.
    rewrite <- Hw, <- Hh in Hlen. rewrite Hlen, N.eqb_refl. cbn [negb].
    destruct (push bytes rb) as [rb' written] eqn:Hpush. reflexivity.
  - intros Hne.
    destruct (N.eqb_spec (tr_width (textureRequirements p)) (mi_width mpegInfo));
      destruct (N.eqb_spec (tr_height (textureRequirements p)) (mi_height mpegInfo));
      cbn [negb orb]; try (rewrite Hsrc; reflexivity).
    destruct Hne; congruence.
Qed.

Lemma Media_bound_capture_witness :
  let extension :=
    mkTextureExtension {[ 7 := mkMpegTextureInfo 4 2 "RGBA" 32 ]}
      {[ 7 := mkVideoSource None (Some (mkRingBuffer 64 [] 0 3)) ]} in
  let q := after (Media.connectVideoTexture extension 7
                    (Sample.playing Sample.target2x1 (Sample.surface 1))) in
  videoSource (after (Media.processVideoFrame q))
  = Some (mkVideoSource None (Some (mkRingBuffer 64 [] 0 3))).
Proof.
  cbv zeta.
  destruct (Media_bound_capture
              (mkTextureExtension {[ 7 := mkMpegTextureInfo 4 2 "RGBA" 32 ]}
                 {[ 7 := mkVideoSource None (Some (mkRingBuffer 64 [] 0 3)) ]})
              7 (Sample.playing Sample.target2x1 (Sample.surface 1))
              (Sample.surface 1) (mkMpegTextureInfo 4 2 "RGBA" 32)
              (mkVideoSource None (Some (mkRingBuffer 64 [] 0 3)))
              (mkRingBuffer 64 [] 0 3))
    as (_ & _ & _ & frame & _ & _ & Hdropped).
  - repeat split; try discriminate. exists (mkCanvas 300 150). reflexivity.
  - discriminate.
  - discriminate.
  - reflexivity.
  - vm_compute. reflexivity.
  - vm_compute. reflexivity.
  - reflexivity.
  - discriminate.
  - discriminate.
  - apply Hdropped. left. discriminate.
Defined.

(** ** Binding again in the second declaration *)

(** X16.  A call of [connectVideoTexture] of the second declaration that
    fails is not without effect.  When the texture is missing the pipeline
    is as before; when the texture is there and the video source is not,
    the source the pipeline was bound to is forgotten, and from then on its
    listener drops every frame; when both are there and the texture has no
    dimensions, the new source and the new target replace the old ones
    although the call raises. *)
Theorem Media_connectVideoTexture_failure
    (textureExtension : TextureExtension) (sourceId : N) (p : AVPipeline) :
  let c := Media.connectVideoTexture textureExtension sourceId p in
  (textures textureExtension !! sourceId = None ->
   thrown c = Some (TextureNotFound sourceId) /\ after c = p) /\
  (forall mpegInfo : MpegTextureInfo,
      textures textureExtension !! sourceId = Some mpegInfo ->
      sources textureExtension !! sourceId = None ->
      thrown c = Some (VideoSourceNotFound sourceId) /\
      videoSource (after c) = None /\
      sameButBuffers p (after c) /\
      videoSources (after c) = videoSources p /\
      forall frame : Frame, onVideoFrame frame (after c) = after c) /\
  (forall (mpegInfo : MpegTextureInfo) (vs : VideoSource),
      textures textureExtension !! sourceId = Some mpegInfo ->
      sources textureExtension !! sourceId = Some vs ->
      mi_width mpegInfo = 0 \/ mi_height mpegInfo = 0 ->
      thrown c = Some TargetDimensionsNotFound /\
      videoSource (after c) = Some vs /\
      targetWidth (after c) = Some (mi_width mpegInfo) /\
      targetHeight (after c) = Some (mi_height mpegInfo) /\
      listeners (after c) = listeners p).
Proof.
  cbv zeta. unfold Media.connectVideoTexture. split; [|split].
  - intros Ht. rewrite Ht. now split.
  - intros mpegInfo Ht Hs. rewrite Ht. cbn [videoSource set_videoSource]. rewrite Hs.
    cbn [thrown after throws videoSource set_videoSource].
    split; [reflexivity|]. split; [reflexivity|].
    split; [unfold sameButBuffers; now repeat split|].
    split; [reflexivity|]. intros frame. reflexivity.
  - intros mpegInfo vs Ht Hs Hz. rewrite Ht. cbn [videoSource set_videoSource]. rewrite Hs.
    replace ((mi_width mpegInfo =? 0) || (mi_height mpegInfo =? 0)) with true
      by (symmetry; apply orb_true_iff; rewrite !N.eqb_eq; exact Hz).
    now repeat split.
Qed.

(** ** The listener of the second declaration *)

(** X17.  The listener of the second declaration only ever appends: it
    changes neither [count] nor [maxFrames] nor the capacity of the ring
    buffer, keeps every byte the buffer holds, in place, and adds behind
    them a leading part of the storage under the payload
    ([frame.data.buffer], line 1006), without exceeding the capacity.  It
    adds nothing unless the frame has the target dimensions and that
    storage has four bytes for each pixel, and with room it adds all of the
    storage.  So a payload of the right length that is a window into
    larger storage is dropped, and under a payload that is a window into
    storage of the right length the bytes around it are pushed as well. *)
Theorem onVideoFrame_appends (frame : Frame) (p : AVPipeline)
    (vs : VideoSource) (rb : RingBuffer) :
  videoSource p = Some vs ->
  bufferCircular vs = Some rb ->
  (exists (rb' : RingBuffer) (k : nat),
      videoSource (onVideoFrame frame p)
      = Some (mkVideoSource (circularBuffer vs) (Some rb')) /\
      count rb' = count rb /\ maxFrames rb' = maxFrames rb /\
      capacity rb' = capacity rb /\
      stored rb' = stored rb ++ firstn k (data_buffer frame) /\
      (available_read rb <= capacity rb -> available_read rb' <= capacity rb') /\
      (targetWidth p <> Some (width frame) \/
       targetHeight p <> Some (height frame) \/
       byteLength (data_buffer frame) <> width frame * height frame * 4 ->
       rb' = rb) /\
      (targetWidth p = Some (width frame) ->
       targetHeight p = Some (height frame) ->
       byteLength (data_buffer frame) = width frame * height frame * 4 ->
       available_read rb + byteLength (data_buffer frame) <= capacity rb ->
       stored rb' = stored rb ++ data_buffer frame)) /\
  (forall before behind : list byte,
      byteLength (data frame) = width frame * height frame * 4 ->
      before ++ behind <> [] ->
      onVideoFrame (window before behind frame) p = p).
Proof.
  intros Hvs Hrb. split.
  - assert (Hkeep : forall q : AVPipeline,
               q = p ->
               targetWidth p <> Some (width frame) \/
               targetHeight p <> Some (height frame) \/
               byteLength (data_buffer frame) <> width frame * height frame * 4 ->
               exists (rb' : RingBuffer) (k : nat),
                 videoSource q = Some (mkVideoSource (circularBuffer vs) (Some rb')) /\
                 count rb' = count rb /\ maxFrames rb' = maxFrames rb /\
                 capacity rb' = capacity rb /\
                 stored rb' = stored rb ++ firstn k (data_buffer frame) /\
                 (available_read rb <= capacity rb -> available_read rb' <= capacity rb') /\
                 (targetWidth p <> Some (width frame) \/
                  targetHeight p <> Some (height frame) \/
                  byteLength (data_buffer frame) <> width frame * height frame * 4 ->
                  rb' = rb) /\
                 (targetWidth p = Some (width frame) ->
                  targetHeight p = Some (height frame) ->
                  byteLength (data_buffer frame) = width frame * height frame * 4 ->
                  available_read rb + byteLength (data_buffer frame) <= capacity rb ->
                  stored rb' = stored rb ++ data_buffer frame)).
    { intros q -> Hne. exists rb, 0%nat. rewrite Hvs.
      destruct vs as [a b]. cbn in Hrb. subst b. cbn [circularBuffer].
      repeat split; auto.
      - cbn. now rewrite app_nil_r.
      - intros H1 H2 H3. destruct Hne as [H|[H|H]]; contradiction. }
    unfold onVideoFrame. rewrite Hvs, Hrb.
    destruct (targetWidth p) as [tw|] eqn:Etw;
      [|apply Hkeep; [reflexivity | left; discriminate]].
    destruct (targetHeight p) as [th|] eqn:Eth;
      [|apply Hkeep; [reflexivity | right; left; discriminate]].
    destruct (N.eqb_spec (width frame) tw) as [Hw|Hw];
      [|apply Hkeep; [reflexivity | left; congruence]].
    destruct (N.eqb_spec (height frame) th) as [Hh|Hh];
      [|apply Hkeep; [reflexivity | right; left; congruence]].
    cbn [negb orb]. subst tw th.
    destruct (N.eqb_spec (byteLength (data_buffer frame))
                (width frame * height frame * 4)) as [Hl|Hl];
      [|apply Hkeep; [reflexivity | right; right; exact Hl]].
    cbn [negb push videoSource set_videoSource].
    eexists. eexists. split; [reflexivity|]. cbn [count maxFrames capacity stored].
    repeat split.
    + intros Hcap. unfold available_read, available_write, byteLength in *.
      cbn [stored capacity]. rewrite length_app, length_firstn.
      unfold available_read, byteLength. clear Hl. lia.
    + intros [H|[H|H]]; congruence.
    + intros _ _ _ Hroom. f_equal. apply firstn_all2.
      unfold available_write, available_read, byteLength in *. clear Hl. lia.
  - intros before behind Hlen Hne. unfold onVideoFrame, window.
    cbn [width height data_buffer].
    destruct (videoSource p) as [vs'|]; [|reflexivity].
    destruct (bufferCircular vs'), (targetWidth p) as [tw|], (targetHeight p) as [th|];
      try reflexivity.
    destruct (N.eqb_spec (width frame) tw) as [Hw|Hw]; [|reflexivity].
    destruct (N.eqb_spec (height frame) th) as [Hh|Hh]; [|reflexivity].
    cbn [negb orb]. subst tw th.
    destruct (N.eqb_spec (byteLength (before ++ data frame ++ behind))
                (width frame * height frame * 4)) as [Hl|Hl]; [|reflexivity].
    exfalso. rewrite !byteLength_app, Hlen in Hl.
    apply Hne. unfold byteLength in Hl.
    destruct before; [|cbn in Hl; lia]. destruct behind; [reflexivity|cbn in Hl; lia].
Qed.

Lemma onVideoFrame_appends_witness :
  exists (rb' : RingBuffer) (k : nat),
    videoSource
      (onVideoFrame
         (window [Byte.x02] [] (mkFrame [Byte.x01; Byte.x01; Byte.x01] 1 1 None))
         (set_targetHeight (Some 1)
            (set_targetWidth (Some 1)
               (set_videoSource
                  (Some (mkVideoSource None (Some (mkRingBuffer 8 [Byte.x00; Byte.x00; Byte.x00] 0 3))))
                  (newAVPipeline None)))))
    = Some (mkVideoSource None (Some rb')) /\
    stored rb' = [Byte.x00; Byte.x00; Byte.x00] ++ firstn k [Byte.x02; Byte.x01; Byte.x01; Byte.x01] /\
    stored rb' = [Byte.x00; Byte.x00; Byte.x00] ++ [Byte.x02; Byte.x01; Byte.x01; Byte.x01].
Proof.
  destruct (onVideoFrame_appends
              (window [Byte.x02] [] (mkFrame [Byte.x01; Byte.x01; Byte.x01] 1 1 None))
              (set_targetHeight (Some 1)
                 (set_targetWidth (Some 1)
                    (set_videoSource
                       (Some (mkVideoSource None
                                (Some (mkRingBuffer 8 [Byte.x00; Byte.x00; Byte.x00] 0 3))))
                       (newAVPipeline None))))
              (mkVideoSource None (Some (mkRingBuffer 8 [Byte.x00; Byte.x00; Byte.x00] 0 3)))
              (mkRingBuffer 8 [Byte.x00; Byte.x00; Byte.x00] 0 3) eq_refl eq_refl)
    as [(rb' & k & H1 & _ & _ & _ & H5 & _ & _ & H8) _].
  exists rb', k. split; [exact H1|]. split; [exact H5|].
  apply H8; [reflexivity | reflexivity | reflexivity | vm_compute; discriminate].
Defined.

(** ** Position and pause *)

(** X18.  [seek] of the second declaration never raises and touches
    neither the timer nor anything else but the position: with a video
    element, [getCurrentTime] afterwards returns the time sought, the
    element is as paused as before, and of two seeks the later one counts;
    without a video element [seek] does nothing and [getCurrentTime]
    returns 0. *)
Theorem seek_getCurrentTime (time earlier : Q) (p : AVPipeline) :
  let c := Media.seek time p in
  thrown c = None /\ trace c = [] /\
  after c = set_videoElement (videoElement (after c)) p /\
  after (Media.seek time (after (Media.seek earlier p))) = after c /\
  (forall v : VideoElement,
      videoElement p = Some v ->
      Media.getCurrentTime (after c) = time /\
      videoElement (after c) = Some (set_currentTime time v)) /\
  (videoElement p = None -> after c = p /\ Media.getCurrentTime (after c) = 0%Q).
Proof.
  cbv zeta. unfold Media.seek, Media.getCurrentTime.
  destruct p as [dash [v|] audio destination initialized interval
                 sources requirements lastFrame source tw th size overlay button ls];
    cbn; repeat split; try discriminate; congruence.
Qed.

(** X19.  [pause] of the second declaration never raises; [pause] and
    [stop] of the first declaration raise a TypeError exactly when the
    pipeline has no video element, and then change nothing.  With a video
    element all of them leave it paused, a second [pause] changes nothing
    more, and none of them touches the timer: that is left to the listener
    of the pause event. *)
Theorem pause_behaviour (p : AVPipeline) :
  thrown (Media.pause p) = None /\
  (thrown (Emitter.pause p) = Some TypeError <-> videoElement p = None) /\
  (thrown (Emitter.stop p) = Some TypeError <-> videoElement p = None) /\
  (videoElement p = None ->
   after (Media.pause p) = p /\ after (Emitter.pause p) = p /\ after (Emitter.stop p) = p) /\
  (forall v : VideoElement,
      videoElement p = Some v ->
      videoElement (after (Media.pause p)) = Some (set_paused true v) /\
      after (Emitter.pause p) = after (Media.pause p) /\
      after (Media.pause (after (Media.pause p))) = after (Media.pause p) /\
      after (Emitter.pause (after (Emitter.stop p))) = after (Emitter.stop p)) /\
  videoProcessingInterval (after (Media.pause p)) = videoProcessingInterval p /\
  videoProcessingInterval (after (Emitter.pause p)) = videoProcessingInterval p /\
  videoProcessingInterval (after (Emitter.stop p)) = videoProcessingInterval p.
Proof.
  unfold Media.pause, Emitter.pause, Emitter.stop.
  destruct p as [dash [v|] audio destination initialized interval
                 sources requirements lastFrame source tw th size overlay button ls];
    cbn; repeat split; try discriminate; congruence.
Qed.

(** ** Audio of the first declaration *)

(** X20.  [connectAudioSource] of the first declaration never raises and
    changes nothing of the pipeline but its audio context, which it takes
    from the extension only when the pipeline has none.  Source id 0 is
    never connected, being falsy.  The tap on the media element is made at
    most once, and only with a video element and an audio context; once
    made it stays.  A call connects the tap to at most one gain node, that
    of the source asked for. *)
Theorem connectAudioSource_taps_once
    (audioExtension : option EmitterSetup.AudioExtension) (sourceId : N)
    (p : AVPipeline) (tap : EmitterSetup.AudioTap) :
  let r := EmitterSetup.connectAudioSource audioExtension sourceId p tap in
  fst r = set_audioContext (audioContext (fst r)) p /\
  (sourceId = 0 -> r = (p, tap)) /\
  (forall s : AudioState, audioContext p = Some s -> audioContext (fst r) = Some s) /\
  (EmitterSetup.mediaElementSource tap = true ->
   EmitterSetup.mediaElementSource (snd r) = true) /\
  (EmitterSetup.mediaElementSource tap = false ->
   EmitterSetup.mediaElementSource (snd r) = true ->
   videoElement p <> None /\ audioContext (fst r) <> None) /\
  (EmitterSetup.connected (snd r) = EmitterSetup.connected tap \/
   exists (extension : EmitterSetup.AudioExtension) (gainNode : N),
     audioExtension = Some extension /\
     EmitterSetup.audioSources extension !! sourceId = Some gainNode /\
     EmitterSetup.mediaElementSource (snd r) = true /\
     EmitterSetup.connected (snd r) = EmitterSetup.connected tap ++ [gainNode]).
Proof.
  cbv zeta. unfold EmitterSetup.connectAudioSource.
  assert (Hid : p = set_audioContext (audioContext p) p) by now destruct p.
  destruct audioExtension as [extension|];
    [|cbn; repeat split; auto; congruence].
  destruct (N.eqb_spec sourceId 0) as [Hz|Hz];
    [cbn; repeat split; auto; congruence|].
  destruct (EmitterSetup.audioSources extension !! sourceId) as [gainNode|] eqn:Hg;
    [|cbn; repeat split; auto; congruence].
  destruct (audioContext p) as [s|] eqn:Hctx.
  - destruct (EmitterSetup.mediaElementSource tap) eqn:Htap.
    + cbn. rewrite Hctx. repeat split; auto; try congruence.
      right. exists extension, gainNode. repeat split; assumption.
    + rewrite Hctx. destruct (videoElement p) eqn:Hv; cbn; rewrite ?Hctx, ?Htap;
        repeat split; auto; try congruence.
      right. exists extension, gainNode. repeat split; assumption.
  - destruct (EmitterSetup.mediaElementSource tap) eqn:Htap.
    + cbn. repeat split; auto; try congruence.
      right. exists extension, gainNode. repeat split; assumption.
    + cbn [audioContext set_audioContext videoElement].
      destruct (EmitterSetup.extensionContext extension) eqn:He,
               (videoElement p) eqn:Hv; cbn; rewrite ?Htap;
        repeat split; auto; try congruence.
      right. exists extension, gainNode. repeat split; assumption.
Qed.

Example connectAudioSource_sample :
  let extension :=
    EmitterSetup.mkAudioExtension {[ 0 := 10; 4 := 14; 5 := 15 ]} (Some running) in
  let p := Sample.playing Sample.target2x1 (Sample.surface 1) in
  let start := EmitterSetup.mkAudioTap false [] in
  EmitterSetup.connectAudioSource (Some extension) 0 p start = (p, start) /\
  let '(p1, tap1) := EmitterSetup.connectAudioSource (Some extension) 4 p start in
  let '(p2, tap2) := EmitterSetup.connectAudioSource (Some extension) 5 p1 tap1 in
  audioContext p1 = Some running /\
  tap2 = EmitterSetup.mkAudioTap true [14; 15].
Proof. vm_compute. repeat split. Qed.

(** ** The interval the timer is started with *)

Local Open Scope Q_scope.

(** X21.  When [startVideoProcessing] of the first declaration starts the
    timer (no timer yet, a video element with [readyState >= 2]), the
    pacing begins at the clock reading of the call with no frame delay, and
    the tick period is at most 16.67 ms and at most half the target
    interval.  The target interval is that of 30 frames a second when the
    element reports no decoded frames; it is the media time over the frames
    decoded so far otherwise; and when frames were decoded at media time 0
    it is zero, the period is zero, and every tick from then on captures
    until a capture has taken place. *)
Theorem startVideoProcessing_interval
    (totalVideoFrames : option N) (now : Q) (p : AVPipeline) (v : VideoElement) :
  videoProcessingInterval p = None ->
  videoElement p = Some v ->
  (2 <= readyState v)%N ->
  exists (period : Q) (pc : Pacer),
    Emitter.startVideoProcessing totalVideoFrames now p
    = returns (set_videoProcessingInterval (Some (PacedInterval period pc)) p)
              [IntervalSet period] /\
    lastProcessTime pc = now /\ frameDelay pc = 0 /\
    period <= 1667 # 100 /\ period <= targetInterval pc / 2 /\
    (totalVideoFrames = None \/ totalVideoFrames = Some 0%N ->
     targetInterval pc == 1000 / 30) /\
    (forall n : N,
        totalVideoFrames = Some n -> n <> 0%N ->
        (~ currentTime v == 0 ->
         targetInterval pc * N2Q n == 1000 * currentTime v) /\
        (currentTime v == 0 ->
         targetInterval pc == 0 /\ period == 0 /\
         forall later : Q, now <= later -> due pc later = true)).
Proof.
  intros Hi Hv Hr. unfold Emitter.startVideoProcessing. rewrite Hi, Hv.
  apply N.leb_le in Hr. rewrite Hr.
  eexists. eexists. split; [reflexivity|].
  cbn [lastProcessTime frameDelay targetInterval].
  split; [reflexivity|]. split; [reflexivity|].
  split; [apply Q.le_min_r|]. split; [apply Q.le_min_l|]. split.
  - intros [->| ->]; reflexivity.
  - intros n -> Hn. unfold targetIntervalOf.
    destruct n as [|n']; [contradiction|].
    destruct (Qeq_bool (currentTime v) 0) eqn:Hz; split.
    + intros Hnz. apply Qeq_bool_iff in Hz. contradiction.
    + intros _. split; [reflexivity|]. split; [reflexivity|].
      intros later Hlater. apply due_iff.
      cbn [targetInterval frameDelay lastProcessTime]. lra.
    + intros Hnz. pose proof (N2Q_pos (N.pos n') ltac:(discriminate)) as Hpos.
      field. split; [exact Hnz | lra].
    + intros Hzero. apply Qeq_bool_iff in Hzero. congruence.
Qed.

Lemma startVideoProcessing_interval_witness :
  exists (period : Q) (pc : Pacer),
    videoProcessingInterval Sample.paced25 = Some (PacedInterval period pc) /\
    targetInterval pc * N2Q 25 == 1000 * 1 /\ period <= 1667 # 100.
Proof.
  destruct (startVideoProcessing_interval (Some 25%N) 0
              (Sample.playing Sample.target2x1 (Sample.surface 1))
              (Sample.surface 1) eq_refl eq_refl)
    as (period & pc & Hrun & _ & _ & Hp & _ & _ & Hrate).
  - vm_compute. discriminate.
  - exists period, pc. split.
    + unfold Sample.paced25. rewrite Hrun. reflexivity.
    + split; [|exact Hp].
      apply (Hrate 25%N eq_refl ltac:(discriminate)). vm_compute. discriminate.
Defined.

Local Close Scope Q_scope.

(** ** The timer of the second declaration *)

Local Open Scope Q_scope.

(** X22.  [startVideoProcessing] of the second declaration takes the
    playback rate of the element for a frame rate: when it starts the
    timer, the period is 1000 ms divided by the playback rate, one capture
    a second at normal speed, and that of 30 frames a second only for a
    playback rate of zero.  It raises a TypeError exactly when there is no
    video element, or when it would start the timer and there is no
    player; when it raises, and when a timer runs already, nothing
    changes. *)
Theorem Media_startVideoProcessing_period (playbackRate : Q) (p : AVPipeline) :
  let c := Media.startVideoProcessing playbackRate p in
  (thrown c = Some TypeError <->
   videoElement p = None \/
   (videoProcessingInterval p = None /\ dashPlayer p = false /\
    exists v : VideoElement, videoElement p = Some v /\ (2 <= readyState v)%N)) /\
  (thrown c <> None \/ videoProcessingInterval p <> None -> after c = p /\ trace c = []) /\
  (forall period : Q,
      In (IntervalSet period) (trace c) ->
      videoProcessingInterval p = None /\
      videoProcessingInterval (after c) = Some (PlainInterval period) /\
      (~ playbackRate == 0 -> period * playbackRate == 1000) /\
      (playbackRate == 1 -> period == 1000) /\
      (playbackRate == 0 -> period == 1000 / 30)).
Proof.
  cbv zeta. unfold Media.startVideoProcessing.
  destruct (videoElement p) as [v|] eqn:Hv.
  - destruct (videoProcessingInterval p) as [i|] eqn:Hi.
    + cbn. repeat split; try discriminate; try contradiction.
      intros [H|(H & _)]; discriminate.
    + destruct (N.leb_spec 2 (readyState v)) as [Hr|Hr].
      * destruct (dashPlayer p) eqn:Hd.
        -- cbn [thrown trace after returns]. split; [|split].
           ++ split; [discriminate|]. intros [H|(_ & H & _)]; discriminate.
           ++ intros [H|H]; contradiction.
           ++ intros period [[= <-]|[]].
              split; [reflexivity|]. split; [reflexivity|].
              destruct (Qeq_bool playbackRate 0) eqn:Hz.
              ** apply Qeq_bool_iff in Hz. repeat split.
                 --- intros H. contradiction.
                 --- intros H. rewrite H in Hz. discriminate.
              ** assert (Hnz : ~ playbackRate == 0).
                 { intros H. apply Qeq_bool_iff in H. congruence. }
                 repeat split.
                 --- intros _. field. exact Hnz.
                 --- intros H. rewrite H. reflexivity.
                 --- intros H. contradiction.
        -- cbn. repeat split; try contradiction; try discriminate.
           intros _. right. repeat split. exists v. now split.
      * cbn. repeat split; try discriminate; try contradiction.
        intros [H|(_ & _ & w & [= <-] & H)]; [discriminate|]. lia.
  - cbn. repeat split; try contradiction; try discriminate. intros _. now left.
Qed.

Local Close Scope Q_scope.

(** ** Events of the video element *)

Lemma EmitterSetup_run_app
    (rasterize : VideoElement -> Emitter.DrawRect -> N -> N -> list byte)
    (cs ds : list EmitterSetup.Call) :
  forall p : AVPipeline,
    fst (EmitterSetup.run rasterize (cs ++ ds) p)
    = fst (EmitterSetup.run rasterize ds (fst (EmitterSetup.run rasterize cs p))).
Proof.
  induction cs as [|c cs IH]; intros p; [reflexivity|].
  cbn [app EmitterSetup.run]. specialize (IH (after (EmitterSetup.call rasterize c p))).
  destruct (EmitterSetup.run rasterize (cs ++ ds) _) as [p1 t1].
  destruct (EmitterSetup.run rasterize cs _) as [p2 t2]. exact IH.
Qed.

(** No call of the first declaration takes the video element away. *)
Lemma Emitter_processVideoFrame_element
    (rasterize : VideoElement -> Emitter.DrawRect -> N -> N -> list byte)
    (p : AVPipeline) :
  videoElement (after (Emitter.processVideoFrame rasterize p)) = videoElement p.
Proof.
  unfold Emitter.processVideoFrame.
  destruct (videoElement p) as [v|] eqn:E; [|exact E].
  destruct (paused v || ended v); [exact E|].
  destruct (Emitter.tooSoon _ _); [exact E|].
  destruct ((videoWidth v =? 0) || (videoHeight v =? 0))%N; [exact E|].
  cbn [videoDestination set_lastFrameTime textureRequirements].
  destruct (videoDestination p) as [[[cv|] [|]]|]; try exact E.
  destruct (getImageData _ _ _); [|exact E].
  cbn [after returns].
  match goal with |- videoElement (emit ?f ?q) = _ =>
    rewrite (proj1 (proj2 (emit_sameButBuffers f q))) end.
  exact E.
Qed.

Lemma EmitterSetup_call_keeps_element
    (rasterize : VideoElement -> Emitter.DrawRect -> N -> N -> list byte)
    (c : EmitterSetup.Call) (p : AVPipeline) :
  videoElement p <> None ->
  videoElement (after (EmitterSetup.call rasterize c p)) <> None.
Proof.
  intros Hv.
  destruct c as [url|v|ev|now processStart finished| |ext id| |];
    cbn [EmitterSetup.call].
  - unfold EmitterSetup.initialize.
    destruct (isInitialized p); [exact Hv|].
    destruct url as [url|]; [destruct (isDASH url)|]; discriminate.
  - destruct (videoElement p); [discriminate | contradiction].
  - destruct (videoElement p) as [v|] eqn:E; [|contradiction].
    destruct ev; cbn [EmitterSetup.setupEventListeners fst];
      unfold Emitter.startVideoProcessing, Emitter.stopVideoProcessing;
      destruct (videoProcessingInterval p); cbn; rewrite ?E;
      try discriminate.
    destruct (2 <=? readyState v)%N; cbn; rewrite E; discriminate.
  - unfold Emitter.intervalCallback.
    destruct (videoProcessingInterval p) as [[period pc|period]|]; try exact Hv.
    destruct (due pc now); [|exact Hv]. cbn [after set_videoProcessingInterval videoElement].
    now rewrite Emitter_processVideoFrame_element.
  - now rewrite Emitter_processVideoFrame_element.
  - unfold Emitter.connectVideoTexture.
    destruct (textures ext !! id); [|exact Hv].
    destruct (sources ext !! id); exact Hv.
  - unfold Emitter.pause. destruct (videoElement p); [discriminate | contradiction].
  - unfold Emitter.stop. destruct (videoElement p); [discriminate | contradiction].
Qed.

Lemma EmitterSetup_run_keeps_element
    (rasterize : VideoElement -> Emitter.DrawRect -> N -> N -> list byte)
    (cs : list EmitterSetup.Call) :
  forall p : AVPipeline,
    videoElement p <> None ->
    videoElement (fst (EmitterSetup.run rasterize cs p)) <> None.
Proof.
  induction cs as [|c cs IH]; intros p Hv; [exact Hv|].
  cbn [EmitterSetup.run].
  specialize (IH _ (EmitterSetup_call_keeps_element rasterize c p Hv)).
  destruct (EmitterSetup.run rasterize cs _) as [p' t]. exact IH.
Qed.

(** X23.  On a pipeline of the first declaration that has its video
    element, whatever calls, events and ticks came before: after a pause,
    ended or error event no timer is left, and after a playing event that
    finds [readyState >= 2] a timer runs.  No call takes the video element
    away again. *)
Theorem events_drive_timer
    (rasterize : VideoElement -> Emitter.DrawRect -> N -> N -> list byte)
    (cs : list EmitterSetup.Call) (p : AVPipeline) :
  videoElement p <> None ->
  let q := fst (EmitterSetup.run rasterize cs p) in
  let then_ (ev : EmitterSetup.MediaEvent) :=
    fst (EmitterSetup.run rasterize (cs ++ [EmitterSetup.Dispatch ev]) p) in
  videoElement q <> None /\
  hasTimer (then_ EmitterSetup.onPause) = false /\
  hasTimer (then_ EmitterSetup.onEnded) = false /\
  hasTimer (then_ EmitterSetup.onError) = false /\
  snd (EmitterSetup.setupEventListeners EmitterSetup.onEnded q) = true /\
  snd (EmitterSetup.setupEventListeners EmitterSetup.onPause q) = false /\
  (forall (frames : option N) (now : Q) (v : VideoElement),
      videoElement q = Some v -> (2 <= readyState v)%N ->
      hasTimer (then_ (EmitterSetup.onPlaying frames now)) = true).
Proof.
  intros Hv. cbv zeta.
  pose proof (EmitterSetup_run_keeps_element rasterize cs p Hv) as Hq.
  split; [exact Hq|].
  assert (Hstop : forall ev,
             (forall f n, ev <> EmitterSetup.onPlaying f n) ->
             hasTimer (fst (EmitterSetup.run rasterize
                              (cs ++ [EmitterSetup.Dispatch ev]) p)) = false).
  { intros ev Hev. rewrite EmitterSetup_run_app.
    set (q := fst (EmitterSetup.run rasterize cs p)) in *.
    cbn [EmitterSetup.run EmitterSetup.call fst].
    destruct (videoElement q); [|contradiction].
    destruct ev as [f n| | |]; [now specialize (Hev f n)| | |];
      cbn [EmitterSetup.setupEventListeners fst];
      unfold Emitter.stopVideoProcessing, hasTimer;
      destruct (videoProcessingInterval q) eqn:Hi; cbn; now rewrite ?Hi. }
  split; [apply Hstop; discriminate|].
  split; [apply Hstop; discriminate|].
  split; [apply Hstop; discriminate|].
  split; [reflexivity|]. split; [reflexivity|].
  intros frames now v Hqv Hr. rewrite EmitterSetup_run_app.
  set (q := fst (EmitterSetup.run rasterize cs p)) in *.
  cbn [EmitterSetup.run EmitterSetup.call fst]. rewrite Hqv.
  cbn [EmitterSetup.setupEventListeners fst].
  unfold Emitter.startVideoProcessing, hasTimer.
  destruct (videoProcessingInterval q) eqn:Hi; [cbn; now rewrite Hi|].
  rewrite Hqv. apply N.leb_le in Hr. rewrite Hr. reflexivity.
Qed.

Lemma events_drive_timer_witness :
  hasTimer
    (fst (EmitterSetup.run Sample.nearest
            ([EmitterSetup.Dispatch (EmitterSetup.onPlaying (Some 25%N) 0);
              EmitterSetup.Tick (5001 # 100) (5001 # 100) (5101 # 100)]
             ++ [EmitterSetup.Dispatch EmitterSetup.onPause])
            (Sample.playing Sample.target2x1 (Sample.surface 1))))
  = false.
Proof.
  apply (events_drive_timer Sample.nearest
           [EmitterSetup.Dispatch (EmitterSetup.onPlaying (Some 25%N) 0);
            EmitterSetup.Tick (5001 # 100) (5001 # 100) (5101 # 100)]
           (Sample.playing Sample.target2x1 (Sample.surface 1))).
  discriminate.
Defined.

(** ** Audio of the second declaration *)

(** X24.  [connectAudioSource] of the second declaration raises exactly
    when the source is missing (not found), when the pipeline has no audio
    context or no video element (TypeError), or when the element has a
    media element source already (InvalidStateError), and then connects
    nothing.  When it returns it has connected the new media element source
    to the gain node of the source, and the sound gets from there to the
    destination exactly when the source is of type [Object] with a panner
    or of type [HOA] with a renderer node; a source of any other kind stays
    silent.  Each call makes a media element source of its own, so after a
    call that returned every further call raises. *)
Theorem Media_connectAudioSource_routes
    (sources : gmap N MediaAudio.AudioSource) (sourceId : N)
    (p : AVPipeline) (tapped : bool) :
  let r := MediaAudio.connectAudioSource sources sourceId p tapped in
  (MediaAudio.raised r = None <->
   is_Some (sources !! sourceId) /\ audioContext p <> None /\
   videoElement p <> None /\ tapped = false) /\
  (MediaAudio.raised r <> None ->
   MediaAudio.connections r = [] /\ MediaAudio.tappedAfter r = tapped) /\
  (forall source : MediaAudio.AudioSource,
      sources !! sourceId = Some source ->
      MediaAudio.raised r = None ->
      In (MediaAudio.MediaElementSource, MediaAudio.Gain (MediaAudio.gainNode source))
         (MediaAudio.connections r) /\
      MediaAudio.tappedAfter r = true /\
      (MediaAudio.reaches 3 (MediaAudio.connections r) MediaAudio.MediaElementSource = true
       <->
       (MediaAudio.type source = "Object"%string /\ MediaAudio.panner source <> None) \/
       (MediaAudio.type source = "HOA"%string /\ MediaAudio.hoaNode source <> None)) /\
      forall (sources' : gmap N MediaAudio.AudioSource) (sourceId' : N),
        MediaAudio.raised
          (MediaAudio.connectAudioSource sources' sourceId' p (MediaAudio.tappedAfter r))
        <> None).
Proof.
  cbv zeta. unfold MediaAudio.connectAudioSource.
  destruct (sources !! sourceId) as [source|] eqn:Hs.
  2:{ cbn. repeat split; try discriminate; try congruence.
      intros ([x Hx] & _). discriminate. }
  destruct (audioContext p) as [ctx|] eqn:Hc.
  2:{ cbn. repeat split; try discriminate; try congruence.
      intros (_ & H & _). contradiction. }
  destruct (videoElement p) as [v|] eqn:Hv.
  2:{ cbn. repeat split; try discriminate; try congruence.
      intros (_ & _ & H & _). contradiction. }
  destruct tapped.
  { cbn. repeat split; try discriminate; try congruence.
    intros (_ & _ & _ & H). discriminate. }
  destruct (String.eqb_spec (MediaAudio.type source) "Object") as [Ho|Ho];
    destruct (MediaAudio.panner source) as [pn|] eqn:Hp;
    destruct (String.eqb_spec (MediaAudio.type source) "HOA") as [Hh|Hh];
    destruct (MediaAudio.hoaNode source) as [hn|] eqn:Hhn;
    cbn [MediaAudio.raised MediaAudio.connections MediaAudio.tappedAfter];
    (split; [split; [intros _; repeat split; eauto; discriminate | reflexivity]|]);
    (split; [intros H; contradiction|]);
    intros source' [= <-] _;
    (split; [now left|]); (split; [reflexivity|]);
    (split;
     [rewrite Hp, Hhn; cbn; rewrite ?N.eqb_refl; cbn;
      split;
      [intros H; try discriminate H;
       first [left; split; [assumption | discriminate]
             |right; split; [assumption | discriminate]]
      |intros [[H1 H2]|[H1 H2]]; try reflexivity; try contradiction; congruence]
     |]);
    intros sources' sourceId';
    destruct (sources' !! sourceId'); discriminate.
Qed.

Example Media_connectAudioSource_sample :
  let object_ := MediaAudio.mkAudioSource "Object" 1 (Some 2) None in
  let mono := MediaAudio.mkAudioSource "Mono" 3 None None in
  let p := set_audioContext (Some running)
             (Sample.playing Sample.target2x1 (Sample.surface 1)) in
  MediaAudio.connections
    (MediaAudio.connectAudioSource {[ 4 := object_; 5 := mono ]} 4 p false)
  = [(MediaAudio.MediaElementSource, MediaAudio.Gain 1);
     (MediaAudio.Gain 1, MediaAudio.Panner 2);
     (MediaAudio.Panner 2, MediaAudio.Destination)] /\
  MediaAudio.connections
    (MediaAudio.connectAudioSource {[ 4 := object_; 5 := mono ]} 5 p false)
  = [(MediaAudio.MediaElementSource, MediaAudio.Gain 3)] /\
  MediaAudio.raised
    (MediaAudio.connectAudioSource {[ 4 := object_; 5 := mono ]} 5 p true)
  = Some MediaAudio.InvalidStateError.
Proof. vm_compute. repeat split. Qed.
